(** * XCP flash driver (src/flash.py): a shallow embedding and its properties

    The driver talks to a device over a CAN bus.  The model keeps the
    Python code's structure: the [XCPFlash] instance fields, the frames
    handed to [bus.send], the successive results of [reader.get_message]
    and what is written to standard output are explicit state; Python
    exceptions are an explicit outcome; every [while] loop runs on fuel. *)

From Stdlib Require Import ZArith List String Ascii Bool Lia.
Import ListNotations.
Open Scope Z_scope.

(** ** Enumerations and the error table *)

Inductive XCPCommands :=
| CONNECT | DISCONNECT | GET_COMM_MODE_INFO | GET_ID | SET_MTA | UPLOAD
| PROGRAM_START | PROGRAM_CLEAR | PROGRAM | PROGRAM_RESET | PROGRAM_NEXT.

Definition value (c : XCPCommands) : Z :=
  match c with
  | CONNECT => 0xFF
  | DISCONNECT => 0xFE
  | GET_COMM_MODE_INFO => 0xFB
  | GET_ID => 0xFA
  | SET_MTA => 0xF6
  | UPLOAD => 0xF5
  | PROGRAM_START => 0xD2
  | PROGRAM_CLEAR => 0xD1
  | PROGRAM => 0xD0
  | PROGRAM_RESET => 0xCF
  | PROGRAM_NEXT => 0xCA
  end.

Module XCPResponses.
Definition SUCCESS : Z := 0xFF.
Definition ERROR : Z := 0xFE.
End XCPResponses.

Module XCPErrors.
Definition ERR_CMD_SYNCH : Z := 0x00.
Definition ERR_CMD_BUSY : Z := 0x10.
Definition ERR_DAQ_ACTIVE : Z := 0x11.
Definition ERR_PGM_ACTIVE : Z := 0x12.
Definition ERR_CMD_UNKNOWN : Z := 0x20.
Definition ERR_CMD_SYNTAX : Z := 0x21.
Definition ERR_OUT_OF_RANGE : Z := 0x22.
Definition ERR_WRITE_PROTECTED : Z := 0x23.
Definition ERR_ACCESS_DENIED : Z := 0x24.
Definition ERR_ACCESS_LOCKED : Z := 0x25.
Definition ERR_PAGE_NOT_VALID : Z := 0x26.
Definition ERR_MODE_NOT_VALID : Z := 0x27.
Definition ERR_SEGMENT_NOT_VALID : Z := 0x28.
Definition ERR_SEQUENCE : Z := 0x29.
Definition ERR_DAQ_CONFIG : Z := 0x2A.
Definition ERR_MEMORY_OVERFLOW : Z := 0x30.
Definition ERR_GENERIC : Z := 0x31.
Definition ERR_VERIFY : Z := 0x32.

(** The dict [error_messages], in source order. *)
Definition error_messages : list (Z * string) :=
  [ (ERR_CMD_SYNCH, "Command processor synchronization.");
    (ERR_CMD_BUSY, "Command was not executed.");
    (ERR_DAQ_ACTIVE, "Command rejected because DAQ is running.");
    (ERR_PGM_ACTIVE, "Command rejected because PGM is running.");
    (ERR_CMD_UNKNOWN, "Unknown command or not implemented optional command.");
    (ERR_CMD_SYNTAX, "Command syntax invalid.");
    (ERR_OUT_OF_RANGE, "Command syntax valid but command parameter(s) out of range.");
    (ERR_WRITE_PROTECTED, "The memory location is write protected.");
    (ERR_ACCESS_DENIED, "The memory location is not accessible.");
    (ERR_ACCESS_LOCKED, "Access denied, Seed & Key are required.");
    (ERR_PAGE_NOT_VALID, "Selected page is not available.");
    (ERR_MODE_NOT_VALID, "Selected page mode is not available.");
    (ERR_SEGMENT_NOT_VALID, "Selected segment is not valid.");
    (ERR_SEQUENCE, "Sequence error.");
    (ERR_DAQ_CONFIG, "DAQ configuration is not valid.");
    (ERR_MEMORY_OVERFLOW, "Memory overflow error");
    (ERR_GENERIC, "Generic error.");
    (ERR_VERIFY, "The slave internal program verify routine detects an error.") ]%string.

(** [error_messages[k]] for an integer key: [None] stands for KeyError. *)
Fixpoint lookup (k : Z) (d : list (Z * string)) : option string :=
  match d with
  | [] => None
  | (k', v) :: d' => if k =? k' then Some v else lookup k d'
  end.
End XCPErrors.

(** ** Python values the driver manipulates *)

(** The single argument of a ConnectionAbortedError: the text "Timeout" or
    the integer error code read from the reply. *)
Inductive pyarg :=
| PStr (s : string)
| PInt (n : Z).

Inductive exn :=
| ConnectionAbortedError (arg : pyarg)
| ConnectionError (msg : string)
| ZeroDivisionError
| KeyError (key : pyarg)
| IndexError
| ValueError
| AttributeError.

(** A [can.Message]: the fields the driver sets and reads.  [data] is a
    bytearray. *)
Record Message := mkMessage {
  arbitration_id : Z;
  is_extended_id : bool;
  data : list Z
}.

(** The instance fields of [XCPFlash] that the methods read and write. *)
Record XCPFlash := mkXCPFlash {
  _tx_id : Z;
  _rx_id : Z;
  _conn_mode : Z;
  _data_len : Z;
  _max_data_prg : Z;
  _max_data : Z
}.

(** What reaches standard output: a [print] line, or the bar written by
    [print_progress_bar] (a function of [iteration] and [total]). *)
Inductive Output :=
| Print (s : string)
| ProgressBar (iteration total : Z).

(** The observable state: the instance, the frames given to [bus.send] in
    order, how many times [reader.get_message] was called, and stdout. *)
Record World := mkWorld {
  self : XCPFlash;
  sent : list Message;
  polls : nat;
  stdout : list Output
}.

(** ** Outcomes and the monad of the methods *)

Inductive result (A : Type) :=
| Ret (a : A) (w : World)
| Raise (e : exn) (w : World)
| OutOfFuel (w : World).
Arguments Ret {A} a w.
Arguments Raise {A} e w.
Arguments OutOfFuel {A} w.

Definition M (A : Type) := World -> result A.

Definition ret {A} (a : A) : M A := fun w => Ret a w.
Definition raise {A} (e : exn) : M A := fun w => Raise e w.
Definition bind {A B} (m : M A) (k : A -> M B) : M B :=
  fun w => match m w with
           | Ret a w' => k a w'
           | Raise e w' => Raise e w'
           | OutOfFuel w' => OutOfFuel w'
           end.

Notation "x <- m ;; k" := (bind m (fun x => k))
  (at level 61, m at next level, right associativity).
Notation "m ;;; k" := (bind m (fun _ => k))
  (at level 61, right associativity).

Definition state_of {A} (r : result A) : World :=
  match r with
  | Ret _ w => w
  | Raise _ w => w
  | OutOfFuel w => w
  end.

Definition get_self : M XCPFlash := fun w => Ret (self w) w.
Definition set_self (s : XCPFlash) : M unit :=
  fun w => Ret tt (mkWorld s (sent w) (polls w) (stdout w)).
Definition print (s : string) : M unit :=
  fun w => Ret tt (mkWorld (self w) (sent w) (polls w) (stdout w ++ [Print s])).
Definition write_bar (iteration total : Z) : M unit :=
  fun w => Ret tt (mkWorld (self w) (sent w) (polls w)
                           (stdout w ++ [ProgressBar iteration total])).

(** [self._bus.send(msg)] *)
Definition bus_send (msg : Message) : M unit :=
  fun w => Ret tt (mkWorld (self w) (sent w ++ [msg]) (polls w) (stdout w)).

(** ** bytearray and bytes operations *)

Definition len {A} (l : list A) : Z := Z.of_nat (List.length l).

(** [b[i]]: negative indices count from the end, out of range raises. *)
Definition getitem (b : list Z) (i : Z) : M Z :=
  let j := if i <? 0 then i + len b else i in
  if (j <? 0) || (len b <=? j) then raise IndexError
  else match nth_error b (Z.to_nat j) with
       | Some v => ret v
       | None => raise IndexError
       end.

Fixpoint update (b : list Z) (n : nat) (v : Z) : list Z :=
  match b, n with
  | [], _ => []
  | _ :: t, O => v :: t
  | h :: t, S n' => h :: update t n' v
  end.

(** [b[i] = v] on a bytearray: the value must be a byte, the index in range. *)
Definition setitem (b : list Z) (i : Z) (v : Z) : M (list Z) :=
  if (v <? 0) || (256 <=? v) then raise ValueError
  else
    let j := if i <? 0 then i + len b else i in
    if (j <? 0) || (len b <=? j) then raise IndexError
    else ret (update b (Z.to_nat j) v).

(** [msg.data[i] = v] *)
Definition set_data (msg : Message) (i : Z) (v : Z) : M Message :=
  d <- setitem (data msg) i v ;;
  ret (mkMessage (arbitration_id msg) (is_extended_id msg) d).

(** One bound of a slice, clamped as Python does for a step of 1. *)
Definition clamp (n : Z) (i : Z) : Z :=
  if i <? 0 then Z.max 0 (i + n) else Z.min i n.

(** [b[lo:hi]] *)
Definition slice {A} (b : list A) (lo hi : Z) : list A :=
  let l := clamp (len b) lo in
  let h := clamp (len b) hi in
  firstn (Z.to_nat (h - l)) (skipn (Z.to_nat l) b).

(** The keyword arguments [execute] looks at; [None] is an absent key. *)
Record Kwargs := mkKwargs {
  kw_addr_ext : option Z;
  kw_addr : option Z;
  kw_range : option Z;
  kw_size : option Z;
  kw_data : option (list Z)
}.

Definition no_kwargs : Kwargs := mkKwargs None None None None None.

(** [kwargs[name]] *)
Definition subscript {A} (name : string) (v : option A) : M A :=
  match v with
  | Some a => ret a
  | None => raise (KeyError (PStr name))
  end.

Definition nl : string := String (ascii_of_nat 10) EmptyString.

(** ** The methods of XCPFlash *)

(** [print_progress_bar(iteration, total, prefix, suffix)]: both
    [iteration / float(total)] and [length * iteration // total] divide by
    [total]; the percentage is computed first. *)
Definition print_progress_bar (iteration total : Z) : M unit :=
  if total =? 0 then raise ZeroDivisionError
  else
    write_bar iteration total ;;;
    if iteration =? total then print EmptyString else ret tt.

Section Driver.

(** The receive side of the bus: [rx n] is what the [n]-th call of
    [self._reader.get_message(timeout)] returns, [None] when the timeout
    expires with nothing in the queue. *)
Variable rx : nat -> option Message.

Definition get_message (timeout : Z) : M (option Message) :=
  fun w => Ret (rx (polls w))
               (mkWorld (self w) (sent w) (S (polls w)) (stdout w)).

(** [send_can_msg(msg, False)]: the frame is sent and nothing is awaited. *)
Definition send_can_msg_False (msg : Message) : M (option Message) :=
  bus_send msg ;;; ret None.

(** [received.arbitration_id == self._rx_id and received.data[0] == marker] *)
Definition reply_is (received : Message) (marker : Z) : M bool :=
  s <- get_self ;;
  if arbitration_id received =? _rx_id s then
    b0 <- getitem (data received) 0 ;;
    ret (b0 =? marker)
  else ret false.

(** The [while True] loop of [wait_for_response], one iteration per unit
    of fuel, with the local variable [tries]. *)
Fixpoint wait_for_response_loop (fuel : nat) (tries : Z) (timeout : Z)
         (msg : option Message) : M Message :=
  match fuel with
  | O => fun w => OutOfFuel w
  | S fuel' =>
      if tries =? 5 then raise (ConnectionAbortedError (PStr "Timeout"))
      else
        received <- get_message timeout ;;
        match received, msg with
        | None, Some m =>
            send_can_msg_False m ;;;
            wait_for_response_loop fuel' (tries + 1) timeout msg
        | None, None =>
            wait_for_response_loop fuel' tries timeout msg
        | Some r, _ =>
            ok <- reply_is r XCPResponses.SUCCESS ;;
            if ok then ret r
            else
              err <- reply_is r XCPResponses.ERROR ;;
              if err then
                code <- getitem (data r) 1 ;;
                raise (ConnectionAbortedError (PInt code))
              else
                match msg with
                | Some m =>
                    send_can_msg_False m ;;;
                    wait_for_response_loop fuel' tries timeout msg
                | None =>
                    wait_for_response_loop fuel' tries timeout msg
                end
        end
  end.

Definition wait_for_response (fuel : nat) (timeout : Z)
           (msg : option Message) : M Message :=
  wait_for_response_loop fuel 1 timeout msg.

(** [send_can_msg(msg, wait=True, timeout=30)]; the [try] only re-raises. *)
Definition send_can_msg (fuel : nat) (msg : Message) (wait : bool)
  : M (option Message) :=
  bus_send msg ;;;
  if wait then
    r <- wait_for_response fuel 30 (Some msg) ;;
    ret (Some r)
  else ret None.

(** [response.data] where [response] may be [None]. *)
Definition data_of (response : option Message) : M (list Z) :=
  match response with
  | Some r => ret (data r)
  | None => raise AttributeError
  end.

(** The loop [for i in range(4, 8): msg.data[i] = (v & (0xFF000000 >> (8
    * (i - 4)))) >> (8 * (7 - i))] of SET_MTA and PROGRAM_CLEAR. *)
Fixpoint put_be32 (name : string) (v : option Z) (range_ : list Z) (msg : Message)
  : M Message :=
  match range_ with
  | [] => ret msg
  | i :: range' =>
      x <- subscript name v ;;
      msg <- set_data msg i
               (Z.shiftr (Z.land x (Z.shiftr 0xFF000000 (8 * (i - 4))))
                         (8 * (7 - i))) ;;
      put_be32 name v range' msg
  end.

(** The loop [for data in kwargs["data"]: msg.data[position] = data;
    position += 1]. *)
Fixpoint put_payload (payload : list Z) (position : Z) (msg : Message)
  : M Message :=
  match payload with
  | [] => ret msg
  | b :: payload' =>
      msg <- set_data msg position b ;;
      put_payload payload' (position + 1) msg
  end.

Definition execute (fuel : nat) (command : XCPCommands) (kwargs : Kwargs)
  : M (option Message) :=
  s <- get_self ;;
  let msg := mkMessage (_tx_id s) false (repeat 0 8) in
  msg <- set_data msg 0 (value command) ;;
  match command with
  | CONNECT =>
      msg <- set_data msg 1 (_conn_mode s) ;;
      response <- send_can_msg fuel msg true ;;
      d <- data_of response ;;
      b4 <- getitem d 4 ;;
      s <- get_self ;;
      set_self (mkXCPFlash (_tx_id s) (_rx_id s) (_conn_mode s) (_data_len s)
                           (_max_data_prg s) (Z.shiftl b4 8)) ;;;
      b5 <- getitem d 5 ;;
      s <- get_self ;;
      set_self (mkXCPFlash (_tx_id s) (_rx_id s) (_conn_mode s) (_data_len s)
                           (_max_data_prg s) (_max_data s + b5)) ;;;
      ret response
  | DISCONNECT => send_can_msg fuel msg true
  | SET_MTA =>
      msg <- set_data msg 3 (match kw_addr_ext kwargs with
                             | Some e => e
                             | None => 0
                             end) ;;
      msg <- put_be32 "addr" (kw_addr kwargs) [4; 5; 6; 7] msg ;;
      send_can_msg fuel msg true
  | PROGRAM_START =>
      response <- send_can_msg fuel msg true ;;
      d <- data_of response ;;
      max_dto_prg <- getitem d 3 ;;
      max_bs <- getitem d 4 ;;
      s <- get_self ;;
      set_self (mkXCPFlash (_tx_id s) (_rx_id s) (_conn_mode s)
                           ((max_dto_prg - 2) * max_bs)
                           (_max_data_prg s) (_max_data s)) ;;;
      s <- get_self ;;
      set_self (mkXCPFlash (_tx_id s) (_rx_id s) (_conn_mode s) (_data_len s)
                           (max_dto_prg - 2) (_max_data s)) ;;;
      ret response
  | PROGRAM_CLEAR =>
      msg <- put_be32 "range" (kw_range kwargs) [4; 5; 6; 7] msg ;;
      send_can_msg fuel msg true
  | PROGRAM | PROGRAM_NEXT =>
      size <- subscript "size" (kw_size kwargs) ;;
      msg <- set_data msg 1 size ;;
      payload <- subscript "data" (kw_data kwargs) ;;
      msg <- put_payload payload 2 msg ;;
      size <- subscript "size" (kw_size kwargs) ;;
      s <- get_self ;;
      send_can_msg fuel msg (size <=? _max_data_prg s)
  | PROGRAM_RESET => send_can_msg fuel msg true
  | GET_COMM_MODE_INFO | GET_ID | UPLOAD => ret None
  end.

(** The inner [while send_length > 0] loop of [program]; it returns the
    updated [(bytes_send, send_length)]. *)
Fixpoint program_next_loop (n : nat) (fuel : nat) (data : list Z)
         (bytes_send send_length : Z) : M (Z * Z) :=
  if send_length >? 0 then
    match n with
    | O => fun w => OutOfFuel w
    | S n' =>
        s <- get_self ;;
        execute fuel PROGRAM_NEXT
                (mkKwargs None None None (Some send_length)
                   (Some (slice data bytes_send (bytes_send + _max_data_prg s)))) ;;;
        s <- get_self ;;
        let bytes_send := bytes_send + Z.min send_length (_max_data_prg s) in
        s <- get_self ;;
        let send_length := send_length - _max_data_prg s in
        program_next_loop n' fuel data bytes_send send_length
    end
  else ret (bytes_send, send_length).

(** The outer [while bytes_send < len(data)] loop; it returns the final
    [bytes_send]. *)
Fixpoint program_loop (n : nat) (fuel : nat) (data : list Z)
         (bytes_send : Z) : M Z :=
  if bytes_send <? len data then
    match n with
    | O => fun w => OutOfFuel w
    | S n' =>
        s <- get_self ;;
        let send_length := _data_len s in
        s <- get_self ;;
        (if bytes_send mod 10000 <=? _data_len s
         then print_progress_bar bytes_send (len data)
         else ret tt) ;;;
        let send_length :=
          if send_length >? len data - bytes_send
          then len data - bytes_send else send_length in
        s <- get_self ;;
        execute fuel PROGRAM
                (mkKwargs None None None (Some send_length)
                   (Some (slice data bytes_send (bytes_send + _max_data_prg s)))) ;;;
        s <- get_self ;;
        let send_length := send_length - _max_data_prg s in
        s <- get_self ;;
        let bytes_send := bytes_send + Z.min send_length (_max_data_prg s) in
        p <- program_next_loop fuel fuel data bytes_send send_length ;;
        program_loop n' fuel data (fst p)
    end
  else ret bytes_send.

Definition program (fuel : nat) (data : list Z) : M unit :=
  print "flashing new firmware..." ;;;
  bytes_send <- program_loop fuel fuel data 0 ;;
  print_progress_bar bytes_send (len data) ;;;
  execute fuel PROGRAM_RESET no_kwargs ;;;
  ret tt.

Definition clear (fuel : nat) (start_addr length : Z) : M unit :=
  print "erasing device (this may take several minutes)..." ;;;
  execute fuel PROGRAM_START no_kwargs ;;;
  execute fuel SET_MTA (mkKwargs None (Some start_addr) None None None) ;;;
  execute fuel PROGRAM_CLEAR (mkKwargs None None (Some length) None None) ;;;
  ret tt.

Definition connect (fuel : nat) : M unit :=
  print "connecting..." ;;;
  response <- execute fuel CONNECT no_kwargs ;;
  d <- data_of response ;;
  b1 <- getitem d 1 ;;
  if Z.land b1 16 =? 0 then
    raise (ConnectionError
             "Flash programming not supported by the connected device")
  else
    d <- data_of response ;;
    b2 <- getitem d 2 ;;
    if negb (Z.land b2 6 =? 0) then
      raise (ConnectionError "Address granularity > 1 not supported")
    else ret tt.

Definition disconnect (fuel : nat) : M unit :=
  print "disconnecting.." ;;;
  execute fuel DISCONNECT no_kwargs ;;;
  ret tt.

(** A [try] with [except] clauses: [handler e] is the body of the first
    clause that matches [e], if any. *)
Definition try_except {A} (body : M A) (handler : exn -> option (M A)) : M A :=
  fun w => match body w with
           | Raise e w' =>
               match handler e with
               | Some h => h w'
               | None => Raise e w'
               end
           | r => r
           end.

(** [try: body finally: final]: [final] runs however [body] ends, and an
    exception of [final] replaces the pending one. *)
Definition try_finally {A} (body : M A) (final : M unit) : M A :=
  fun w => match body w with
           | Ret a w' =>
               match final w' with
               | Ret _ w'' => Ret a w''
               | Raise e w'' => Raise e w''
               | OutOfFuel w'' => OutOfFuel w''
               end
           | Raise e w' =>
               match final w' with
               | Ret _ w'' => Raise e w''
               | Raise e' w'' => Raise e' w''
               | OutOfFuel w'' => OutOfFuel w''
               end
           | OutOfFuel w' => OutOfFuel w'
           end.

(** The body shared by both [except ConnectionAbortedError as err]
    clauses of [__call__]. *)
Definition report_aborted (arg : pyarg) : M unit :=
  match arg with
  | PStr s =>
      if String.eqb s "Timeout"
      then print (nl ++ "Connection aborted: Timeout")
      else raise (KeyError arg)
  | PInt code =>
      match XCPErrors.lookup code XCPErrors.error_messages with
      | Some m => print (nl ++ "Connection aborted: " ++ m)
      | None => raise (KeyError arg)
      end
  end.

(** The statements of the outer [try] of [__call__]. *)
Definition stages (fuel : nat) (start_addr : Z) (data : list Z) : M unit :=
  connect fuel ;;;
  clear fuel start_addr (len data) ;;;
  program fuel data.

Definition __call__ (fuel : nat) (start_addr : Z) (data : list Z) : M unit :=
  try_finally
    (try_except (stages fuel start_addr data)
       (fun e => match e with
                 | ConnectionAbortedError arg => Some (report_aborted arg)
                 | ConnectionError m =>
                     Some (print (nl ++ "Connection error: " ++ m))
                 | _ => None
                 end))
    (try_except (disconnect fuel)
       (fun e => match e with
                 | ConnectionAbortedError arg => Some (report_aborted arg)
                 | _ => None
                 end)).

End Driver.

(** ** Observations used in the statements *)

Definition Timeout : exn := ConnectionAbortedError (PStr "Timeout").

(** A poll that timed out. *)
Definition silent (ev : option Message) : bool :=
  match ev with
  | None => true
  | Some _ => false
  end.

(** A poll result that is neither a SUCCESS nor an ERROR reply for the
    session: nothing, a frame with another identifier, or a frame with the
    receive identifier whose first byte is neither marker. *)
Definition ignored (s : XCPFlash) (ev : option Message) : bool :=
  match ev with
  | None => true
  | Some r =>
      negb (arbitration_id r =? _rx_id s)
      || match data r with
         | [] => false
         | b0 :: _ =>
             negb (b0 =? XCPResponses.SUCCESS) && negb (b0 =? XCPResponses.ERROR)
         end
  end.

Definition silences (evs : list (option Message)) : nat :=
  List.length (filter silent evs).

Definition strays (evs : list (option Message)) : nat :=
  List.length (filter (fun ev => negb (silent ev)) evs).

(** [evs] holds exactly [need] timed-out polls and stops at the last one. *)
Fixpoint exhausts (need : nat) (evs : list (option Message)) : bool :=
  match need, evs with
  | O, [] => true
  | O, _ :: _ => false
  | S _, [] => false
  | S need', None :: evs' => exhausts need' evs'
  | S _, Some _ :: evs' => exhausts need evs'
  end.

(** The receive side delivers [evs] from the current poll on. *)
Definition delivers (rx : nat -> option Message) (w : World)
           (evs : list (option Message)) : Prop :=
  forall i, (i < List.length evs)%nat -> rx (polls w + i)%nat = nth i evs None.

(** [w] after [k] more transmissions of [msg] and [n] more polls. *)
Definition after_sends (w : World) (msg : Message) (k n : nat) : World :=
  mkWorld (self w) (sent w ++ repeat msg k) (polls w + n)%nat (stdout w).

Definition is_disconnect_line (o : Output) : bool :=
  match o with
  | Print s => String.eqb s "disconnecting.."
  | ProgressBar _ _ => false
  end.

(** How many times [disconnect] was entered: it is the only method that
    prints this line, and it prints it first. *)
Definition disconnect_calls (w : World) : nat :=
  List.length (filter is_disconnect_line (stdout w)).

(** Bytes 2 onward of a frame. *)
Definition packed (m : Message) : list Z := skipn 2 (data m).

(** The bytes a receiver takes from a PROGRAM or PROGRAM_NEXT frame whose
    byte 1 announces [size] remaining bytes, at most [capacity] per frame. *)
Definition taken (capacity : Z) (m : Message) : list Z :=
  firstn (Z.to_nat (Z.min (nth 1 (data m) 0) capacity)) (packed m).

(** Big-endian value of a byte list. *)
Definition be_value (bs : list Z) : Z :=
  fold_left (fun acc b => acc * 256 + b) bs 0.

(** ** Concrete sessions and devices *)

(** A fresh instance: transmit id 0x100, receive id 0x200, mode 0, and the
    class defaults for the negotiated fields. *)
Definition fresh : XCPFlash := mkXCPFlash 0x100 0x200 0 0 0 8.
Definition world0 : World := mkWorld fresh [] 0 [].

(** A SUCCESS reply whose bytes answer CONNECT (flash supported, address
    granularity 1) and PROGRAM_START (MAX_CTO_PGM 8, MAX_BS_PGM 2) alike. *)
Definition ok_reply : Message :=
  mkMessage 0x200 false [0xFF; 0x10; 0; 8; 2; 0; 0; 0].

(** The instance after that device answered CONNECT and PROGRAM_START. *)
Definition negotiated : XCPFlash := mkXCPFlash 0x100 0x200 0 12 6 512.
Definition world_negotiated : World := mkWorld negotiated [] 0 [].

Definition rx_ok : nat -> option Message := fun _ => Some ok_reply.
Definition rx_silent : nat -> option Message := fun _ => None.

(** A frame of unrelated traffic, then silence. *)
Definition stray_frame : Message :=
  mkMessage 0x300 false [0xFF; 0; 0; 0; 0; 0; 0; 0].
Definition rx_stray_then_silent : nat -> option Message :=
  fun n => match n with O => Some stray_frame | S _ => None end.

(** A frame with the receive identifier and a first byte that is neither
    marker, then a SUCCESS reply. *)
Definition odd_reply : Message :=
  mkMessage 0x200 false [0x42; 0; 0; 0; 0; 0; 0; 0].
Definition rx_odd_then_ok : nat -> option Message :=
  fun n => match n with O => Some odd_reply | S _ => Some ok_reply end.

(** An ERROR reply with code 0x01, which [error_messages] does not list,
    to the first command; SUCCESS afterwards. *)
Definition error_reply_01 : Message :=
  mkMessage 0x200 false [0xFE; 0x01; 0; 0; 0; 0; 0; 0].
Definition rx_error_01 : nat -> option Message :=
  fun n => match n with O => Some error_reply_01 | S _ => Some ok_reply end.

Definition a_frame : Message :=
  mkMessage 0x100 false [0xFE; 0; 0; 0; 0; 0; 0; 0].

Definition data8 : list Z := [1; 2; 3; 4; 5; 6; 7; 8].

(** The frames [program] emits for [data8] after that negotiation: the
    first PROGRAM, the PROGRAM_NEXT that follows it, the PROGRAM that opens
    the second unit, and the PROGRAM the loop then repeats. *)
Definition frame_first : Message :=
  mkMessage 0x100 false [0xD0; 8; 1; 2; 3; 4; 5; 6].
Definition frame_next : Message :=
  mkMessage 0x100 false [0xCA; 2; 3; 4; 5; 6; 7; 8].
Definition frame_second : Message :=
  mkMessage 0x100 false [0xD0; 4; 5; 6; 7; 8; 0; 0].
Definition frame_again : Message :=
  mkMessage 0x100 false [0xD0; 6; 3; 4; 5; 6; 7; 8].

Definition is_reset (m : Message) : bool :=
  match data m with
  | b0 :: _ => b0 =? value PROGRAM_RESET
  | [] => false
  end.

(** What a run [r] of the reply loop, started in [w] with [tries], did: it
    only added [k] copies of the frame over [n] polls, at most one per
    poll; if it raised, then IndexError, a ConnectionAbortedError with an
    integer, or Timeout, and Timeout only once [tries] was counted up to 5. *)
Definition loop_summary (msg : Message) (tries : Z) (w : World)
           (r : result Message) (k n : nat) : Prop :=
  state_of r = after_sends w msg k n /\
  (k <= n)%nat /\
  match r with
  | Raise e _ =>
      e = IndexError \/
      (exists code, e = ConnectionAbortedError (PInt code)) \/
      (e = Timeout /\ (tries <= 5 -> 5 - tries <= Z.of_nat k))
  | _ => True
  end.

(** The line an [except] clause of [__call__] prints for the exception
    [e], when it has a clause for it and that clause does not fail itself. *)
Definition failure_line (e : exn) : option string :=
  match e with
  | ConnectionAbortedError (PStr s) =>
      if String.eqb s "Timeout"
      then Some (nl ++ "Connection aborted: Timeout")%string
      else None
  | ConnectionAbortedError (PInt code) =>
      match XCPErrors.lookup code XCPErrors.error_messages with
      | Some m => Some (nl ++ "Connection aborted: " ++ m)%string
      | None => None
      end
  | ConnectionError m => Some (nl ++ "Connection error: " ++ m)%string
  | _ => None
  end.

(** The DISCONNECT frame of an instance. *)
Definition disconnect_frame (s : XCPFlash) : Message :=
  mkMessage (_tx_id s) false [0xFE; 0; 0; 0; 0; 0; 0; 0].

(** An ERROR reply with the listed code 0x10 (ERR_CMD_BUSY) to the first
    command; SUCCESS afterwards. *)
Definition error_reply_busy : Message :=
  mkMessage 0x200 false [0xFE; 0x10; 0; 0; 0; 0; 0; 0].
Definition rx_error_busy : nat -> option Message :=
  fun n => match n with O => Some error_reply_busy | S _ => Some ok_reply end.

(** A poll result that is a SUCCESS reply for the session. *)
Definition acks (s : XCPFlash) (ev : option Message) : bool :=
  match ev with
  | None => false
  | Some r =>
      (arbitration_id r =? _rx_id s)
      && match data r with
         | [] => false
         | b0 :: _ => b0 =? XCPResponses.SUCCESS
         end
  end.

(** The PROGRAM or PROGRAM_NEXT frame for a size and a payload, and the
    PROGRAM_RESET frame. *)
Definition program_frame (s : XCPFlash) (command : XCPCommands) (size : Z)
           (payload : list Z) : Message :=
  mkMessage (_tx_id s) false
    (value command :: size :: payload ++ repeat 0 (6 - List.length payload)).
Definition reset_frame (s : XCPFlash) : Message :=
  mkMessage (_tx_id s) false [0xCF; 0; 0; 0; 0; 0; 0; 0].

(** The [k] elements of [b] from position [lo] on. *)
Definition seg {A} (b : list A) (lo k : Z) : list A :=
  firstn (Z.to_nat k) (skipn (Z.to_nat lo) b).

(** [r] is a normal return. *)
Definition returns {A} (r : result A) : bool :=
  match r with
  | Ret _ _ => true
  | _ => false
  end.

(** An image of 13 bytes, and the instance after a device announced
    MAX_CTO_PGM 8 and MAX_BS_PGM 3: 6 bytes per frame, units of 18. *)
Definition data13 : list Z := [1; 2; 3; 4; 5; 6; 7; 8; 9; 10; 11; 12; 13].
Definition negotiated3 : XCPFlash := mkXCPFlash 0x100 0x200 0 18 6 768.

(** The instance after a device announced MAX_BS_PGM 1: units of one
    frame. *)
Definition negotiated1 : XCPFlash := mkXCPFlash 0x100 0x200 0 6 6 512.

(** A device like that of [rx_ok] that announces MAX_BS_PGM 3. *)
Definition ok_reply3 : Message :=
  mkMessage 0x200 false [0xFF; 0x10; 0; 8; 3; 0; 0; 0].
Definition rx_ok3 : nat -> option Message := fun _ => Some ok_reply3.

(** Two polls that time out, then the reply with first byte 0x42, then a
    SUCCESS reply. *)
Definition rx_silence_odd_ok : nat -> option Message :=
  fun n => match n with
           | O | S O => None
           | S (S O) => Some odd_reply
           | S (S (S _)) => Some ok_reply
           end.

(** Unrelated periodic traffic that passes the receive filter (identifier
    0x201 under mask 0x300), at every poll. *)
Definition noise_frame : Message :=
  mkMessage 0x201 false [0x11; 0x22; 0x33; 0x44; 0; 0; 0; 0].
Definition rx_noise : nat -> option Message := fun _ => Some noise_frame.

(** A device that acknowledges CONNECT and answers every later command
    with the listed error code 0x10. *)
Definition rx_clear_fails : nat -> option Message :=
  fun n => match n with O => Some ok_reply | S _ => Some error_reply_busy end.

(** [m] does not enter [disconnect]. *)
Definition quiet {A} (m : M A) : Prop :=
  forall w, disconnect_calls (state_of (m w)) = disconnect_calls w.

(** [m] ends, normally or with an exception. *)
Definition completes {A} (r : result A) : Prop :=
  match r with
  | OutOfFuel _ => False
  | _ => True
  end.

(** ** Steps that leave the world alone *)

(** [m] neither sends, polls, prints nor assigns a field. *)
Definition stateless {A} (m : M A) : Prop :=
  forall w, (exists a, m w = Ret a w) \/ (exists e, m w = Raise e w).

Lemma stateless_ret {A} (a : A) : stateless (ret a).
Proof. intros w; left; eexists; reflexivity. Qed.

Lemma stateless_raise {A} (e : exn) : stateless (@raise A e).
Proof. intros w; right; eexists; reflexivity. Qed.

Lemma stateless_bind {A B} (m : M A) (k : A -> M B) :
  stateless m -> (forall a, stateless (k a)) -> stateless (bind m k).
Proof.
  intros Hm Hk w. unfold bind.
  destruct (Hm w) as [[a ->] | [e ->]].
  - apply Hk.
  - right; eexists; reflexivity.
Qed.

Lemma stateless_getitem b i : stateless (getitem b i).
Proof.
  unfold getitem.
  destruct (_ || _); [apply stateless_raise|].
  destruct (nth_error _ _); [apply stateless_ret | apply stateless_raise].
Qed.

Lemma stateless_setitem b i v : stateless (setitem b i v).
Proof.
  unfold setitem.
  destruct (_ || _); [apply stateless_raise|].
  destruct (_ || _); [apply stateless_raise | apply stateless_ret].
Qed.

Lemma stateless_set_data msg i v : stateless (set_data msg i v).
Proof.
  apply stateless_bind; [apply stateless_setitem | intros; apply stateless_ret].
Qed.

Lemma stateless_subscript {A} name (v : option A) : stateless (subscript name v).
Proof. destruct v; [apply stateless_ret | apply stateless_raise]. Qed.

Lemma stateless_get_self : stateless get_self.
Proof. intros w; left; eexists; reflexivity. Qed.

Lemma stateless_reply_is r marker : stateless (reply_is r marker).
Proof.
  apply stateless_bind; [apply stateless_get_self | intros s].
  destruct (_ =? _); [|apply stateless_ret].
  apply stateless_bind; [apply stateless_getitem | intros; apply stateless_ret].
Qed.

Lemma stateless_data_of response : stateless (data_of response).
Proof. destruct response; [apply stateless_ret | apply stateless_raise]. Qed.

Lemma stateless_put_be32 name v range_ :
  forall msg, stateless (put_be32 name v range_ msg).
Proof.
  induction range_ as [|i range' IH]; intros msg; simpl.
  - apply stateless_ret.
  - apply stateless_bind; [apply stateless_subscript | intros x].
    apply stateless_bind; [apply stateless_set_data | intros; apply IH].
Qed.

Lemma stateless_put_payload payload :
  forall position msg, stateless (put_payload payload position msg).
Proof.
  induction payload as [|b payload' IH]; intros position msg; simpl.
  - apply stateless_ret.
  - apply stateless_bind; [apply stateless_set_data | intros; apply IH].
Qed.

(** ** The reply loop *)

Lemma reply_is_ignored s r marker w :
  self w = s ->
  ignored s (Some r) = true ->
  marker = XCPResponses.SUCCESS \/ marker = XCPResponses.ERROR ->
  reply_is r marker w = Ret false w.
Proof.
  intros Hs Hig Hm. unfold reply_is, bind, get_self. rewrite Hs.
  simpl in Hig.
  destruct (arbitration_id r =? _rx_id s); simpl in Hig; [|reflexivity].
  destruct (data r) as [|b0 d]; [discriminate|].
  apply andb_prop in Hig. destruct Hig as [H1 H2].
  apply negb_true_iff in H1, H2.
  unfold getitem. cbn.
  replace (Z.pos (Pos.of_succ_nat (List.length d)) <=? 0) with false
    by (symmetry; apply Z.leb_gt; lia).
  cbn. unfold ret. destruct Hm; subst marker; congruence.
Qed.

Lemma exhausts_snoc before :
  forall n, silences before = n -> exhausts (S n) (before ++ [None]) = true.
Proof.
  unfold silences.
  induction before as [|[r|] before IH]; intros n Hn; simpl in *.
  - subst; reflexivity.
  - apply IH; assumption.
  - destruct n as [|n]; [discriminate|]. apply IH. congruence.
Qed.

Lemma strays_silences evs : (strays evs + silences evs = List.length evs)%nat.
Proof.
  unfold strays, silences.
  induction evs as [|[r|] evs IH]; simpl; lia.
Qed.

Section ReplyLoop.
Variable rx : nat -> option Message.
Variable timeout : Z.
Variable msg : Message.

Lemma delivers_tail w ev evs :
  delivers rx w (ev :: evs) ->
  rx (polls w) = ev /\
  forall w', polls w' = S (polls w) -> delivers rx w' evs.
Proof.
  intros H. split.
  - specialize (H 0%nat). simpl in H. rewrite Nat.add_0_r in H.
    apply H. lia.
  - intros w' Hp i Hi. specialize (H (S i)). simpl in H.
    rewrite Hp. rewrite <- H by lia. f_equal. lia.
Qed.

(** With [need] timeouts still to come before [tries] reaches 5, the loop
    resends once per poll and then raises Timeout. *)
Lemma wait_loop_exhausted evs :
  forall need fuel tries w,
    tries = 5 - Z.of_nat need ->
    delivers rx w evs ->
    forallb (ignored (self w)) evs = true ->
    exhausts need evs = true ->
    (List.length evs < fuel)%nat ->
    wait_for_response_loop rx fuel tries timeout (Some msg) w
    = Raise Timeout (after_sends w msg (List.length evs) (List.length evs)).
Proof.
  induction evs as [|ev evs IH]; intros need fuel tries w Ht Hd Hig Hex Hf.
  - destruct need; [|discriminate].
    destruct fuel; [simpl in Hf; lia|].
    simpl. replace (tries =? 5) with true by (symmetry; apply Z.eqb_eq; lia).
    unfold raise, after_sends, Timeout. destruct w; simpl.
    rewrite app_nil_r, Nat.add_0_r. reflexivity.
  - destruct need as [|need]; [discriminate|].
    destruct fuel as [|fuel]; [simpl in Hf; lia|].
    simpl in Hf. apply PeanoNat.lt_S_n in Hf.
    apply delivers_tail in Hd. destruct Hd as [Hev Hd].
    simpl in Hig. apply andb_prop in Hig. destruct Hig as [Hig1 Hig].
    cbn [wait_for_response_loop].
    replace (tries =? 5) with false by (symmetry; apply Z.eqb_neq; lia).
    unfold bind at 1. unfold get_message. rewrite Hev.
    destruct ev as [r|].
    + simpl in Hex.
      unfold bind at 1.
      rewrite (reply_is_ignored (self w) r) by (auto; reflexivity).
      unfold bind at 1.
      rewrite (reply_is_ignored (self w) r) by (auto; reflexivity).
      unfold bind at 1. unfold send_can_msg_False, bind, bus_send, ret.
      rewrite (IH (S need) fuel tries) ; try assumption; try reflexivity.
      * unfold after_sends; cbn. f_equal. f_equal.
        -- rewrite <- app_assoc. reflexivity.
        -- lia.
      * apply Hd. reflexivity.
    + simpl in Hex.
      unfold send_can_msg_False, bind, bus_send, ret.
      rewrite (IH need fuel (tries + 1)); try assumption.
      * unfold after_sends; cbn. f_equal. f_equal.
        -- rewrite <- app_assoc. reflexivity.
        -- lia.
      * lia.
      * apply Hd. reflexivity.
Qed.
End ReplyLoop.

(** C3, as stated, fails: one frame of unrelated traffic followed by
    silence is an exchange in which no SUCCESS or ERROR reply ever arrives,
    and it ends in Timeout after 6 transmissions of the frame, not 5. *)
Lemma C3_stray_frame_adds_a_send :
  (forall n, ignored fresh (rx_stray_then_silent n) = true) /\
  exists w',
    send_can_msg rx_stray_then_silent 10 a_frame true world0 = Raise Timeout w' /\
    sent w' = repeat a_frame 6 /\
    List.length (sent w') <> 5%nat.
Proof.
  split.
  - intros [|n]; reflexivity.
  - eexists. split; [reflexivity|]. split; [reflexivity|]. cbn. lia.
Qed.

(** C3, amended: when the polls deliver no SUCCESS or ERROR reply for the
    session, the exchange raises Timeout at the fourth poll that times out;
    the same frame has then been sent 5 times plus once per frame received
    and ignored before that poll, so exactly 5 times on a silent bus. *)
Theorem C3_timeout_at_fourth_silent_poll
        (rx : nat -> option Message) (msg : Message) (w : World)
        (before : list (option Message)) (fuel : nat) :
  delivers rx w (before ++ [None]) ->
  forallb (ignored (self w)) before = true ->
  silences before = 3%nat ->
  (List.length before + 1 < fuel)%nat ->
  send_can_msg rx fuel msg true w
  = Raise Timeout
      (after_sends w msg (5 + strays before) (List.length before + 1)).
Proof.
  intros Hd Hig Hs Hf.
  unfold send_can_msg, bind at 1. unfold bus_send.
  unfold bind, wait_for_response.
  rewrite (wait_loop_exhausted rx 30 msg (before ++ [None]) 4).
  - pose proof (strays_silences before) as Hc.
    replace (5 + strays before)%nat with (S (List.length before + 1)) by lia.
    unfold after_sends. cbn [self sent polls stdout].
    rewrite length_app, <- app_assoc. reflexivity.
  - reflexivity.
  - exact Hd.
  - cbn. rewrite forallb_app, Hig. reflexivity.
  - apply exhausts_snoc. exact Hs.
  - rewrite length_app. cbn. lia.
Qed.

Lemma C3_timeout_at_fourth_silent_poll_witness :
  send_can_msg rx_silent 10 a_frame true world0
  = Raise Timeout (after_sends world0 a_frame 5 4).
Proof.
  apply (C3_timeout_at_fourth_silent_poll rx_silent a_frame world0
           [None; None; None]).
  - intros i Hi. cbn in Hi. unfold rx_silent.
    do 4 (destruct i as [|i]; [reflexivity|]). lia.
  - reflexivity.
  - reflexivity.
  - cbn. lia.
Defined.

Lemma reply_is_true r marker w b w' :
  reply_is r marker w = Ret b w' ->
  w' = w /\
  (b = true ->
   arbitration_id r = _rx_id (self w) /\ nth_error (data r) 0 = Some marker).
Proof.
  unfold reply_is, bind, get_self.
  destruct (arbitration_id r =? _rx_id (self w)) eqn:Hid.
  - unfold getitem. cbn.
    destruct (data r) as [|b0 d]; cbn; [discriminate|].
    replace (Z.pos (Pos.of_succ_nat (List.length d)) <=? 0) with false
      by (symmetry; apply Z.leb_gt; lia).
    cbn. unfold ret. intros H; inversion H; subst; clear H.
    split; [reflexivity|]. intros Hb.
    apply Z.eqb_eq in Hid, Hb. subst. auto.
  - unfold ret. intros H; inversion H; subst. split; [reflexivity|discriminate].
Qed.

(** Whatever [wait_for_response] returns is a frame with the receive
    identifier and the SUCCESS marker. *)
Lemma wait_loop_returns_success rx timeout omsg fuel :
  forall tries w r w',
    wait_for_response_loop rx fuel tries timeout omsg w = Ret r w' ->
    arbitration_id r = _rx_id (self w) /\
    nth_error (data r) 0 = Some XCPResponses.SUCCESS.
Proof.
  induction fuel as [|fuel IH]; intros tries w r w' H; [discriminate|].
  cbn [wait_for_response_loop] in H.
  destruct (tries =? 5); [discriminate|].
  unfold bind at 1 in H. unfold get_message in H.
  destruct (rx (polls w)) as [r0|].
  - unfold bind at 1 in H.
    destruct (reply_is r0 XCPResponses.SUCCESS _) as [ok w1|e w1|w1] eqn:Hok;
      try discriminate.
    apply reply_is_true in Hok. destruct Hok as [-> Hok].
    destruct ok.
    + inversion H; subst. apply Hok. reflexivity.
    + unfold bind at 1 in H.
      destruct (reply_is r0 XCPResponses.ERROR _) as [er w2|e w2|w2] eqn:Her;
        try discriminate.
      apply reply_is_true in Her. destruct Her as [-> _].
      destruct er.
      * unfold bind in H. destruct (getitem _ _ _); discriminate.
      * destruct omsg as [m|].
        -- unfold send_can_msg_False, bind, bus_send, ret in H.
           apply IH in H. exact H.
        -- apply IH in H. exact H.
  - destruct omsg as [m|].
    + unfold send_can_msg_False, bind, bus_send, ret in H.
      apply IH in H. exact H.
    + apply IH in H. exact H.
Qed.

(** C4, as stated, fails: a reply with the receive identifier and first
    byte 0x42 does not end the exchange in a failure; the frame is sent
    again and the SUCCESS reply that follows is returned. *)
Lemma C4_odd_reply_then_success_returns :
  arbitration_id odd_reply = _rx_id fresh /\
  nth_error (data odd_reply) 0 = Some 0x42 /\
  send_can_msg rx_odd_then_ok 10 a_frame true world0
  = Ret (Some ok_reply) (after_sends world0 a_frame 2 2).
Proof. repeat split. Qed.

(** C4, amended: at any point of an exchange, whatever the count of tries
    so far, a reply with the receive identifier whose first byte is neither
    marker raises nothing: it is dropped, the original frame is sent once
    more, the count of tries is unchanged, and the loop goes on waiting;
    whatever the loop returns carries the SUCCESS marker, so that reply is
    never taken for a success. *)
Theorem C4_odd_reply_is_dropped_and_frame_resent
        (rx : nat -> option Message) (timeout : Z) (msg : Message) (w : World)
        (r : Message) (b0 : Z) (rest : list Z) (fuel : nat) (tries : Z) :
  rx (polls w) = Some r ->
  arbitration_id r = _rx_id (self w) ->
  data r = b0 :: rest ->
  b0 <> XCPResponses.SUCCESS ->
  b0 <> XCPResponses.ERROR ->
  tries <> 5 ->
  wait_for_response_loop rx (S fuel) tries timeout (Some msg) w
  = wait_for_response_loop rx fuel tries timeout (Some msg)
      (after_sends w msg 1 1)
  /\ forall r' w',
      wait_for_response_loop rx (S fuel) tries timeout (Some msg) w = Ret r' w' ->
      nth_error (data r') 0 = Some XCPResponses.SUCCESS /\ r' <> r.
Proof.
  intros Hrx Hid Hd Hs He Ht.
  assert (Hig : ignored (self w) (Some r) = true).
  { cbn. rewrite Hd. apply orb_true_iff. right.
    apply andb_true_iff. split; apply negb_true_iff, Z.eqb_neq; assumption. }
  split.
  - cbn [wait_for_response_loop].
    replace (tries =? 5) with false by (symmetry; apply Z.eqb_neq; exact Ht).
    unfold bind at 1. unfold get_message. rewrite Hrx.
    unfold bind at 1.
    rewrite (reply_is_ignored (self w) r) by (auto; reflexivity).
    unfold bind at 1.
    rewrite (reply_is_ignored (self w) r) by (auto; reflexivity).
    unfold bind at 1. unfold send_can_msg_False, bind at 1.
    unfold bus_send, ret, after_sends. cbn [self sent polls stdout repeat].
    replace (polls w + 1)%nat with (S (polls w)) by lia.
    reflexivity.
  - intros r' w' H.
    apply wait_loop_returns_success in H. destruct H as [_ H].
    split; [exact H|].
    intros ->. rewrite Hd in H. cbn in H. congruence.
Qed.

Lemma C4_odd_reply_is_dropped_and_frame_resent_witness :
  (wait_for_response_loop rx_silence_odd_ok 8 3 30 (Some a_frame)
     (after_sends world0 a_frame 3 2)
   = wait_for_response_loop rx_silence_odd_ok 7 3 30 (Some a_frame)
       (after_sends (after_sends world0 a_frame 3 2) a_frame 1 1)
   /\ forall r' w',
       wait_for_response_loop rx_silence_odd_ok 8 3 30 (Some a_frame)
         (after_sends world0 a_frame 3 2) = Ret r' w' ->
       nth_error (data r') 0 = Some XCPResponses.SUCCESS /\ r' <> odd_reply)
  /\ send_can_msg rx_silence_odd_ok 10 a_frame true world0
     = Ret (Some ok_reply) (after_sends world0 a_frame 4 4).
Proof.
  split.
  - apply (C4_odd_reply_is_dropped_and_frame_resent
             rx_silence_odd_ok 30 a_frame (after_sends world0 a_frame 3 2)
             odd_reply 0x42 [0; 0; 0; 0; 0; 0; 0] 7 3).
    + reflexivity.
    + reflexivity.
    + reflexivity.
    + unfold XCPResponses.SUCCESS. lia.
    + unfold XCPResponses.ERROR. lia.
    + lia.
  - reflexivity.
Defined.

(** ** Building and sending a frame *)

(** An exchange only adds copies of its frame to the bus log and polls: at
    least the first transmission, then the retransmissions. *)
Lemma wait_loop_world rx timeout msg fuel :
  forall tries w,
  exists k n,
    state_of (wait_for_response_loop rx fuel tries timeout (Some msg) w)
    = after_sends w msg k n.
Proof.
  assert (Hnil : forall w, w = after_sends w msg 0 0).
  { intros [s l p o]. unfold after_sends; cbn.
    rewrite app_nil_r, Nat.add_0_r. reflexivity. }
  assert (Hsend : forall w k n,
             after_sends (mkWorld (self w) (sent w ++ [msg]) (S (polls w)) (stdout w))
                         msg k n
             = after_sends w msg (S k) (S n)).
  { intros w k n. unfold after_sends; cbn. rewrite <- app_assoc.
    f_equal. lia. }
  induction fuel as [|fuel IH]; intros tries w.
  - exists 0%nat, 0%nat. apply Hnil.
  - cbn [wait_for_response_loop].
    destruct (tries =? 5); [exists 0%nat, 0%nat; apply Hnil|].
    unfold bind at 1. unfold get_message.
    set (w1 := mkWorld (self w) (sent w) (S (polls w)) (stdout w)).
    assert (H1 : forall k n, after_sends w1 msg k n = after_sends w msg k (S n)).
    { intros k n. unfold after_sends, w1; cbn. f_equal. lia. }
    assert (Hstay : exists k n, w1 = after_sends w msg k n).
    { exists 0%nat, 1%nat. rewrite <- H1. apply Hnil. }
    assert (Hloop : forall t,
               exists k n,
                 state_of ((send_can_msg_False msg ;;;
                            wait_for_response_loop rx fuel t timeout (Some msg)) w1)
                 = after_sends w msg k n).
    { intros t. unfold send_can_msg_False, bind, bus_send, ret.
      destruct (IH t (mkWorld (self w1) (sent w1 ++ [msg]) (polls w1) (stdout w1)))
        as (k & n & Hk).
      exists (S k), (S n). rewrite Hk. apply Hsend. }
    destruct (rx (polls w)) as [r|]; [|apply Hloop].
    unfold bind at 1.
    destruct (stateless_reply_is r XCPResponses.SUCCESS w1) as [[ok ->]|[e ->]];
      [|exact Hstay].
    destruct ok; [exact Hstay|].
    unfold bind at 1.
    destruct (stateless_reply_is r XCPResponses.ERROR w1) as [[er ->]|[e ->]];
      [|exact Hstay].
    destruct er; [|apply Hloop].
    unfold bind.
    destruct (stateless_getitem (data r) 1 w1) as [[c ->]|[e ->]]; exact Hstay.
Qed.

Lemma send_can_msg_world rx fuel msg wait w :
  exists k n,
    state_of (send_can_msg rx fuel msg wait w) = after_sends w msg (S k) n.
Proof.
  unfold send_can_msg, bind at 1. unfold bus_send.
  set (w1 := mkWorld (self w) (sent w ++ [msg]) (polls w) (stdout w)).
  assert (H1 : forall k n, after_sends w1 msg k n = after_sends w msg (S k) n).
  { intros k n. unfold after_sends, w1; cbn. rewrite <- app_assoc. reflexivity. }
  destruct wait.
  - destruct (wait_loop_world rx 30 msg fuel 1 w1) as (k & n & Hk).
    exists k, n. rewrite <- H1, <- Hk. unfold bind, wait_for_response.
    destruct (wait_for_response_loop _ _ _ _ _ _); reflexivity.
  - exists 0%nat, 0%nat. rewrite <- H1. unfold ret, after_sends; cbn.
    destruct w; cbn. rewrite app_nil_r, Nat.add_0_r. reflexivity.
Qed.

Lemma set_data_ok msg i v w :
  0 <= v < 256 ->
  0 <= i < len (data msg) ->
  set_data msg i v w
  = Ret (mkMessage (arbitration_id msg) (is_extended_id msg)
                   (update (data msg) (Z.to_nat i) v)) w.
Proof.
  intros Hv Hi. unfold set_data, bind, setitem.
  replace ((v <? 0) || (256 <=? v)) with false
    by (symmetry; apply orb_false_iff; split;
        [apply Z.ltb_ge | apply Z.leb_gt]; lia).
  replace (i <? 0) with false by (symmetry; apply Z.ltb_ge; lia).
  replace ((i <? 0) || (len (data msg) <=? i)) with false
    by (symmetry; apply orb_false_iff; split;
        [apply Z.ltb_ge | apply Z.leb_gt]; lia).
  reflexivity.
Qed.

Lemma update_app pre x post v :
  update (pre ++ x :: post) (List.length pre) v = pre ++ v :: post.
Proof. induction pre as [|p pre IH]; cbn; [reflexivity | rewrite IH; reflexivity]. Qed.

Lemma put_payload_ok payload :
  forall pre old post msg position w,
    data msg = pre ++ old ++ post ->
    List.length old = List.length payload ->
    position = len pre ->
    Forall (fun b => 0 <= b < 256) payload ->
    put_payload payload position msg w
    = Ret (mkMessage (arbitration_id msg) (is_extended_id msg)
                     (pre ++ payload ++ post)) w.
Proof.
  induction payload as [|b payload IH];
    intros pre old post msg position w Hd Hl Hp Hb.
  - destruct old; [|discriminate]. cbn in *. rewrite <- Hd.
    destruct msg; reflexivity.
  - destruct old as [|o old]; [discriminate|].
    inversion Hb as [|? ? Hb1 Hb2]; subst.
    cbn [put_payload]. unfold bind.
    rewrite set_data_ok.
    + rewrite (IH (pre ++ [b]) old post).
      * cbn. rewrite <- app_assoc. reflexivity.
      * cbn. rewrite Hd. unfold len. rewrite Nat2Z.id.
        cbn. rewrite update_app, <- app_assoc. reflexivity.
      * cbn in Hl. lia.
      * unfold len. rewrite length_app. cbn. lia.
      * assumption.
    + assumption.
    + rewrite Hd. unfold len. rewrite !length_app. cbn. lia.
Qed.

(** One byte of the big-endian loop: the mask-and-shift of the source picks
    the byte of weight [256 ^ (7 - i)]. *)
Lemma be_byte x i :
  4 <= i <= 7 ->
  Z.shiftr (Z.land x (Z.shiftr 0xFF000000 (8 * (i - 4)))) (8 * (7 - i))
  = (x / 2 ^ (8 * (7 - i))) mod 256.
Proof.
  intros Hi.
  rewrite Z.shiftr_land, Z.shiftr_shiftr by lia.
  replace (8 * (i - 4) + 8 * (7 - i)) with 24 by lia.
  change (Z.shiftr 0xFF000000 24) with (Z.ones 8).
  rewrite Z.land_ones by lia.
  rewrite Z.shiftr_div_pow2 by lia.
  reflexivity.
Qed.

Lemma update_length b :
  forall n v, List.length (update b n v) = List.length b.
Proof.
  induction b as [|h t IH]; intros [|n] v; cbn; try reflexivity.
  rewrite IH. reflexivity.
Qed.

Lemma put_be32_ok name x msg w b0 b1 b2 b3 h0 h1 h2 h3 :
  data msg = [h0; h1; h2; h3; b0; b1; b2; b3] ->
  put_be32 name (Some x) [4; 5; 6; 7] msg w
  = Ret (mkMessage (arbitration_id msg) (is_extended_id msg)
           [h0; h1; h2; h3;
            (x / 2 ^ 24) mod 256; (x / 2 ^ 16) mod 256;
            (x / 2 ^ 8) mod 256; x mod 256]) w.
Proof.
  intros Hd. cbn [put_be32 subscript]. unfold bind at 1, ret at 1.
  assert (Hb : forall y, 0 <= y mod 256 < 256)
    by (intros; apply Z.mod_pos_bound; lia).
  assert (Hl : List.length (data msg) = 8%nat) by (rewrite Hd; reflexivity).
  unfold bind at 1. rewrite be_byte, set_data_ok;
    [|apply Hb|unfold len; rewrite Hl; lia|lia].
  unfold bind at 1, ret at 1.
  unfold bind at 1. rewrite be_byte, set_data_ok;
    [|apply Hb|cbn [data]; unfold len; rewrite !update_length, Hl; lia|lia].
  unfold bind at 1, ret at 1.
  unfold bind at 1. rewrite be_byte, set_data_ok;
    [|apply Hb|cbn [data]; unfold len; rewrite !update_length, Hl; lia|lia].
  unfold bind at 1, ret at 1.
  unfold bind at 1. rewrite be_byte, set_data_ok;
    [|apply Hb|cbn [data]; unfold len; rewrite !update_length, Hl; lia|lia].
  cbn [data arbitration_id is_extended_id]. rewrite Hd.
  cbn -[Z.div Z.modulo Z.pow].
  replace (x / 2 ^ 0) with x by (rewrite Z.pow_0_r, Z.div_1_r; reflexivity).
  reflexivity.
Qed.

Lemma be_value_32 x :
  0 <= x < 2 ^ 32 ->
  be_value [(x / 2 ^ 24) mod 256; (x / 2 ^ 16) mod 256;
            (x / 2 ^ 8) mod 256; x mod 256] = x.
Proof.
  intros Hx. unfold be_value. cbn [fold_left].
  change (2 ^ 24) with (256 * (256 * 256)).
  change (2 ^ 16) with (256 * 256).
  change (2 ^ 8) with 256.
  rewrite <- !Z.div_div by lia.
  set (q1 := x / 256). set (q2 := q1 / 256). set (q3 := q2 / 256).
  assert (q3 / 256 = 0).
  { apply Z.div_small. unfold q3, q2, q1.
    split.
    - repeat apply Z.div_pos; lia.
    - rewrite !Z.div_div by lia. apply Z.div_lt_upper_bound; lia. }
  pose proof (Z.div_mod x 256 ltac:(lia)) as E1.
  pose proof (Z.div_mod q1 256 ltac:(lia)) as E2.
  pose proof (Z.div_mod q2 256 ltac:(lia)) as E3.
  pose proof (Z.div_mod q3 256 ltac:(lia)) as E4.
  fold q1 in E1. fold q2 in E2. fold q3 in E3.
  lia.
Qed.

Lemma execute_SET_MTA rx fuel w oext addr krange ksize kdata :
  let ext := match oext with Some e => e | None => 0 end in
  0 <= ext < 256 ->
  execute rx fuel SET_MTA (mkKwargs oext (Some addr) krange ksize kdata) w
  = send_can_msg rx fuel
      (mkMessage (_tx_id (self w)) false
         [0xF6; 0; 0; ext;
          (addr / 2 ^ 24) mod 256; (addr / 2 ^ 16) mod 256;
          (addr / 2 ^ 8) mod 256; addr mod 256]) true w.
Proof.
  intros ext Hext. unfold execute. unfold bind at 1, get_self.
  unfold bind at 1. rewrite set_data_ok by (cbn; lia).
  cbn [kw_addr_ext kw_addr]. fold ext.
  unfold bind at 1. rewrite set_data_ok by (cbn; lia).
  unfold bind at 1. erewrite put_be32_ok by reflexivity.
  reflexivity.
Qed.

Lemma execute_PROGRAM_CLEAR rx fuel w kext kaddr range_ ksize kdata :
  execute rx fuel PROGRAM_CLEAR (mkKwargs kext kaddr (Some range_) ksize kdata) w
  = send_can_msg rx fuel
      (mkMessage (_tx_id (self w)) false
         [0xD1; 0; 0; 0;
          (range_ / 2 ^ 24) mod 256; (range_ / 2 ^ 16) mod 256;
          (range_ / 2 ^ 8) mod 256; range_ mod 256]) true w.
Proof.
  unfold execute. unfold bind at 1, get_self.
  unfold bind at 1. rewrite set_data_ok by (cbn; lia).
  cbn [kw_range].
  unfold bind at 1. erewrite put_be32_ok by reflexivity.
  reflexivity.
Qed.

Lemma execute_PROGRAM rx fuel w command size payload kext kaddr krange :
  command = PROGRAM \/ command = PROGRAM_NEXT ->
  0 <= size < 256 ->
  (List.length payload <= 6)%nat ->
  Forall (fun b => 0 <= b < 256) payload ->
  execute rx fuel command (mkKwargs kext kaddr krange (Some size) (Some payload)) w
  = send_can_msg rx fuel
      (mkMessage (_tx_id (self w)) false
         (value command :: size :: payload
            ++ repeat 0 (6 - List.length payload)))
      (size <=? _max_data_prg (self w)) w.
Proof.
  intros Hc Hs Hl Hb.
  assert (Hv : 0 <= value command < 256) by (destruct Hc; subst; cbn; lia).
  unfold execute. unfold bind at 1, get_self.
  unfold bind at 1. rewrite set_data_ok by (cbn; lia).
  assert (Hbody :
    (size0 <- subscript "size" (Some size) ;;
     msg <- set_data
              (mkMessage (_tx_id (self w)) false
                         (update (repeat 0 8) (Z.to_nat 0) (value command)))
              1 size0 ;;
     payload0 <- subscript "data" (Some payload) ;;
     msg <- put_payload payload0 2 msg ;;
     size1 <- subscript "size" (Some size) ;;
     s <- get_self ;;
     send_can_msg rx fuel msg (size1 <=? _max_data_prg s)) w
    = send_can_msg rx fuel
        (mkMessage (_tx_id (self w)) false
           (value command :: size :: payload
              ++ repeat 0 (6 - List.length payload)))
        (size <=? _max_data_prg (self w)) w).
  { cbn [subscript]. unfold bind at 1, ret at 1.
    unfold bind at 1. rewrite set_data_ok by (cbn; lia).
    unfold bind at 1, ret at 1.
    unfold bind at 1.
    rewrite (put_payload_ok payload [value command; size]
               (repeat 0 (List.length payload))
               (repeat 0 (6 - List.length payload))).
    - unfold bind at 1, ret at 1. unfold bind at 1, get_self. reflexivity.
    - rewrite <- repeat_app.
      replace (List.length payload + (6 - List.length payload))%nat
        with 6%nat by lia.
      reflexivity.
    - apply repeat_length.
    - reflexivity.
    - assumption. }
  destruct Hc; subst command; exact Hbody.
Qed.

(** C9: SET_MTA puts the address extension in byte 3 and the 32-bit address
    in bytes 4 to 7, most significant byte first; PROGRAM_CLEAR puts the
    32-bit range length in bytes 4 to 7 the same way; byte 0 is the command
    code and every other byte is zero.  These are the frames [execute] puts
    on the bus, once and again at each retransmission. *)
Theorem C9_set_mta_and_program_clear_frames
        (rx : nat -> option Message) (fuel : nat) (w : World)
        (ext addr range_ : Z) :
  0 <= ext < 256 ->
  0 <= addr < 2 ^ 32 ->
  0 <= range_ < 2 ^ 32 ->
  let a := [(addr / 2 ^ 24) mod 256; (addr / 2 ^ 16) mod 256;
            (addr / 2 ^ 8) mod 256; addr mod 256] in
  let r := [(range_ / 2 ^ 24) mod 256; (range_ / 2 ^ 16) mod 256;
            (range_ / 2 ^ 8) mod 256; range_ mod 256] in
  let mta := mkMessage (_tx_id (self w)) false ([value SET_MTA; 0; 0; ext] ++ a) in
  let clr := mkMessage (_tx_id (self w)) false ([value PROGRAM_CLEAR; 0; 0; 0] ++ r) in
  (exists k,
      sent (state_of (execute rx fuel SET_MTA
                        (mkKwargs (Some ext) (Some addr) None None None) w))
      = sent w ++ repeat mta (S k)) /\
  be_value a = addr /\
  (exists k,
      sent (state_of (execute rx fuel PROGRAM_CLEAR
                        (mkKwargs None None (Some range_) None None) w))
      = sent w ++ repeat clr (S k)) /\
  be_value r = range_.
Proof.
  intros Hext Haddr Hrange a r mta clr.
  split; [|split; [|split]].
  - rewrite (execute_SET_MTA rx fuel w (Some ext)) by exact Hext.
    destruct (send_can_msg_world rx fuel mta true w) as (k & n & Hk).
    exists k. unfold mta, a in Hk. cbn [app value] in Hk.
    rewrite Hk. reflexivity.
  - apply be_value_32. exact Haddr.
  - rewrite execute_PROGRAM_CLEAR.
    destruct (send_can_msg_world rx fuel clr true w) as (k & n & Hk).
    exists k. unfold clr, r in Hk. cbn [app value] in Hk.
    rewrite Hk. reflexivity.
  - apply be_value_32. exact Hrange.
Qed.

Lemma C9_set_mta_and_program_clear_frames_witness :
  (exists k,
      sent (state_of (execute rx_ok 10 SET_MTA
                        (mkKwargs (Some 1) (Some 0x08004000) None None None)
                        world0))
      = repeat (mkMessage 0x100 false [0xF6; 0; 0; 1; 0x08; 0x00; 0x40; 0x00])
               (S k)) /\
  (exists k,
      sent (state_of (execute rx_ok 10 PROGRAM_CLEAR
                        (mkKwargs None None (Some 0x00012345) None None)
                        world0))
      = repeat (mkMessage 0x100 false [0xD1; 0; 0; 0; 0x00; 0x01; 0x23; 0x45])
               (S k)).
Proof.
  destruct (C9_set_mta_and_program_clear_frames
              rx_ok 10 world0 1 0x08004000 0x00012345)
    as (Hm & _ & Hc & _); [lia | lia | lia |].
  split; [exact Hm | exact Hc].
Defined.

(** C6, as stated, fails: the first call [program] makes for 8 bytes with
    6 bytes per frame and units of 12 builds a PROGRAM frame whose byte 1
    is 8, the size of the unit, while the frame carries 6 payload bytes. *)
Lemma C6_byte1_is_not_the_payload_length :
  let payload := slice data8 0 (0 + _max_data_prg negotiated) in
  let frame := mkMessage 0x100 false [0xD0; 8; 1; 2; 3; 4; 5; 6] in
  sent (state_of (execute rx_ok 10 PROGRAM
                    (mkKwargs None None None (Some 8) (Some payload))
                    world_negotiated))
  = [frame] /\
  nth 1 (data frame) 0 = 8 /\
  len payload = 6 /\
  nth 1 (data frame) 0 <> len payload /\
  ~ nth 1 (data frame) 0 <= 6.
Proof.
  cbv zeta.
  assert (Hp : slice data8 0 (0 + _max_data_prg negotiated) = [1; 2; 3; 4; 5; 6])
    by reflexivity.
  rewrite Hp.
  split; [reflexivity|]. split; [reflexivity|]. split; [reflexivity|].
  split; [discriminate|]. intros H. apply H. reflexivity.
Qed.

(** C6, amended: a PROGRAM or PROGRAM_NEXT frame built by [execute] has the
    command code in byte 0, the [size] argument of the call in byte 1 (a
    byte, which need not be the number of payload bytes nor at most 6), and
    the payload, of at most 6 bytes, left-packed from byte 2 on with zeros
    after it. *)
Theorem C6_program_frame_layout
        (rx : nat -> option Message) (fuel : nat) (w : World)
        (command : XCPCommands) (size : Z) (payload : list Z) :
  command = PROGRAM \/ command = PROGRAM_NEXT ->
  0 <= size < 256 ->
  (List.length payload <= 6)%nat ->
  Forall (fun b => 0 <= b < 256) payload ->
  let frame :=
    mkMessage (_tx_id (self w)) false
      (value command :: size :: payload ++ repeat 0 (6 - List.length payload)) in
  exists k,
    sent (state_of (execute rx fuel command
                      (mkKwargs None None None (Some size) (Some payload)) w))
    = sent w ++ repeat frame (S k).
Proof.
  intros Hc Hs Hl Hb frame.
  rewrite execute_PROGRAM by assumption.
  destruct (send_can_msg_world rx fuel frame (size <=? _max_data_prg (self w)) w)
    as (k & n & Hk).
  exists k. fold frame. rewrite Hk. reflexivity.
Qed.

Lemma C6_program_frame_layout_witness :
  exists k,
    sent (state_of (execute rx_ok 10 PROGRAM_NEXT
                      (mkKwargs None None None (Some 1) (Some [0xAB]))
                      world_negotiated))
    = repeat (mkMessage 0x100 false [0xCA; 1; 0xAB; 0; 0; 0; 0; 0]) (S k).
Proof.
  apply (C6_program_frame_layout rx_ok 10 world_negotiated PROGRAM_NEXT 1 [0xAB]).
  - right; reflexivity.
  - lia.
  - cbn; lia.
  - repeat constructor; lia.
Defined.

(** ** Negotiated limits *)

Lemma getitem_ret d i w v w' :
  0 <= i ->
  getitem d i w = Ret v w' ->
  w' = w /\ nth_error d (Z.to_nat i) = Some v.
Proof.
  intros Hi. unfold getitem.
  replace (i <? 0) with false by (symmetry; apply Z.ltb_ge; lia).
  destruct (_ || _); [discriminate|].
  destruct (nth_error d (Z.to_nat i)); [|discriminate].
  unfold ret. intros H; inversion H; subst. auto.
Qed.

Lemma send_can_msg_ret rx fuel msg w resp w1 :
  send_can_msg rx fuel msg true w = Ret resp w1 ->
  self w1 = self w /\ stdout w1 = stdout w /\ exists r, resp = Some r.
Proof.
  intros H.
  destruct (send_can_msg_world rx fuel msg true w) as (k & n & Hk).
  rewrite H in Hk. cbn in Hk. subst w1.
  split; [reflexivity|]. split; [reflexivity|].
  unfold send_can_msg, bind in H.
  destruct (bus_send msg w); try discriminate.
  destruct (wait_for_response _ _ _ _ _); try discriminate.
  inversion H. eexists; reflexivity.
Qed.

(** C7, as stated, fails: after a PROGRAM_START reply with byte 3 = 8 and
    byte 4 = 2 the stored per-frame capacity is 6, not 8, and no field
    holds 2; the other field written is 12. *)
Lemma C7_program_start_stores_derived_values :
  nth_error (data ok_reply) 3 = Some 8 /\
  nth_error (data ok_reply) 4 = Some 2 /\
  exists w',
    execute rx_ok 10 PROGRAM_START no_kwargs world0 = Ret (Some ok_reply) w' /\
    _max_data_prg (self w') = 6 /\
    _max_data_prg (self w') <> 8 /\
    _data_len (self w') = 12 /\
    _max_data (self w') = 8.
Proof.
  split; [reflexivity|]. split; [reflexivity|].
  eexists. split; [vm_compute; reflexivity|].
  cbn. repeat split; try reflexivity. discriminate.
Qed.

(** C7, amended: a CONNECT exchange that returns stores in [_max_data] the
    16-bit value of reply bytes 4 and 5, byte 4 most significant; a
    PROGRAM_START exchange that returns stores reply byte 3 minus 2 in
    [_max_data_prg], the per-frame payload capacity, and that capacity
    times reply byte 4 in [_data_len], the size of a unit; no other field
    changes. *)
Theorem C7_negotiated_limits
        (rx : nat -> option Message) (fuel : nat) (kwargs : Kwargs)
        (w w' : World) (response : option Message) :
  (execute rx fuel CONNECT kwargs w = Ret response w' ->
   exists r b4 b5,
     response = Some r /\
     nth_error (data r) 4 = Some b4 /\
     nth_error (data r) 5 = Some b5 /\
     self w' = mkXCPFlash (_tx_id (self w)) (_rx_id (self w))
                          (_conn_mode (self w)) (_data_len (self w))
                          (_max_data_prg (self w)) (b4 * 256 + b5))
  /\
  (execute rx fuel PROGRAM_START kwargs w = Ret response w' ->
   exists r b3 b4,
     response = Some r /\
     nth_error (data r) 3 = Some b3 /\
     nth_error (data r) 4 = Some b4 /\
     self w' = mkXCPFlash (_tx_id (self w)) (_rx_id (self w))
                          (_conn_mode (self w)) ((b3 - 2) * b4)
                          (b3 - 2) (_max_data (self w))).
Proof.
  split; intros H; unfold execute in H;
    unfold bind at 1 in H; unfold get_self at 1 in H;
    unfold bind at 1 in H;
    rewrite set_data_ok in H by (cbn; lia).
  - unfold bind at 1 in H.
    match type of H with
    | context [set_data ?m0 1 ?v w] =>
        destruct (stateless_set_data m0 1 v w) as [[m Hm]|[e He]];
        [rewrite Hm in H | rewrite He in H; discriminate]
    end.
    unfold bind at 1 in H.
    destruct (send_can_msg rx fuel m true w) as [resp w1|e w1|w1] eqn:Hsend;
      try discriminate.
    apply send_can_msg_ret in Hsend. destruct Hsend as (Hself & _ & r & ->).
    cbn [data_of] in H. unfold bind at 1, ret at 1 in H.
    unfold bind at 1 in H.
    destruct (getitem (data r) 4 w1) as [b4 w2|e w2|w2] eqn:H4; try discriminate.
    apply getitem_ret in H4; [|lia]. destruct H4 as [-> H4].
    unfold bind at 1, get_self at 1 in H.
    unfold bind at 1, set_self at 1 in H.
    unfold bind at 1 in H.
    destruct (getitem (data r) 5 _) as [b5 w2|e w2|w2] eqn:H5; try discriminate.
    apply getitem_ret in H5; [|lia]. destruct H5 as [-> H5].
    unfold bind at 1, get_self at 1 in H.
    unfold bind at 1, set_self at 1 in H.
    unfold ret in H.
    match type of H with
    | Ret ?a ?W = _ =>
        assert (Hr : response = a) by congruence;
        assert (Hw : w' = W) by congruence
    end.
    rewrite Hr, Hw. clear H Hr Hw.
    exists r, b4, b5. cbn [self _tx_id _rx_id _conn_mode _data_len
                             _max_data_prg _max_data].
    rewrite Hself, Z.shiftl_mul_pow2 by lia.
    change (2 ^ 8) with 256.
    repeat split; assumption.
  - unfold bind at 1 in H.
    destruct (send_can_msg rx fuel _ true w) as [resp w1|e w1|w1] eqn:Hsend;
      try discriminate.
    apply send_can_msg_ret in Hsend. destruct Hsend as (Hself & _ & r & ->).
    cbn [data_of] in H. unfold bind at 1, ret at 1 in H.
    unfold bind at 1 in H.
    destruct (getitem (data r) 3 w1) as [b3 w2|e w2|w2] eqn:H3; try discriminate.
    apply getitem_ret in H3; [|lia]. destruct H3 as [-> H3].
    unfold bind at 1 in H.
    destruct (getitem (data r) 4 w1) as [b4 w2|e w2|w2] eqn:H4; try discriminate.
    apply getitem_ret in H4; [|lia]. destruct H4 as [-> H4].
    unfold bind at 1, get_self at 1 in H.
    unfold bind at 1, set_self at 1 in H.
    unfold bind at 1, get_self at 1 in H.
    unfold bind at 1, set_self at 1 in H.
    unfold ret in H.
    match type of H with
    | Ret ?a ?W = _ =>
        assert (Hr : response = a) by congruence;
        assert (Hw : w' = W) by congruence
    end.
    rewrite Hr, Hw. clear H Hr Hw.
    exists r, b3, b4. cbn [self _tx_id _rx_id _conn_mode _data_len
                             _max_data_prg _max_data].
    rewrite Hself. repeat split; assumption.
Qed.

Lemma C7_negotiated_limits_witness :
  (exists r b4 b5,
      Some ok_reply = Some r /\
      nth_error (data r) 4 = Some b4 /\
      nth_error (data r) 5 = Some b5 /\
      self (state_of (execute rx_ok 10 CONNECT no_kwargs world0))
      = mkXCPFlash 0x100 0x200 0 0 0 (b4 * 256 + b5)) /\
  (exists r b3 b4,
      Some ok_reply = Some r /\
      nth_error (data r) 3 = Some b3 /\
      nth_error (data r) 4 = Some b4 /\
      self (state_of (execute rx_ok 10 PROGRAM_START no_kwargs world0))
      = mkXCPFlash 0x100 0x200 0 ((b3 - 2) * b4) (b3 - 2) 8).
Proof.
  split.
  - apply (proj1 (C7_negotiated_limits rx_ok 10 no_kwargs world0
                    (state_of (execute rx_ok 10 CONNECT no_kwargs world0))
                    (Some ok_reply))).
    vm_compute. reflexivity.
  - apply (proj2 (C7_negotiated_limits rx_ok 10 no_kwargs world0
                    (state_of (execute rx_ok 10 PROGRAM_START no_kwargs world0))
                    (Some ok_reply))).
    vm_compute. reflexivity.
Defined.

(** ** An unlisted error code *)

(** C5 fails on the code: when the device answers CONNECT with an ERROR
    reply whose code 0x01 is not a key of [error_messages], the handler's
    lookup raises KeyError, and that exception leaves [__call__] after the
    cleanup disconnect, whatever the fuel. *)
Theorem C5_unlisted_error_code_escapes (fuel : nat) :
  XCPErrors.lookup 0x01 XCPErrors.error_messages = None /\
  exists w',
    __call__ rx_error_01 (S fuel) 0x08000000 data8 world0
    = Raise (KeyError (PInt 0x01)) w' /\
    stdout w' = [Print "connecting..."; Print "disconnecting.."].
Proof.
  split; [reflexivity|].
  eexists. split; [vm_compute; reflexivity|]. reflexivity.
Qed.

(** ** An empty image *)

Lemma program_loop_done rx n fuel data bytes_send w :
  len data <= bytes_send ->
  program_loop rx n fuel data bytes_send w = Ret bytes_send w.
Proof.
  intros H.
  assert (Hc : (bytes_send <? len data) = false) by (apply Z.ltb_ge; lia).
  destruct n; cbn [program_loop]; rewrite Hc; reflexivity.
Qed.

Lemma program_empty rx fuel w :
  program rx fuel [] w
  = Raise ZeroDivisionError
      (mkWorld (self w) (sent w) (polls w)
               (stdout w ++ [Print "flashing new firmware..."])).
Proof.
  unfold program. unfold bind at 1, print at 1.
  unfold bind at 1. rewrite program_loop_done by (cbn; lia).
  reflexivity.
Qed.

(** C10, as stated, fails: on a silent bus CONNECT times out, so
    [__call__] with an empty image never reaches [program] nor the progress
    bar and returns normally after reporting both timeouts. *)
Lemma C10_empty_image_on_silent_bus_returns :
  exists w',
    __call__ rx_silent 10 0x08000000 [] world0 = Ret tt w' /\
    stdout w'
    = [Print "connecting...";
       Print (nl ++ "Connection aborted: Timeout");
       Print "disconnecting..";
       Print (nl ++ "Connection aborted: Timeout")].
Proof. eexists. split; [vm_compute; reflexivity|]. reflexivity. Qed.

(** C10, amended: [print_progress_bar(iteration, total)] with [total = 0]
    raises ZeroDivisionError; [program] on an empty image reaches it at its
    final progress report, before PROGRAM_RESET; so whenever [connect] and
    [clear] have succeeded, [__call__] with an empty image does not complete
    normally. *)
Theorem C10_empty_image_divides_by_zero
        (rx : nat -> option Message) (fuel : nat) (start_addr : Z)
        (w w1 : World) :
  (connect rx fuel ;;; clear rx fuel start_addr (len (@nil Z))) w = Ret tt w1 ->
  (forall iteration w0, print_progress_bar iteration 0 w0 = Raise ZeroDivisionError w0)
  /\ (exists w2,
         stages rx fuel start_addr [] w = Raise ZeroDivisionError w2 /\
         sent w2 = sent w1)
  /\ forall w', __call__ rx fuel start_addr [] w <> Ret tt w'.
Proof.
  intros H.
  assert (Hst : stages rx fuel start_addr [] w
                = Raise ZeroDivisionError
                    (mkWorld (self w1) (sent w1) (polls w1)
                       (stdout w1 ++ [Print "flashing new firmware..."]))).
  { unfold stages. unfold bind in H |- *.
    destruct (connect rx fuel w) as [[] wa|e wa|wa]; try discriminate.
    destruct (clear rx fuel start_addr (len []) wa) as [[] wb|e wb|wb];
      try discriminate.
    injection H as ->. apply program_empty. }
  split; [reflexivity|]. split.
  - eexists. split; [exact Hst | reflexivity].
  - intros w'. unfold __call__, try_finally, try_except. rewrite Hst.
    destruct (match disconnect rx fuel _ with Ret _ _ => _ | _ => _ end);
      discriminate.
Qed.

Lemma C10_empty_image_divides_by_zero_witness :
  exists w2,
    stages rx_ok 10 0x08000000 [] world0 = Raise ZeroDivisionError w2 /\
    sent w2
    = sent (state_of ((connect rx_ok 10 ;;;
                       clear rx_ok 10 0x08000000 (len (@nil Z))) world0)).
Proof.
  apply (C10_empty_image_divides_by_zero rx_ok 10 0x08000000 world0
           (state_of ((connect rx_ok 10 ;;;
                       clear rx_ok 10 0x08000000 (len (@nil Z))) world0))).
  vm_compute. reflexivity.
Defined.

(** ** Cleanup *)

Lemma quiet_ret {A} (a : A) : quiet (ret a).
Proof. intros w; reflexivity. Qed.

Lemma quiet_raise {A} (e : exn) : quiet (@raise A e).
Proof. intros w; reflexivity. Qed.

Lemma quiet_bind {A B} (m : M A) (k : A -> M B) :
  quiet m -> (forall a, quiet (k a)) -> quiet (bind m k).
Proof.
  intros Hm Hk w. unfold bind.
  specialize (Hm w).
  destruct (m w) as [a w1|e w1|w1]; cbn [state_of] in *; try exact Hm.
  rewrite Hk. exact Hm.
Qed.

Lemma quiet_stateless {A} (m : M A) : stateless m -> quiet m.
Proof. intros H w. destruct (H w) as [[a ->]|[e ->]]; reflexivity. Qed.

Lemma quiet_set_self s : quiet (set_self s).
Proof. intros w; reflexivity. Qed.

Lemma quiet_write_bar i t : quiet (write_bar i t).
Proof.
  intros w. unfold disconnect_calls; cbn.
  rewrite filter_app, length_app. cbn. lia.
Qed.

Lemma quiet_print s :
  String.eqb s "disconnecting.." = false -> quiet (print s).
Proof.
  intros Hs w. unfold disconnect_calls; cbn.
  rewrite filter_app, length_app. cbn. rewrite Hs. cbn. lia.
Qed.

Lemma quiet_print_progress_bar i t : quiet (print_progress_bar i t).
Proof.
  unfold print_progress_bar.
  destruct (t =? 0); [apply quiet_raise|].
  apply quiet_bind; [apply quiet_write_bar | intros _].
  destruct (i =? t); [apply quiet_print; reflexivity | apply quiet_ret].
Qed.

Lemma quiet_send_can_msg rx fuel msg wait : quiet (send_can_msg rx fuel msg wait).
Proof.
  intros w. destruct (send_can_msg_world rx fuel msg wait w) as (k & n & ->).
  reflexivity.
Qed.

Ltac quiet_step :=
  first
    [ apply quiet_ret
    | apply quiet_raise
    | apply quiet_set_self
    | apply quiet_send_can_msg
    | apply quiet_print_progress_bar
    | apply quiet_print; reflexivity
    | apply quiet_stateless;
      first [ apply stateless_get_self | apply stateless_set_data
            | apply stateless_getitem | apply stateless_subscript
            | apply stateless_data_of | apply stateless_put_be32
            | apply stateless_put_payload ]
    | apply quiet_bind; [|intros] ].

Lemma quiet_execute rx fuel command kwargs : quiet (execute rx fuel command kwargs).
Proof. unfold execute, no_kwargs. destruct command; repeat quiet_step. Qed.

Lemma quiet_program_next_loop rx fuel data n :
  forall bytes_send send_length,
    quiet (program_next_loop rx n fuel data bytes_send send_length).
Proof.
  induction n as [|n IH]; intros bytes_send send_length;
    cbn [program_next_loop]; destruct (send_length >? 0);
    try apply quiet_ret.
  - intros w; reflexivity.
  - repeat first [apply quiet_execute | apply IH | quiet_step].
Qed.

Lemma quiet_program_loop rx fuel data n :
  forall bytes_send, quiet (program_loop rx n fuel data bytes_send).
Proof.
  induction n as [|n IH]; intros bytes_send;
    cbn [program_loop]; destruct (bytes_send <? len data);
    try apply quiet_ret.
  - intros w; reflexivity.
  - apply quiet_bind; [quiet_step | intros s0].
    apply quiet_bind; [quiet_step | intros s1].
    apply quiet_bind.
    { destruct (_ <=? _); quiet_step. }
    intros _.
    repeat first [apply quiet_execute | apply quiet_program_next_loop
                 | apply IH | quiet_step].
Qed.

Lemma quiet_program rx fuel data : quiet (program rx fuel data).
Proof.
  unfold program.
  repeat first [apply quiet_execute | apply quiet_program_loop | quiet_step].
Qed.

Lemma quiet_clear rx fuel start_addr length : quiet (clear rx fuel start_addr length).
Proof. unfold clear. repeat first [apply quiet_execute | quiet_step]. Qed.

Lemma quiet_connect rx fuel : quiet (connect rx fuel).
Proof.
  unfold connect.
  apply quiet_bind; [quiet_step | intros _].
  apply quiet_bind; [apply quiet_execute | intros response].
  apply quiet_bind; [quiet_step | intros d].
  apply quiet_bind; [quiet_step | intros b1].
  destruct (_ =? 0); [quiet_step|].
  apply quiet_bind; [quiet_step | intros d'].
  apply quiet_bind; [quiet_step | intros b2].
  destruct (negb _); quiet_step.
Qed.

Lemma quiet_stages rx fuel start_addr data : quiet (stages rx fuel start_addr data).
Proof.
  unfold stages.
  apply quiet_bind; [apply quiet_connect | intros _].
  apply quiet_bind; [apply quiet_clear | intros _].
  apply quiet_program.
Qed.

Lemma report_aborted_cases arg w :
  (exists s, String.eqb s "disconnecting.." = false /\
             report_aborted arg w = print s w) \/
  (exists e, report_aborted arg w = Raise e w).
Proof.
  unfold report_aborted. destruct arg as [s|code].
  - destruct (String.eqb s "Timeout").
    + left. eexists. split; [|reflexivity]. reflexivity.
    + right. eexists. reflexivity.
  - destruct (XCPErrors.lookup _ _).
    + left. eexists. split; [|reflexivity]. reflexivity.
    + right. eexists. reflexivity.
Qed.

Lemma quiet_report_aborted arg : quiet (report_aborted arg).
Proof.
  intros w. destruct (report_aborted_cases arg w) as [(s & Hs & ->)|(e & ->)].
  - apply quiet_print. exact Hs.
  - reflexivity.
Qed.

Lemma report_aborted_completes arg w : completes (report_aborted arg w).
Proof.
  destruct (report_aborted_cases arg w) as [(s & Hs & ->)|(e & ->)]; exact I.
Qed.

(** The [finally] clause enters [disconnect] once, however it ends. *)
Lemma cleanup_calls_disconnect rx fuel w :
  disconnect_calls
    (state_of
       (try_except (disconnect rx fuel)
          (fun e => match e with
                    | ConnectionAbortedError arg => Some (report_aborted arg)
                    | _ => None
                    end) w))
  = S (disconnect_calls w).
Proof.
  unfold try_except, disconnect. unfold bind at 1, print at 1.
  set (w1 := mkWorld (self w) (sent w) (polls w)
                     (stdout w ++ [Print "disconnecting.."])).
  assert (H1 : disconnect_calls w1 = S (disconnect_calls w)).
  { unfold disconnect_calls, w1; cbn.
    rewrite filter_app, length_app. cbn. lia. }
  rewrite <- H1.
  pose proof (quiet_bind (execute rx fuel DISCONNECT no_kwargs)
                (fun _ => ret tt) (quiet_execute _ _ _ _)
                (fun _ => quiet_ret tt) w1) as Hq.
  destruct (bind _ _ w1) as [a w2|e w2|w2]; cbn [state_of] in *; try exact Hq.
  destruct e; cbn [state_of]; try exact Hq.
  rewrite quiet_report_aborted. exact Hq.
Qed.

(** Traffic that is never a reply keeps the loop resending for ever: no
    poll times out, so no try is counted. *)
Lemma endless_traffic_never_ends msg fuel :
  forall tries w,
    tries <> 5 ->
    wait_for_response_loop rx_noise fuel tries 30 (Some msg) w
    = OutOfFuel (after_sends w msg fuel fuel).
Proof.
  induction fuel as [|fuel IH]; intros tries w Ht.
  - cbn. unfold after_sends. destruct w; cbn.
    rewrite app_nil_r, Nat.add_0_r. reflexivity.
  - cbn [wait_for_response_loop].
    replace (tries =? 5) with false by (symmetry; apply Z.eqb_neq; exact Ht).
    unfold bind at 1. unfold get_message, rx_noise at 1.
    assert (Hig : forall s, ignored s (Some noise_frame) = true).
    { intros s. cbn. apply orb_true_r. }
    unfold bind at 1.
    rewrite (reply_is_ignored (self w) noise_frame) by (auto; reflexivity).
    unfold bind at 1.
    rewrite (reply_is_ignored (self w) noise_frame) by (auto; reflexivity).
    unfold bind at 1. unfold send_can_msg_False, bind at 1.
    unfold bus_send, ret. rewrite IH by exact Ht.
    unfold after_sends. cbn [self sent polls stdout repeat].
    rewrite <- app_assoc. do 2 f_equal. lia.
Qed.

(** C8, as stated, fails: when frames that are no reply keep arriving
    (here identifier 0x201, which passes the receive filter), the CONNECT
    exchange never ends, so [__call__] never reaches its [finally] clause
    and [disconnect] is not entered, however long the call runs. *)
Lemma C8_endless_traffic_never_disconnects :
  (forall n, ignored fresh (rx_noise n) = true) /\
  disconnect_calls (state_of (__call__ rx_noise 50 0x08000000 data8 world0))
  = 0%nat /\
  forall fuel,
  exists w',
    __call__ rx_noise fuel 0x08000000 data8 world0 = OutOfFuel w' /\
    disconnect_calls w' = 0%nat.
Proof.
  assert (Hall : forall fuel,
             exists w',
               __call__ rx_noise fuel 0x08000000 data8 world0 = OutOfFuel w' /\
               disconnect_calls w' = 0%nat).
  { intros fuel.
    assert (Hst : exists w',
               stages rx_noise fuel 0x08000000 data8 world0 = OutOfFuel w').
    { unfold stages. unfold bind at 1. unfold connect.
      unfold bind at 1, print at 1.
      unfold bind at 1. unfold execute.
      unfold bind at 1, get_self at 1.
      unfold bind at 1. rewrite set_data_ok by (cbn; lia).
      unfold bind at 1. rewrite set_data_ok by (cbn; lia).
      unfold bind at 1. unfold send_can_msg.
      unfold bind at 1, bus_send at 1.
      unfold bind at 1, wait_for_response.
      rewrite endless_traffic_never_ends by lia.
      eexists. reflexivity. }
    destruct Hst as [w' Hst].
    exists w'. split.
    - unfold __call__, try_finally, try_except. rewrite Hst. reflexivity.
    - pose proof (quiet_stages rx_noise fuel 0x08000000 data8 world0) as Hq.
      rewrite Hst in Hq. exact Hq. }
  split; [intros n; reflexivity|]. split; [|exact Hall].
  destruct (Hall 50%nat) as (w' & Hrun & Hn). rewrite Hrun. exact Hn.
Qed.

(** C8, amended: whenever the stages [connect], [clear], [program] end, with
    success or with any exception raised in any of them, [__call__] enters
    [disconnect] exactly once. *)
Theorem C8_disconnect_exactly_once
        (rx : nat -> option Message) (fuel : nat) (start_addr : Z)
        (data : list Z) (w : World) :
  completes (stages rx fuel start_addr data w) ->
  disconnect_calls (state_of (__call__ rx fuel start_addr data w))
  = S (disconnect_calls w).
Proof.
  intros Hc. unfold __call__, try_finally.
  pose proof (quiet_stages rx fuel start_addr data w) as Hq.
  set (final := try_except (disconnect rx fuel) _).
  assert (Hf : forall w1, disconnect_calls (state_of (final w1))
                          = S (disconnect_calls w1))
    by (intros; apply cleanup_calls_disconnect).
  assert (Hbody : forall r : result unit,
             completes r -> disconnect_calls (state_of r) = disconnect_calls w ->
             disconnect_calls
               (state_of
                  match r with
                  | Ret a w' =>
                      match final w' with
                      | Ret _ w'' => Ret a w''
                      | Raise e w'' => Raise e w''
                      | OutOfFuel w'' => OutOfFuel w''
                      end
                  | Raise e w' =>
                      match final w' with
                      | Ret _ w'' => Raise e w''
                      | Raise e' w'' => Raise e' w''
                      | OutOfFuel w'' => OutOfFuel w''
                      end
                  | OutOfFuel w' => OutOfFuel w'
                  end) = S (disconnect_calls w)).
  { intros r Hr Hn. destruct r as [a w'|e w'|w']; cbn [completes] in Hr;
      [| |contradiction]; cbn [state_of] in Hn; rewrite <- Hn, <- Hf;
      destruct (final w'); reflexivity. }
  apply Hbody.
  - unfold try_except.
    destruct (stages rx fuel start_addr data w) as [a w1|e w1|w1];
      [exact I| |contradiction].
    destruct e; try exact I.
    apply report_aborted_completes.
  - unfold try_except.
    destruct (stages rx fuel start_addr data w) as [a w1|e w1|w1];
      cbn [state_of] in *; try exact Hq.
    destruct e; cbn [state_of]; try exact Hq.
    + rewrite quiet_report_aborted. exact Hq.
    + rewrite quiet_print by reflexivity. exact Hq.
Qed.

Lemma C8_disconnect_exactly_once_witness :
  disconnect_calls (state_of (__call__ rx_silent 10 0x08000000 data8 world0))
  = 1%nat /\
  disconnect_calls (state_of (__call__ rx_clear_fails 10 0x08000000 data8 world0))
  = 1%nat /\
  disconnect_calls (state_of (__call__ rx_ok 10 0x08000000 [] world0))
  = 1%nat /\
  disconnect_calls (state_of (__call__ rx_error_01 10 0x08000000 data8 world0))
  = 1%nat /\
  disconnect_calls (state_of (__call__ rx_ok3 20 0x08000000 data13 world0))
  = 1%nat.
Proof.
  split; [|split; [|split; [|split]]].
  - apply (C8_disconnect_exactly_once rx_silent 10 0x08000000 data8 world0).
    vm_compute. exact I.
  - apply (C8_disconnect_exactly_once rx_clear_fails 10 0x08000000 data8 world0).
    vm_compute. exact I.
  - apply (C8_disconnect_exactly_once rx_ok 10 0x08000000 [] world0).
    vm_compute. exact I.
  - apply (C8_disconnect_exactly_once rx_error_01 10 0x08000000 data8 world0).
    vm_compute. exact I.
  - apply (C8_disconnect_exactly_once rx_ok3 20 0x08000000 data13 world0).
    vm_compute. exact I.
Defined.

(** ** The scheduling loop of [program] *)

(** A slice of width [c] never holds more than [c] elements, wherever it
    starts. *)
Lemma slice_length {A} (b : list A) (lo c : Z) :
  0 <= c -> len (slice b lo (lo + c)) <= c.
Proof.
  intros Hc. unfold slice, len.
  rewrite length_firstn.
  assert (Hn : 0 <= Z.of_nat (List.length b)) by lia.
  set (n := Z.of_nat (List.length b)) in *.
  assert (clamp n (lo + c) - clamp n lo <= c).
  { unfold clamp.
    destruct (Z.ltb_spec (lo + c) 0), (Z.ltb_spec lo 0); lia. }
  lia.
Qed.

Section Stuck.
(** The device of [rx_ok] and the instance it negotiated: 6 bytes per
    frame, units of 12. *)
Variables (snt : list Message) (p : nat) (out : list Output).

Lemma first_unit n F :
  program_loop rx_ok (S n) (S F) data8 0 (mkWorld negotiated snt p out)
  = program_loop rx_ok n (S F) data8 4
      (mkWorld negotiated ((snt ++ [frame_first]) ++ [frame_next]) (S p)
               (out ++ [ProgressBar 0 8])).
Proof. destruct F; reflexivity. Qed.

Lemma second_unit n F :
  program_loop rx_ok (S n) (S F) data8 4 (mkWorld negotiated snt p out)
  = program_loop rx_ok n (S F) data8 2
      (mkWorld negotiated (snt ++ [frame_second]) (S p)
               (out ++ [ProgressBar 4 8])).
Proof. reflexivity. Qed.

Lemma repeated_unit n F :
  program_loop rx_ok (S n) (S F) data8 2 (mkWorld negotiated snt p out)
  = program_loop rx_ok n (S F) data8 2
      (mkWorld negotiated (snt ++ [frame_again]) (S p)
               (out ++ [ProgressBar 2 8])).
Proof. reflexivity. Qed.
End Stuck.

(** From the cursor at 2 the loop sends the same frame for ever: the unit
    is one frame long, so the cursor advances by [min(0, 6) = 0]. *)
Lemma cursor_stuck n F :
  forall snt p out,
  exists k p' out',
    program_loop rx_ok n (S F) data8 2 (mkWorld negotiated snt p out)
    = OutOfFuel (mkWorld negotiated (snt ++ repeat frame_again k) p' out').
Proof.
  induction n as [|n IH]; intros snt p out.
  - exists 0%nat, p, out. cbn. rewrite app_nil_r. reflexivity.
  - rewrite repeated_unit.
    destruct (IH (snt ++ [frame_again]) (S p) (out ++ [ProgressBar 2 8]))
      as (k & p' & out' & ->).
    exists (S k), p', out'. rewrite <- app_assoc. reflexivity.
Qed.

(** Every run of the loop on [data8] ends out of fuel, and what it sent is
    a prefix of: first, next, second, again, again, ... *)
Lemma program_loop_data8 fuel out :
  exists l p' out',
    program_loop rx_ok fuel fuel data8 0 (mkWorld negotiated [] 0 out)
    = OutOfFuel (mkWorld negotiated l p' out') /\
    match fuel with
    | O => l = []
    | S O => l = [frame_first; frame_next]
    | S (S _) =>
        exists k, l = frame_first :: frame_next :: frame_second
                        :: repeat frame_again k
    end.
Proof.
  destruct fuel as [|F].
  - exists [], 0%nat, out. split; reflexivity.
  - rewrite first_unit.
    destruct F as [|F].
    + do 3 eexists. split; reflexivity.
    + rewrite second_unit.
      destruct (cursor_stuck F (S F)
                  ((([] ++ [frame_first]) ++ [frame_next]) ++ [frame_second])
                  (S (S 0)) ((out ++ [ProgressBar 0 8]) ++ [ProgressBar 4 8]))
        as (k & p' & out' & ->).
      do 3 eexists. split; [reflexivity|].
      exists k. reflexivity.
Qed.

Lemma program_data8 fuel :
  exists l p' out',
    program rx_ok fuel data8 world_negotiated
    = OutOfFuel (mkWorld negotiated l p' out') /\
    match fuel with
    | O => l = []
    | S O => l = [frame_first; frame_next]
    | S (S _) =>
        exists k, l = frame_first :: frame_next :: frame_second
                        :: repeat frame_again k
    end.
Proof.
  unfold program, world_negotiated. unfold bind at 1, print at 1.
  cbn [self sent polls stdout].
  destruct (program_loop_data8 fuel ([] ++ [Print "flashing new firmware..."]))
    as (l & p' & out' & Hl & Hs).
  exists l, p', out'. split; [|exact Hs].
  unfold bind at 1. rewrite Hl. reflexivity.
Qed.

Lemma no_reset_in_repeat k : existsb is_reset (repeat frame_again k) = false.
Proof. induction k as [|k IH]; [reflexivity | exact IH]. Qed.

(** C1 fails on the code.  For the 8 bytes 1..8, 6 bytes per frame and 2
    transfers per acknowledgement, the run never ends, and its first two
    frames already carry bytes 3..6 twice: PROGRAM with bytes 1..6, then
    PROGRAM_NEXT with bytes 3..8.  Neither the bytes packed in the frames
    nor the bytes a receiver takes from them (byte 1 of them, at most 6)
    concatenate to the image, however the run continues. *)
Theorem C1_program_sends_bytes_twice (fuel : nat) :
  exists w' rest,
    program rx_ok (S fuel) data8 world_negotiated = OutOfFuel w' /\
    sent w' = frame_first :: frame_next :: rest /\
    packed frame_first = [1; 2; 3; 4; 5; 6] /\
    packed frame_next = [3; 4; 5; 6; 7; 8] /\
    (forall more,
        List.concat (map packed (frame_first :: frame_next :: more)) <> data8) /\
    (forall more,
        List.concat (map (taken 6) (frame_first :: frame_next :: more))
        <> data8).
Proof.
  destruct (program_data8 (S fuel)) as (l & p' & out' & Hp & Hl).
  assert (Hrest : exists rest, l = frame_first :: frame_next :: rest).
  { destruct fuel as [|fuel].
    - subst l. eexists; reflexivity.
    - destruct Hl as [k ->]. eexists; reflexivity. }
  destruct Hrest as [rest ->].
  exists (mkWorld negotiated (frame_first :: frame_next :: rest) p' out'), rest.
  split; [exact Hp|]. split; [reflexivity|].
  split; [reflexivity|]. split; [reflexivity|].
  split; intros more H; cbn in H; discriminate.
Qed.

(** C2 fails on the code.  For the same input, [program] never returns,
    whatever the fuel, and never sends PROGRAM_RESET: after three frames
    the cursor stays at 2 and the same PROGRAM frame is sent again and
    again. *)
Theorem C2_program_never_finishes (fuel : nat) :
  (exists w',
      program rx_ok fuel data8 world_negotiated = OutOfFuel w' /\
      existsb is_reset (sent w') = false) /\
  (exists w' k,
      program rx_ok (S (S fuel)) data8 world_negotiated = OutOfFuel w' /\
      sent w' = frame_first :: frame_next :: frame_second
                  :: repeat frame_again k).
Proof.
  split.
  - destruct (program_data8 fuel) as (l & p' & out' & Hp & Hl).
    exists (mkWorld negotiated l p' out'). split; [exact Hp|].
    cbn [sent].
    destruct fuel as [|[|fuel]].
    + subst l. reflexivity.
    + subst l. reflexivity.
    + destruct Hl as [k ->]. apply (no_reset_in_repeat k).
  - destruct (program_data8 (S (S fuel))) as (l & p' & out' & Hp & [k ->]).
    eexists. exists k. split; [exact Hp | reflexivity].
Qed.

(** The instance [negotiated] is the one [connect] and [clear] leave behind
    with the device of [rx_ok]. *)
Lemma negotiated_is_reached :
  exists w1,
    (connect rx_ok 10 ;;; clear rx_ok 10 0x08000000 (len data8)) world0
    = Ret tt w1 /\
    self w1 = negotiated.
Proof. eexists. split; [vm_compute; reflexivity | reflexivity]. Qed.

(** ** More on the exchange: [send_can_msg] and [wait_for_response] *)

Lemma reply_is_marker r marker w b0 rest :
  arbitration_id r = _rx_id (self w) ->
  data r = b0 :: rest ->
  reply_is r marker w = Ret (b0 =? marker) w.
Proof.
  intros Hid Hd. unfold reply_is, bind, get_self.
  rewrite Hid, Z.eqb_refl, Hd. unfold getitem. cbn.
  replace (Z.pos (Pos.of_succ_nat (List.length rest)) <=? 0) with false
    by (symmetry; apply Z.leb_gt; lia).
  reflexivity.
Qed.

Lemma reply_is_raises r marker w e w' :
  reply_is r marker w = Raise e w' -> e = IndexError.
Proof.
  unfold reply_is, bind, get_self.
  destruct (_ =? _); [|discriminate].
  unfold getitem. destruct (_ || _).
  - unfold raise. congruence.
  - destruct (nth_error _ _); unfold ret, raise; congruence.
Qed.

Lemma getitem_nth d i w v :
  0 <= i ->
  nth_error d (Z.to_nat i) = Some v ->
  getitem d i w = Ret v w.
Proof.
  intros Hi Hn. unfold getitem.
  assert (Hl : (Z.to_nat i < List.length d)%nat)
    by (apply nth_error_Some; congruence).
  replace (i <? 0) with false by (symmetry; apply Z.ltb_ge; lia).
  replace ((i <? 0) || (len d <=? i)) with false.
  - rewrite Hn. reflexivity.
  - symmetry. apply orb_false_iff. split.
    + apply Z.ltb_ge; lia.
    + apply Z.leb_gt. unfold len. lia.
Qed.

Lemma getitem_raises d i w e w' :
  getitem d i w = Raise e w' -> e = IndexError.
Proof.
  unfold getitem. destruct (_ || _).
  - unfold raise. congruence.
  - destruct (nth_error _ _); unfold ret, raise; congruence.
Qed.

Section Exchange.
Variable rx : nat -> option Message.
Variable timeout : Z.
Variable msg : Message.

(** Polls that are ignored, fewer than the timeouts still allowed, only
    cost one retransmission each. *)
Lemma wait_loop_skip before :
  forall fuel tries w,
    delivers rx w before ->
    forallb (ignored (self w)) before = true ->
    tries + Z.of_nat (silences before) < 5 ->
    wait_for_response_loop rx (List.length before + fuel) tries timeout
                           (Some msg) w
    = wait_for_response_loop rx fuel (tries + Z.of_nat (silences before))
                             timeout (Some msg)
        (after_sends w msg (List.length before) (List.length before)).
Proof.
  induction before as [|ev before IH]; intros fuel tries w Hd Hig Ht.
  - cbn. rewrite Z.add_0_r. f_equal. unfold after_sends.
    destruct w; cbn. rewrite app_nil_r, Nat.add_0_r. reflexivity.
  - apply delivers_tail in Hd. destruct Hd as [Hev Hd].
    cbn [forallb] in Hig. apply andb_prop in Hig. destruct Hig as [Hig1 Hig].
    assert (Hs : 0 <= Z.of_nat (silences before)) by lia.
    assert (Hcons : Z.of_nat (silences (ev :: before))
                    = (if silent ev then 1 else 0) + Z.of_nat (silences before)).
    { unfold silences. cbn [filter]. destruct (silent ev); cbn [List.length]; lia. }
    rewrite Hcons in *.
    cbn [List.length Nat.add wait_for_response_loop].
    replace (tries =? 5) with false
      by (symmetry; apply Z.eqb_neq; destruct (silent ev); lia).
    unfold bind at 1. unfold get_message. rewrite Hev.
    destruct ev as [r|]; cbn [silent] in *.
    + unfold bind at 1.
      rewrite (reply_is_ignored (self w) r) by (auto; reflexivity).
      unfold bind at 1.
      rewrite (reply_is_ignored (self w) r) by (auto; reflexivity).
      unfold bind at 1. unfold send_can_msg_False, bind, bus_send, ret.
      rewrite IH; [| apply Hd; reflexivity | assumption | cbn; lia].
      f_equal; try lia.
      unfold after_sends; cbn [self sent polls stdout List.length repeat].
      rewrite <- app_assoc. f_equal. lia.
    + unfold send_can_msg_False, bind, bus_send, ret.
      rewrite IH; [| apply Hd; reflexivity | assumption | cbn; lia].
      f_equal; try lia.
      unfold after_sends; cbn [self sent polls stdout List.length repeat].
      rewrite <- app_assoc. f_equal. lia.
Qed.

Lemma delivers_app w before ev :
  delivers rx w (before ++ [ev]) ->
  delivers rx w before /\
  rx (polls w + List.length before)%nat = ev.
Proof.
  intros H. split.
  - intros i Hi. rewrite (H i) by (rewrite length_app; cbn; lia).
    apply app_nth1. exact Hi.
  - rewrite (H (List.length before)) by (rewrite length_app; cbn; lia).
    rewrite app_nth2, Nat.sub_diag by lia. reflexivity.
Qed.

End Exchange.

(** Where the loop stands when the polls of [before] are consumed. *)
Lemma exchange_reaches rx msg before fuel w :
  delivers rx w before ->
  forallb (ignored (self w)) before = true ->
  (silences before < 4)%nat ->
  (List.length before < fuel)%nat ->
  exists fuel',
    send_can_msg rx fuel msg true w
    = (r <- wait_for_response_loop rx (S fuel')
              (1 + Z.of_nat (silences before)) 30 (Some msg) ;;
       ret (Some r))
        (after_sends w msg (S (List.length before)) (List.length before)).
Proof.
  intros Hd Hig Hs Hf.
  exists (fuel - List.length before - 1)%nat.
  unfold send_can_msg, bind at 1. unfold bus_send.
  unfold wait_for_response.
  replace fuel with (List.length before + S (fuel - List.length before - 1))%nat
    at 1 by lia.
  unfold bind at 1. symmetry. unfold bind at 1. symmetry.
  rewrite wait_loop_skip; [| exact Hd | exact Hig | lia].
  unfold after_sends. cbn [self sent polls stdout].
  rewrite <- app_assoc. reflexivity.
Qed.

(** X1: the exchange returns the first SUCCESS reply that carries the
    receive identifier, provided fewer than four polls timed out before
    it; the frame has then been sent once plus once per earlier poll. *)
Theorem exchange_returns_first_success
        (rx : nat -> option Message) (msg : Message) (w : World)
        (before : list (option Message)) (r : Message) (rest : list Z)
        (fuel : nat) :
  delivers rx w (before ++ [Some r]) ->
  forallb (ignored (self w)) before = true ->
  (silences before < 4)%nat ->
  arbitration_id r = _rx_id (self w) ->
  data r = XCPResponses.SUCCESS :: rest ->
  (List.length before < fuel)%nat ->
  send_can_msg rx fuel msg true w
  = Ret (Some r)
        (after_sends w msg (1 + List.length before) (List.length before + 1)).
Proof.
  intros Hd Hig Hs Hid Hdata Hf.
  apply delivers_app in Hd. destruct Hd as [Hd Hr].
  destruct (exchange_reaches rx msg before fuel w Hd Hig Hs Hf) as [fuel' ->].
  unfold bind at 1. cbn [wait_for_response_loop].
  replace (1 + Z.of_nat (silences before) =? 5) with false
    by (symmetry; apply Z.eqb_neq; lia).
  unfold bind at 1. unfold get_message. cbn [after_sends polls]. rewrite Hr.
  unfold bind at 1.
  rewrite (reply_is_marker r _ _ XCPResponses.SUCCESS rest) by assumption.
  rewrite Z.eqb_refl. unfold ret, after_sends. cbn [self sent polls stdout].
  do 2 f_equal. lia.
Qed.

Lemma exchange_returns_first_success_witness :
  send_can_msg rx_odd_then_ok 10 a_frame true world0
  = Ret (Some ok_reply) (after_sends world0 a_frame 2 2).
Proof.
  apply (exchange_returns_first_success rx_odd_then_ok a_frame world0
           [Some odd_reply] ok_reply [0x10; 0; 8; 2; 0; 0; 0] 10).
  - intros i Hi. cbn in Hi. do 2 (destruct i as [|i]; [reflexivity|]). lia.
  - reflexivity.
  - cbn; lia.
  - reflexivity.
  - reflexivity.
  - cbn; lia.
Defined.

(** X2: the exchange raises ConnectionAbortedError with byte 1 of the first
    ERROR reply that carries the receive identifier, provided fewer than
    four polls timed out before it; an ERROR reply is never followed by a
    retransmission. *)
Theorem exchange_raises_first_error
        (rx : nat -> option Message) (msg : Message) (w : World)
        (before : list (option Message)) (r : Message) (code : Z)
        (rest : list Z) (fuel : nat) :
  delivers rx w (before ++ [Some r]) ->
  forallb (ignored (self w)) before = true ->
  (silences before < 4)%nat ->
  arbitration_id r = _rx_id (self w) ->
  data r = XCPResponses.ERROR :: code :: rest ->
  (List.length before < fuel)%nat ->
  send_can_msg rx fuel msg true w
  = Raise (ConnectionAbortedError (PInt code))
          (after_sends w msg (1 + List.length before) (List.length before + 1)).
Proof.
  intros Hd Hig Hs Hid Hdata Hf.
  apply delivers_app in Hd. destruct Hd as [Hd Hr].
  destruct (exchange_reaches rx msg before fuel w Hd Hig Hs Hf) as [fuel' ->].
  unfold bind at 1. cbn [wait_for_response_loop].
  replace (1 + Z.of_nat (silences before) =? 5) with false
    by (symmetry; apply Z.eqb_neq; lia).
  unfold bind at 1. unfold get_message. cbn [after_sends polls]. rewrite Hr.
  unfold bind at 1.
  rewrite (reply_is_marker r _ _ XCPResponses.ERROR (code :: rest))
    by assumption.
  change (XCPResponses.ERROR =? XCPResponses.SUCCESS) with false.
  cbn iota.
  unfold bind at 1.
  rewrite (reply_is_marker r _ _ XCPResponses.ERROR (code :: rest))
    by assumption.
  rewrite Z.eqb_refl. cbn iota.
  unfold bind. rewrite (getitem_nth _ 1 _ code); [| lia | rewrite Hdata; reflexivity].
  unfold raise, after_sends. cbn [self sent polls stdout].
  do 2 f_equal. lia.
Qed.

Lemma exchange_raises_first_error_witness :
  send_can_msg rx_error_01 10 a_frame true world0
  = Raise (ConnectionAbortedError (PInt 1)) (after_sends world0 a_frame 1 1).
Proof.
  apply (exchange_raises_first_error rx_error_01 a_frame world0
           [] error_reply_01 1 [0; 0; 0; 0; 0; 0] 10).
  - intros i Hi. cbn in Hi. destruct i as [|i]; [reflexivity|]. lia.
  - reflexivity.
  - cbn; lia.
  - reflexivity.
  - reflexivity.
  - cbn; lia.
Defined.

Lemma wait_loop_summary rx timeout msg fuel :
  forall tries w,
  exists k n,
    loop_summary msg tries w
      (wait_for_response_loop rx fuel tries timeout (Some msg) w) k n.
Proof.
  assert (Hnil : forall w, w = after_sends w msg 0 0).
  { intros [s l p o]. unfold after_sends; cbn.
    rewrite app_nil_r, Nat.add_0_r. reflexivity. }
  induction fuel as [|fuel IH]; intros tries w.
  - exists 0%nat, 0%nat. split; [apply Hnil|]. split; [lia | exact I].
  - cbn [wait_for_response_loop].
    destruct (Z.eqb_spec tries 5) as [Ht|Ht].
    { exists 0%nat, 0%nat. split; [apply Hnil|]. split; [lia|].
      right. right. split; [reflexivity | lia]. }
    unfold bind at 1. unfold get_message.
    set (w1 := mkWorld (self w) (sent w) (S (polls w)) (stdout w)).
    assert (Hstay : w1 = after_sends w msg 0 1).
    { unfold after_sends, w1. rewrite app_nil_r. f_equal. lia. }
    assert (Hloop : forall t, (t = tries \/ t = tries + 1) ->
               exists k n,
                 loop_summary msg tries w
                   ((send_can_msg_False msg ;;;
                     wait_for_response_loop rx fuel t timeout (Some msg)) w1)
                   k n).
    { intros t Hcase. unfold send_can_msg_False, bind, bus_send, ret.
      destruct (IH t (mkWorld (self w1) (sent w1 ++ [msg]) (polls w1) (stdout w1)))
        as (k & n & Hk & Hkn & He).
      exists (S k), (S n). split; [|split; [lia|]].
      - rewrite Hk. unfold after_sends, w1; cbn [self sent polls stdout repeat].
        rewrite <- app_assoc. f_equal. lia.
      - destruct (wait_for_response_loop rx fuel t timeout (Some msg) _);
          try exact I.
        destruct He as [H1|[H2|[H3 H4]]]; auto.
        right. right. split; [exact H3|]. intros Hle.
        destruct Hcase; subst t; lia. }
    assert (Hidx : exists k n,
               loop_summary msg tries w (@Raise Message IndexError w1) k n).
    { exists 0%nat, 1%nat. split; [exact Hstay|]. split; [lia|].
      left; reflexivity. }
    destruct (rx (polls w)) as [r|]; [|apply Hloop; right; reflexivity].
    unfold bind at 1.
    destruct (reply_is r XCPResponses.SUCCESS w1) as [ok w2|e w2|w2] eqn:Hok.
    + apply reply_is_true in Hok. destruct Hok as [-> _].
      destruct ok.
      { exists 0%nat, 1%nat. split; [exact Hstay|]. split; [lia | exact I]. }
      unfold bind at 1.
      destruct (reply_is r XCPResponses.ERROR w1) as [er w2|e w2|w2] eqn:Her.
      * apply reply_is_true in Her. destruct Her as [-> _].
        destruct er; [|apply Hloop; left; reflexivity].
        unfold bind.
        destruct (stateless_getitem (data r) 1 w1) as [[c Hc]|[e Hc]].
        -- rewrite Hc. exists 0%nat, 1%nat.
           split; [exact Hstay|]. split; [lia|].
           right. left. eexists; reflexivity.
        -- rewrite Hc. rewrite (getitem_raises _ _ _ _ _ Hc). exact Hidx.
      * destruct (stateless_reply_is r XCPResponses.ERROR w1)
          as [[c Hc]|[e' Hc]]; rewrite Hc in Her; [discriminate|].
        rewrite (reply_is_raises _ _ _ _ _ Hc) in Her.
        injection Her as <- <-. exact Hidx.
      * destruct (stateless_reply_is r XCPResponses.ERROR w1)
          as [[c Hc]|[e' Hc]]; rewrite Hc in Her; discriminate.
    + destruct (stateless_reply_is r XCPResponses.SUCCESS w1)
        as [[c Hc]|[e' Hc]]; rewrite Hc in Hok; [discriminate|].
      rewrite (reply_is_raises _ _ _ _ _ Hc) in Hok.
      injection Hok as <- <-. exact Hidx.
    + destruct (stateless_reply_is r XCPResponses.SUCCESS w1)
        as [[c Hc]|[e' Hc]]; rewrite Hc in Hok; discriminate.
Qed.

(** X3: an awaited exchange leaves the instance fields and standard output
    untouched and puts nothing on the bus but copies of its own frame: the
    first transmission and at most one retransmission per poll. *)
Theorem exchange_footprint
        (rx : nat -> option Message) (fuel : nat) (msg : Message) (w : World) :
  exists k n,
    state_of (send_can_msg rx fuel msg true w) = after_sends w msg (S k) n /\
    (k <= n)%nat.
Proof.
  unfold send_can_msg, bind at 1. unfold bus_send.
  set (w1 := mkWorld (self w) (sent w ++ [msg]) (polls w) (stdout w)).
  destruct (wait_loop_summary rx 30 msg fuel 1 w1) as (k & n & Hk & Hkn & _).
  exists k, n. split; [|exact Hkn].
  unfold bind, wait_for_response.
  replace (after_sends w msg (S k) n) with (after_sends w1 msg k n).
  - rewrite <- Hk. destruct (wait_for_response_loop _ _ _ _ _ _); reflexivity.
  - unfold after_sends, w1; cbn [self sent polls stdout repeat].
    rewrite <- app_assoc. reflexivity.
Qed.

(** X4: an exchange raises only ConnectionAbortedError (with the text
    Timeout or with an integer read from a reply) or, on a reply too short
    to index, IndexError; and when it raises Timeout the frame has been sent
    at least 5 times. *)
Theorem exchange_exceptions
        (rx : nat -> option Message) (fuel : nat) (msg : Message)
        (w w' : World) (e : exn) :
  send_can_msg rx fuel msg true w = Raise e w' ->
  e = IndexError \/
  (exists code, e = ConnectionAbortedError (PInt code)) \/
  (e = Timeout /\
   exists k n, w' = after_sends w msg (S k) n /\ (4 <= k)%nat).
Proof.
  intros H. unfold send_can_msg, bind at 1 in H. unfold bus_send in H.
  set (w1 := mkWorld (self w) (sent w ++ [msg]) (polls w) (stdout w)) in H.
  destruct (wait_loop_summary rx 30 msg fuel 1 w1) as (k & n & Hk & Hkn & He).
  unfold bind, wait_for_response in H.
  destruct (wait_for_response_loop rx fuel 1 30 (Some msg) w1)
    as [r w2|e2 w2|w2] eqn:Hl; try discriminate.
  injection H as <- <-.
  destruct He as [H1|[H2|[H3 H4]]]; auto.
  right. right. split; [exact H3|].
  exists k, n. split.
  - cbn [state_of] in Hk. rewrite Hk.
    unfold after_sends, w1; cbn [self sent polls stdout repeat].
    rewrite <- app_assoc. reflexivity.
  - lia.
Qed.

Lemma exchange_exceptions_witness :
  ConnectionAbortedError (PInt 1) = IndexError \/
  (exists code, ConnectionAbortedError (PInt 1) = ConnectionAbortedError (PInt code)) \/
  (ConnectionAbortedError (PInt 1) = Timeout /\
   exists k n,
     after_sends world0 a_frame 1 1 = after_sends world0 a_frame (S k) n /\
     (4 <= k)%nat).
Proof.
  apply (exchange_exceptions rx_error_01 10 a_frame world0
           (after_sends world0 a_frame 1 1) (ConnectionAbortedError (PInt 1))).
  reflexivity.
Defined.

(** ** More on [execute]: arguments out of range *)

Lemma set_data_bad_value msg i v w :
  v < 0 \/ 256 <= v ->
  set_data msg i v w = Raise ValueError w.
Proof.
  intros Hv. unfold set_data, bind, setitem.
  replace ((v <? 0) || (256 <=? v)) with true; [reflexivity|].
  symmetry. apply orb_true_iff.
  destruct Hv; [left; apply Z.ltb_lt | right; apply Z.leb_le]; lia.
Qed.

Lemma set_data_bad_index msg i v w :
  0 <= v < 256 ->
  len (data msg) <= i ->
  set_data msg i v w = Raise IndexError w.
Proof.
  intros Hv Hi. unfold set_data, bind, setitem.
  replace ((v <? 0) || (256 <=? v)) with false
    by (symmetry; apply orb_false_iff; split;
        [apply Z.ltb_ge | apply Z.leb_gt]; lia).
  assert (0 <= len (data msg)) by (unfold len; lia).
  replace (i <? 0) with false by (symmetry; apply Z.ltb_ge; lia).
  replace ((i <? 0) || (len (data msg) <=? i)) with true; [reflexivity|].
  symmetry. apply orb_true_iff. right. apply Z.leb_le. lia.
Qed.

Lemma put_payload_overflow payload :
  forall pre old msg position w,
    data msg = pre ++ old ->
    position = len pre ->
    (List.length old < List.length payload)%nat ->
    Forall (fun b => 0 <= b < 256) payload ->
    put_payload payload position msg w = Raise IndexError w.
Proof.
  induction payload as [|b payload IH];
    intros pre old msg position w Hd Hp Hl Hb.
  - cbn in Hl. lia.
  - inversion Hb as [|? ? Hb1 Hb2]; subst.
    cbn [put_payload]. unfold bind.
    destruct old as [|o old].
    + rewrite set_data_bad_index; [reflexivity | assumption |].
      rewrite Hd, app_nil_r. lia.
    + rewrite set_data_ok;
        [| assumption | rewrite Hd; unfold len; rewrite length_app; cbn; lia].
      apply (IH (pre ++ [b]) old).
      * cbn. rewrite Hd. unfold len. rewrite Nat2Z.id.
        rewrite update_app, <- app_assoc. reflexivity.
      * unfold len. rewrite length_app. cbn. lia.
      * cbn in Hl. lia.
      * assumption.
Qed.

(** X5: a keyword argument that [execute] subscripts and that is absent
    raises KeyError with its name before anything is sent: 'addr' for
    SET_MTA, 'range' for PROGRAM_CLEAR, 'size' and then 'data' for PROGRAM
    and PROGRAM_NEXT. *)
Theorem execute_missing_argument
        (rx : nat -> option Message) (fuel : nat) (w : World)
        (command : XCPCommands) (size : Z)
        (kext kaddr krange ksize : option Z) (kdata : option (list Z)) :
  0 <= match kext with Some e => e | None => 0 end < 256 ->
  command = PROGRAM \/ command = PROGRAM_NEXT ->
  0 <= size < 256 ->
  execute rx fuel SET_MTA (mkKwargs kext None krange ksize kdata) w
  = Raise (KeyError (PStr "addr")) w /\
  execute rx fuel PROGRAM_CLEAR (mkKwargs kext kaddr None ksize kdata) w
  = Raise (KeyError (PStr "range")) w /\
  execute rx fuel command (mkKwargs kext kaddr krange None kdata) w
  = Raise (KeyError (PStr "size")) w /\
  execute rx fuel command (mkKwargs kext kaddr krange (Some size) None) w
  = Raise (KeyError (PStr "data")) w.
Proof.
  intros Hext Hc Hs.
  split; [|split; [|split]].
  - unfold execute. unfold bind at 1, get_self.
    unfold bind at 1. rewrite set_data_ok by (cbn; lia).
    cbn [kw_addr_ext kw_addr].
    unfold bind at 1. rewrite set_data_ok by (cbn; lia).
    reflexivity.
  - unfold execute. unfold bind at 1, get_self.
    unfold bind at 1. rewrite set_data_ok by (cbn; lia).
    reflexivity.
  - unfold execute. unfold bind at 1, get_self.
    unfold bind at 1.
    rewrite set_data_ok by (destruct Hc; subst; cbn; lia).
    destruct Hc; subst command; reflexivity.
  - unfold execute. unfold bind at 1, get_self.
    unfold bind at 1.
    rewrite set_data_ok by (destruct Hc; subst; cbn; lia).
    assert (Hbody :
      forall m,
        len (data m) = 8 ->
        (size0 <- subscript "size" (Some size) ;;
         msg <- set_data m 1 size0 ;;
         payload0 <- subscript "data" (@None (list Z)) ;;
         msg <- put_payload payload0 2 msg ;;
         size1 <- subscript "size" (Some size) ;;
         s <- get_self ;;
         send_can_msg rx fuel msg (size1 <=? _max_data_prg s)) w
        = Raise (KeyError (PStr "data")) w).
    { intros m Hm. cbn [subscript]. unfold bind at 1, ret at 1.
      unfold bind at 1. rewrite set_data_ok by (rewrite ?Hm; lia).
      reflexivity. }
    destruct Hc; subst command; apply Hbody; reflexivity.
Qed.

Lemma execute_missing_argument_witness :
  execute rx_ok 10 SET_MTA (mkKwargs None None None None None) world0
  = Raise (KeyError (PStr "addr")) world0 /\
  execute rx_ok 10 PROGRAM_CLEAR (mkKwargs None None None None None) world0
  = Raise (KeyError (PStr "range")) world0 /\
  execute rx_ok 10 PROGRAM (mkKwargs None None None None None) world0
  = Raise (KeyError (PStr "size")) world0 /\
  execute rx_ok 10 PROGRAM (mkKwargs None None None (Some 3) None) world0
  = Raise (KeyError (PStr "data")) world0.
Proof.
  apply (execute_missing_argument rx_ok 10 world0 PROGRAM 3
           None None None None None).
  - lia.
  - left; reflexivity.
  - lia.
Defined.

Lemma execute_PROGRAM_bad_size rx fuel w command size kext kaddr krange kdata :
  command = PROGRAM \/ command = PROGRAM_NEXT ->
  size < 0 \/ 256 <= size ->
  execute rx fuel command (mkKwargs kext kaddr krange (Some size) kdata) w
  = Raise ValueError w.
Proof.
  intros Hc Hs. unfold execute. unfold bind at 1, get_self.
  unfold bind at 1.
  rewrite set_data_ok by (destruct Hc; subst; cbn; lia).
  assert (Hbody :
    forall m,
      (size0 <- subscript "size" (Some size) ;;
       msg <- set_data m 1 size0 ;;
       payload0 <- subscript "data" kdata ;;
       msg <- put_payload payload0 2 msg ;;
       size1 <- subscript "size" (Some size) ;;
       s <- get_self ;;
       send_can_msg rx fuel msg (size1 <=? _max_data_prg s)) w
      = Raise ValueError w).
  { intros m. cbn [subscript]. unfold bind at 1, ret at 1.
    unfold bind at 1. rewrite set_data_bad_value by assumption.
    reflexivity. }
  destruct Hc; subst command; apply Hbody.
Qed.

Lemma execute_PROGRAM_long_payload rx fuel w command size payload
      kext kaddr krange :
  command = PROGRAM \/ command = PROGRAM_NEXT ->
  0 <= size < 256 ->
  (6 < List.length payload)%nat ->
  Forall (fun b => 0 <= b < 256) payload ->
  execute rx fuel command (mkKwargs kext kaddr krange (Some size) (Some payload)) w
  = Raise IndexError w.
Proof.
  intros Hc Hs Hl Hb. unfold execute. unfold bind at 1, get_self.
  unfold bind at 1.
  rewrite set_data_ok by (destruct Hc; subst; cbn; lia).
  assert (Hbody :
    forall c,
      (size0 <- subscript "size" (Some size) ;;
       msg <- set_data
                (mkMessage (_tx_id (self w)) false
                           (update (repeat 0 8) (Z.to_nat 0) c))
                1 size0 ;;
       payload0 <- subscript "data" (Some payload) ;;
       msg <- put_payload payload0 2 msg ;;
       size1 <- subscript "size" (Some size) ;;
       s <- get_self ;;
       send_can_msg rx fuel msg (size1 <=? _max_data_prg s)) w
      = Raise IndexError w).
  { intros c. cbn [subscript]. unfold bind at 1, ret at 1.
    unfold bind at 1. rewrite set_data_ok by (cbn; lia).
    unfold bind at 1, ret at 1.
    unfold bind at 1.
    rewrite (put_payload_overflow payload [c; size] (repeat 0 6));
      [reflexivity | reflexivity | reflexivity | cbn; lia | assumption]. }
  destruct Hc; subst command; apply Hbody.
Qed.

Lemma Forall_slice {A} (P : A -> Prop) (b : list A) lo hi :
  Forall P b -> Forall P (slice b lo hi).
Proof.
  intros H. unfold slice.
  set (l := Z.to_nat (clamp (len b) lo)).
  set (n := Z.to_nat (clamp (len b) hi - clamp (len b) lo)).
  rewrite <- (firstn_skipn l b) in H. apply Forall_app in H.
  destruct H as [_ H].
  rewrite <- (firstn_skipn n (skipn l b)) in H. apply Forall_app in H.
  apply H.
Qed.

Lemma slice_from_zero_length {A} (b : list A) c :
  0 <= c -> len (slice b 0 (0 + c)) = Z.min c (len b).
Proof.
  intros Hc. unfold slice, len, clamp.
  replace (0 <? 0) with false by reflexivity.
  replace (0 + c <? 0) with false by (symmetry; apply Z.ltb_ge; lia).
  rewrite length_firstn, length_skipn. lia.
Qed.

(** The first iteration of the loop of [program], up to its PROGRAM
    command: the bar is printed and [execute] is called with the size of
    the first unit and the first slice. *)
Lemma program_starts rx fuel data w :
  0 < len data ->
  0 <= _data_len (self w) ->
  (print "flashing new firmware..." ;;;
   bytes_send <- program_loop rx (S fuel) (S fuel) data 0 ;;
   print_progress_bar bytes_send (len data) ;;;
   execute rx (S fuel) PROGRAM_RESET no_kwargs ;;;
   ret tt) w
  = (bytes_send <-
       (r <- execute rx (S fuel) PROGRAM
               (mkKwargs None None None
                  (Some (Z.min (_data_len (self w)) (len data)))
                  (Some (slice data 0 (0 + _max_data_prg (self w))))) ;;
        s <- get_self ;;
        let send_length :=
          Z.min (_data_len (self w)) (len data) - _max_data_prg s in
        s <- get_self ;;
        let bytes_send := 0 + Z.min send_length (_max_data_prg s) in
        p <- program_next_loop rx (S fuel) (S fuel) data bytes_send send_length ;;
        program_loop rx fuel (S fuel) data (fst p)) ;;
     print_progress_bar bytes_send (len data) ;;;
     execute rx (S fuel) PROGRAM_RESET no_kwargs ;;;
     ret tt)
      (mkWorld (self w) (sent w) (polls w)
               (stdout w ++ [Print "flashing new firmware...";
                             ProgressBar 0 (len data)])).
Proof.
  intros Hl Hd. unfold bind at 1, print at 1.
  unfold bind at 1. symmetry. unfold bind at 1. symmetry.
  cbn [program_loop].
  replace (0 <? len data) with true by (symmetry; apply Z.ltb_lt; lia).
  unfold bind at 1, get_self at 1. cbn [self].
  unfold bind at 1, get_self at 1. cbn [self].
  change (0 mod 10000) with 0.
  replace (0 <=? _data_len (self w)) with true
    by (symmetry; apply Z.leb_le; lia).
  unfold bind at 1, print_progress_bar.
  replace (len data =? 0) with false by (symmetry; apply Z.eqb_neq; lia).
  unfold bind at 1, write_bar at 1. cbn [self sent polls stdout].
  replace (0 =? len data) with false by (symmetry; apply Z.eqb_neq; lia).
  unfold ret at 1.
  unfold bind at 1, get_self at 1. cbn [self].
  rewrite Z.sub_0_r.
  replace (if _data_len (self w) >? len data then len data else _data_len (self w))
    with (Z.min (_data_len (self w)) (len data)).
  2:{ rewrite Z.gtb_ltb. destruct (Z.ltb_spec (len data) (_data_len (self w))); lia. }
  rewrite <- app_assoc. reflexivity.
Qed.

(** X6: when the negotiated unit size [_data_len] is 256 or more and the
    image has at least 256 bytes, [program] raises ValueError on its first
    PROGRAM command, after printing the first progress bar and before any
    frame is sent: the size does not fit byte 1 of the frame. *)
Theorem program_unit_size_over_255
        (rx : nat -> option Message) (fuel : nat) (data : list Z) (w : World) :
  256 <= _data_len (self w) ->
  256 <= len data ->
  program rx (S fuel) data w
  = Raise ValueError
      (mkWorld (self w) (sent w) (polls w)
               (stdout w ++ [Print "flashing new firmware...";
                             ProgressBar 0 (len data)])).
Proof.
  intros Hd Hl. unfold program.
  rewrite program_starts by lia.
  unfold bind at 1. unfold bind at 1.
  rewrite execute_PROGRAM_bad_size; [reflexivity | left; reflexivity | lia].
Qed.

Lemma program_unit_size_over_255_witness :
  program rx_ok 1 (repeat 0 256)
          (mkWorld (mkXCPFlash 0x100 0x200 0 300 6 512) [] 0 [])
  = Raise ValueError
      (mkWorld (mkXCPFlash 0x100 0x200 0 300 6 512) [] 0
               [Print "flashing new firmware..."; ProgressBar 0 256]).
Proof.
  apply (program_unit_size_over_255 rx_ok 0 (repeat 0 256)
           (mkWorld (mkXCPFlash 0x100 0x200 0 300 6 512) [] 0 [])).
  - cbn; lia.
  - unfold len. rewrite repeat_length. lia.
Defined.

(** X7: when the negotiated capacity [_max_data_prg] is 7 or more (a
    device that announces frames longer than 8 bytes) and the image has at
    least 7 bytes, [program] raises IndexError on its first PROGRAM command,
    before any frame is sent: the seventh payload byte has no place in the
    8-byte frame. *)
Theorem program_capacity_over_6
        (rx : nat -> option Message) (fuel : nat) (data : list Z) (w : World) :
  7 <= _max_data_prg (self w) ->
  0 <= _data_len (self w) < 256 ->
  7 <= len data ->
  Forall (fun b => 0 <= b < 256) data ->
  program rx (S fuel) data w
  = Raise IndexError
      (mkWorld (self w) (sent w) (polls w)
               (stdout w ++ [Print "flashing new firmware...";
                             ProgressBar 0 (len data)])).
Proof.
  intros Hc Hd Hl Hb. unfold program.
  rewrite program_starts by lia.
  unfold bind at 1. unfold bind at 1.
  rewrite execute_PROGRAM_long_payload; [reflexivity | left; reflexivity | lia | |].
  - pose proof (slice_from_zero_length data (_max_data_prg (self w))
                  ltac:(lia)) as H.
    unfold len in H at 1. cbn [self]. lia.
  - apply Forall_slice. exact Hb.
Qed.

Lemma program_capacity_over_6_witness :
  program rx_ok 1 data8
          (mkWorld (mkXCPFlash 0x100 0x200 0 14 7 512) [] 0 [])
  = Raise IndexError
      (mkWorld (mkXCPFlash 0x100 0x200 0 14 7 512) [] 0
               [Print "flashing new firmware..."; ProgressBar 0 8]).
Proof.
  apply (program_capacity_over_6 rx_ok 0 data8
           (mkWorld (mkXCPFlash 0x100 0x200 0 14 7 512) [] 0 [])).
  - cbn; lia.
  - cbn; lia.
  - cbn; lia.
  - repeat constructor; lia.
Defined.

(** ** More on SET_MTA and PROGRAM_CLEAR: values wider than 32 bits *)

Lemma byte_of_low_word x c d :
  0 < c -> c * (256 * d) = 2 ^ 32 ->
  ((x mod 2 ^ 32) / c) mod 256 = (x / c) mod 256.
Proof.
  intros Hc Hcd.
  pose proof (Z.div_mod x (2 ^ 32) ltac:(lia)) as Hx.
  remember (x mod 2 ^ 32) as m eqn:Hm. remember (x / 2 ^ 32) as q eqn:Hq.
  clear Hm Hq. rewrite <- Hcd in Hx.
  assert (Hx' : x = m + (q * (256 * d)) * c) by (rewrite Hx; ring).
  rewrite Hx'.
  rewrite Z.div_add by lia.
  replace (m / c + q * (256 * d)) with (m / c + (q * d) * 256) by lia.
  rewrite Z.mod_add by lia. reflexivity.
Qed.

(** X8: SET_MTA and PROGRAM_CLEAR raise nothing for an address or a range
    length outside 32 bits (or negative): they behave exactly as for its
    value modulo 2^32, so only the low 32 bits reach the device. *)
Theorem execute_truncates_to_32_bits
        (rx : nat -> option Message) (fuel : nat) (w : World)
        (kext : option Z) (addr range_ : Z) :
  0 <= match kext with Some e => e | None => 0 end < 256 ->
  execute rx fuel SET_MTA (mkKwargs kext (Some addr) None None None) w
  = execute rx fuel SET_MTA
      (mkKwargs kext (Some (addr mod 2 ^ 32)) None None None) w
  /\
  execute rx fuel PROGRAM_CLEAR (mkKwargs None None (Some range_) None None) w
  = execute rx fuel PROGRAM_CLEAR
      (mkKwargs None None (Some (range_ mod 2 ^ 32)) None None) w.
Proof.
  intros Hext.
  assert (H24 : forall x, ((x mod 2 ^ 32) / 2 ^ 24) mod 256 = (x / 2 ^ 24) mod 256)
    by (intros; apply (byte_of_low_word x (2 ^ 24) 1); lia).
  assert (H16 : forall x, ((x mod 2 ^ 32) / 2 ^ 16) mod 256 = (x / 2 ^ 16) mod 256)
    by (intros; apply (byte_of_low_word x (2 ^ 16) (2 ^ 8)); lia).
  assert (H8 : forall x, ((x mod 2 ^ 32) / 2 ^ 8) mod 256 = (x / 2 ^ 8) mod 256)
    by (intros; apply (byte_of_low_word x (2 ^ 8) (2 ^ 16)); lia).
  assert (H0 : forall x, (x mod 2 ^ 32) mod 256 = x mod 256).
  { intros x. pose proof (byte_of_low_word x 1 (2 ^ 24) ltac:(lia) ltac:(lia)) as H.
    rewrite !Z.div_1_r in H. exact H. }
  split.
  - rewrite !execute_SET_MTA by exact Hext.
    rewrite H24, H16, H8, H0. reflexivity.
  - rewrite !execute_PROGRAM_CLEAR.
    rewrite H24, H16, H8, H0. reflexivity.
Qed.

Lemma execute_truncates_to_32_bits_witness :
  execute rx_ok 10 SET_MTA
          (mkKwargs None (Some 0x108004000) None None None) world0
  = execute rx_ok 10 SET_MTA
      (mkKwargs None (Some (0x108004000 mod 2 ^ 32)) None None None) world0.
Proof.
  apply (execute_truncates_to_32_bits rx_ok 10 world0 None 0x108004000 0).
  cbn; lia.
Defined.

(** ** More on the stages: [connect], [clear] and the reports of [__call__] *)

Lemma exchange_acked rx fuel msg w r rest :
  rx (polls w) = Some r ->
  arbitration_id r = _rx_id (self w) ->
  data r = XCPResponses.SUCCESS :: rest ->
  send_can_msg rx (S fuel) msg true w
  = Ret (Some r) (after_sends w msg 1 1).
Proof.
  intros Hr Hid Hdata.
  unfold send_can_msg, bind at 1. unfold bus_send.
  unfold bind at 1, wait_for_response. cbn [wait_for_response_loop].
  change (1 =? 5) with false. cbn iota.
  unfold bind at 1. unfold get_message. cbn [polls]. rewrite Hr.
  unfold bind at 1.
  rewrite (reply_is_marker r _ _ XCPResponses.SUCCESS rest) by assumption.
  rewrite Z.eqb_refl. unfold ret, after_sends. cbn [self sent polls stdout repeat].
  do 2 f_equal. lia.
Qed.

Lemma execute_CONNECT_acked rx fuel kwargs w r b1 b2 b3 b4 b5 rest :
  rx (polls w) = Some r ->
  arbitration_id r = _rx_id (self w) ->
  data r = XCPResponses.SUCCESS :: b1 :: b2 :: b3 :: b4 :: b5 :: rest ->
  0 <= _conn_mode (self w) < 256 ->
  execute rx (S fuel) CONNECT kwargs w
  = Ret (Some r)
      (mkWorld
         (mkXCPFlash (_tx_id (self w)) (_rx_id (self w)) (_conn_mode (self w))
                     (_data_len (self w)) (_max_data_prg (self w))
                     (b4 * 256 + b5))
         (sent w ++ [mkMessage (_tx_id (self w)) false
                               [0xFF; _conn_mode (self w); 0; 0; 0; 0; 0; 0]])
         (polls w + 1)%nat (stdout w)).
Proof.
  intros Hr Hid Hdata Hmode.
  unfold execute. unfold bind at 1, get_self at 1.
  unfold bind at 1. rewrite set_data_ok by (cbn; lia).
  unfold bind at 1. rewrite set_data_ok by (cbn; lia).
  unfold bind at 1.
  rewrite (exchange_acked rx fuel _ w r _ Hr Hid Hdata).
  cbn [data_of]. unfold bind at 1, ret at 1.
  unfold bind at 1.
  rewrite (getitem_nth _ 4 _ b4) by (try lia; rewrite Hdata; reflexivity).
  unfold bind at 1, get_self at 1.
  unfold bind at 1, set_self at 1.
  unfold bind at 1.
  rewrite (getitem_nth _ 5 _ b5) by (try lia; rewrite Hdata; reflexivity).
  unfold bind at 1, get_self at 1.
  unfold bind at 1, set_self at 1.
  unfold ret, after_sends.
  cbn [self sent polls stdout _tx_id _rx_id _conn_mode _data_len
       _max_data_prg _max_data repeat data arbitration_id is_extended_id].
  rewrite Z.shiftl_mul_pow2 by lia. change (2 ^ 8) with 256.
  reflexivity.
Qed.

(** X9: when the device answers CONNECT at once with a SUCCESS reply,
    [connect] sends the single frame FF mode 00.., stores bytes 4 and 5 of
    the reply as [_max_data], and then raises ConnectionError if bit 0x10
    of reply byte 1 is clear, or else if one of the bits 0x06 of reply byte
    2 is set; otherwise it returns.  The limit is stored in all three cases. *)
Theorem connect_checks_capabilities
        (rx : nat -> option Message) (fuel : nat) (w : World) (r : Message)
        (b1 b2 b3 b4 b5 : Z) (rest : list Z) :
  rx (polls w) = Some r ->
  arbitration_id r = _rx_id (self w) ->
  data r = XCPResponses.SUCCESS :: b1 :: b2 :: b3 :: b4 :: b5 :: rest ->
  0 <= _conn_mode (self w) < 256 ->
  let w' :=
    mkWorld
      (mkXCPFlash (_tx_id (self w)) (_rx_id (self w)) (_conn_mode (self w))
                  (_data_len (self w)) (_max_data_prg (self w))
                  (b4 * 256 + b5))
      (sent w ++ [mkMessage (_tx_id (self w)) false
                            [0xFF; _conn_mode (self w); 0; 0; 0; 0; 0; 0]])
      (polls w + 1)%nat
      (stdout w ++ [Print "connecting..."]) in
  connect rx (S fuel) w
  = if Z.land b1 16 =? 0
    then Raise (ConnectionError
                  "Flash programming not supported by the connected device") w'
    else if Z.land b2 6 =? 0
         then Ret tt w'
         else Raise (ConnectionError "Address granularity > 1 not supported") w'.
Proof.
  intros Hr Hid Hdata Hmode w'.
  unfold connect. unfold bind at 1, print at 1.
  unfold bind at 1.
  rewrite (execute_CONNECT_acked rx fuel no_kwargs _ r b1 b2 b3 b4 b5 rest)
    by assumption.
  cbn [self sent polls stdout _tx_id _rx_id _conn_mode _data_len
       _max_data_prg _max_data data_of].
  fold w'.
  unfold bind at 1, ret at 1.
  unfold bind at 1.
  rewrite (getitem_nth _ 1 _ b1) by (try lia; rewrite Hdata; reflexivity).
  destruct (Z.land b1 16 =? 0); [reflexivity|].
  unfold bind at 1, ret at 1.
  unfold bind at 1.
  rewrite (getitem_nth _ 2 _ b2) by (try lia; rewrite Hdata; reflexivity).
  destruct (Z.land b2 6 =? 0); reflexivity.
Qed.

Lemma connect_checks_capabilities_witness :
  connect rx_ok 10 world0
  = Ret tt
      (mkWorld (mkXCPFlash 0x100 0x200 0 0 0 512)
               [mkMessage 0x100 false [0xFF; 0; 0; 0; 0; 0; 0; 0]]
               1 [Print "connecting..."]).
Proof.
  apply (connect_checks_capabilities rx_ok 9 world0 ok_reply
           0x10 0 8 2 0 [0; 0]).
  - reflexivity.
  - reflexivity.
  - reflexivity.
  - cbn; lia.
Defined.

Lemma execute_PROGRAM_START_acked rx fuel kwargs w r a1 a2 b3 b4 rest :
  rx (polls w) = Some r ->
  arbitration_id r = _rx_id (self w) ->
  data r = XCPResponses.SUCCESS :: a1 :: a2 :: b3 :: b4 :: rest ->
  execute rx (S fuel) PROGRAM_START kwargs w
  = Ret (Some r)
      (mkWorld
         (mkXCPFlash (_tx_id (self w)) (_rx_id (self w)) (_conn_mode (self w))
                     ((b3 - 2) * b4) (b3 - 2) (_max_data (self w)))
         (sent w ++ [mkMessage (_tx_id (self w)) false
                               [0xD2; 0; 0; 0; 0; 0; 0; 0]])
         (polls w + 1)%nat (stdout w)).
Proof.
  intros Hr Hid Hdata.
  unfold execute. unfold bind at 1, get_self at 1.
  unfold bind at 1. rewrite set_data_ok by (cbn; lia).
  unfold bind at 1.
  rewrite (exchange_acked rx fuel _ w r _ Hr Hid Hdata).
  cbn [data_of]. unfold bind at 1, ret at 1.
  unfold bind at 1.
  rewrite (getitem_nth _ 3 _ b3) by (try lia; rewrite Hdata; reflexivity).
  unfold bind at 1.
  rewrite (getitem_nth _ 4 _ b4) by (try lia; rewrite Hdata; reflexivity).
  unfold bind at 1, get_self at 1.
  unfold bind at 1, set_self at 1.
  unfold bind at 1, get_self at 1.
  unfold bind at 1, set_self at 1.
  reflexivity.
Qed.

(** X10: when the device acknowledges each command at once, [clear] sends
    exactly three frames, PROGRAM_START, then SET_MTA with address
    extension 0 and the start address, then PROGRAM_CLEAR with the length,
    both big-endian in bytes 4 to 7, and leaves the limits negotiated from
    the PROGRAM_START reply in the instance. *)
Theorem clear_sends_three_commands
        (rx : nat -> option Message) (fuel : nat) (w : World)
        (start_addr length : Z) (r0 r1 r2 : Message)
        (a1 a2 b3 b4 : Z) (rest0 rest1 rest2 : list Z) :
  rx (polls w) = Some r0 ->
  rx (polls w + 1)%nat = Some r1 ->
  rx (polls w + 2)%nat = Some r2 ->
  arbitration_id r0 = _rx_id (self w) ->
  arbitration_id r1 = _rx_id (self w) ->
  arbitration_id r2 = _rx_id (self w) ->
  data r0 = XCPResponses.SUCCESS :: a1 :: a2 :: b3 :: b4 :: rest0 ->
  data r1 = XCPResponses.SUCCESS :: rest1 ->
  data r2 = XCPResponses.SUCCESS :: rest2 ->
  clear rx (S fuel) start_addr length w
  = Ret tt
      (mkWorld
         (mkXCPFlash (_tx_id (self w)) (_rx_id (self w)) (_conn_mode (self w))
                     ((b3 - 2) * b4) (b3 - 2) (_max_data (self w)))
         (sent w ++
            [mkMessage (_tx_id (self w)) false [0xD2; 0; 0; 0; 0; 0; 0; 0];
             mkMessage (_tx_id (self w)) false
               [0xF6; 0; 0; 0;
                (start_addr / 2 ^ 24) mod 256; (start_addr / 2 ^ 16) mod 256;
                (start_addr / 2 ^ 8) mod 256; start_addr mod 256];
             mkMessage (_tx_id (self w)) false
               [0xD1; 0; 0; 0;
                (length / 2 ^ 24) mod 256; (length / 2 ^ 16) mod 256;
                (length / 2 ^ 8) mod 256; length mod 256]])
         (polls w + 3)%nat
         (stdout w
            ++ [Print "erasing device (this may take several minutes)..."])).
Proof.
  intros H0 H1 H2 I0 I1 I2 D0 D1 D2.
  unfold clear. unfold bind at 1, print at 1.
  unfold bind at 1.
  rewrite (execute_PROGRAM_START_acked rx fuel no_kwargs _ r0 a1 a2 b3 b4 rest0)
    by assumption.
  cbn [self sent polls stdout _tx_id _rx_id].
  unfold bind at 1.
  rewrite (execute_SET_MTA rx (S fuel) _ None) by (cbn; lia).
  rewrite (exchange_acked rx fuel _ _ r1 rest1) by assumption.
  unfold bind at 1.
  rewrite execute_PROGRAM_CLEAR.
  rewrite (exchange_acked rx fuel _ _ r2 rest2);
    [| cbn [after_sends polls];
       replace (polls w + 1 + 1)%nat with (polls w + 2)%nat by lia; assumption
     | assumption | assumption].
  unfold ret, after_sends.
  cbn [self sent polls stdout _tx_id _rx_id _conn_mode _data_len
       _max_data_prg _max_data repeat].
  rewrite <- !app_assoc. cbn [app].
  do 2 f_equal. lia.
Qed.

Lemma clear_sends_three_commands_witness :
  clear rx_ok 10 0x08004000 8 world0
  = Ret tt
      (mkWorld (mkXCPFlash 0x100 0x200 0 12 6 8)
         [mkMessage 0x100 false [0xD2; 0; 0; 0; 0; 0; 0; 0];
          mkMessage 0x100 false [0xF6; 0; 0; 0; 0x08; 0x00; 0x40; 0x00];
          mkMessage 0x100 false [0xD1; 0; 0; 0; 0; 0; 0; 8]]
         3 [Print "erasing device (this may take several minutes)..."]).
Proof.
  apply (clear_sends_three_commands rx_ok 9 world0 0x08004000 8
           ok_reply ok_reply ok_reply 0x10 0 8 2
           [0; 0; 0] [0x10; 0; 8; 2; 0; 0; 0] [0x10; 0; 8; 2; 0; 0; 0]);
    reflexivity.
Defined.

Lemma execute_DISCONNECT rx fuel kwargs w :
  execute rx fuel DISCONNECT kwargs w
  = send_can_msg rx fuel (disconnect_frame (self w)) true w.
Proof.
  unfold execute. unfold bind at 1, get_self at 1.
  unfold bind at 1. rewrite set_data_ok by (cbn; lia).
  reflexivity.
Qed.

Lemma handler_prints_line rx fuel start_addr data w e w1 line :
  stages rx fuel start_addr data w = Raise e w1 ->
  failure_line e = Some line ->
  try_except (stages rx fuel start_addr data)
    (fun e => match e with
              | ConnectionAbortedError arg => Some (report_aborted arg)
              | ConnectionError m =>
                  Some (print (nl ++ "Connection error: " ++ m))
              | _ => None
              end) w
  = Ret tt (mkWorld (self w1) (sent w1) (polls w1) (stdout w1 ++ [Print line])).
Proof.
  intros Hst Hline. unfold try_except. rewrite Hst.
  destruct e as [[s|code]|m| |k| | |]; unfold failure_line in Hline;
    try discriminate.
  - unfold report_aborted. destruct (String.eqb s "Timeout"); [|discriminate].
    injection Hline as <-. reflexivity.
  - unfold report_aborted.
    destruct (XCPErrors.lookup code XCPErrors.error_messages); [|discriminate].
    injection Hline as <-. reflexivity.
  - injection Hline as <-. reflexivity.
Qed.

(** X11: when a stage fails with Timeout, with a device error code listed
    in [error_messages], or with ConnectionError, and the device then
    acknowledges DISCONNECT at once, [__call__] returns normally: it has
    printed one line for the failure, then the disconnect line, and has
    sent one DISCONNECT frame after the frames of the stages. *)
Theorem call_reports_failure_and_returns
        (rx : nat -> option Message) (fuel : nat) (start_addr : Z)
        (image : list Z) (w w1 : World) (e : exn) (line : string)
        (r : Message) (rest : list Z) :
  stages rx (S fuel) start_addr image w = Raise e w1 ->
  failure_line e = Some line ->
  rx (polls w1) = Some r ->
  arbitration_id r = _rx_id (self w1) ->
  data r = XCPResponses.SUCCESS :: rest ->
  __call__ rx (S fuel) start_addr image w
  = Ret tt
      (mkWorld (self w1) (sent w1 ++ [disconnect_frame (self w1)])
               (polls w1 + 1)%nat
               (stdout w1 ++ [Print line; Print "disconnecting.."])).
Proof.
  intros Hst Hline Hr Hid Hdata.
  unfold __call__, try_finally.
  rewrite (handler_prints_line _ _ _ _ _ _ _ _ Hst Hline).
  unfold try_except, disconnect. unfold bind at 1, print at 1.
  unfold bind at 1. rewrite execute_DISCONNECT.
  rewrite (exchange_acked rx fuel _ _ r rest) by assumption.
  unfold ret, after_sends. cbn [self sent polls stdout repeat].
  rewrite <- app_assoc. reflexivity.
Qed.

Lemma call_reports_failure_and_returns_witness :
  __call__ rx_error_busy 10 0x08000000 data8 world0
  = Ret tt
      (mkWorld fresh
         [mkMessage 0x100 false [0xFF; 0; 0; 0; 0; 0; 0; 0];
          disconnect_frame fresh]
         2
         [Print "connecting...";
          Print (nl ++ "Connection aborted: Command was not executed.");
          Print "disconnecting.."]).
Proof.
  apply (call_reports_failure_and_returns rx_error_busy 9 0x08000000 data8
           world0
           (mkWorld fresh [mkMessage 0x100 false [0xFF; 0; 0; 0; 0; 0; 0; 0]]
                    1 [Print "connecting..."])
           (ConnectionAbortedError (PInt 0x10))
           (nl ++ "Connection aborted: Command was not executed.")
           ok_reply [0x10; 0; 8; 2; 0; 0; 0]).
  - vm_compute. reflexivity.
  - reflexivity.
  - reflexivity.
  - reflexivity.
  - reflexivity.
Defined.

(** X12: a failure of the cleanup is reported as well and hides nothing:
    when a stage fails with a failure that has a line, and the bus then
    stays silent, [__call__] still returns normally, having sent DISCONNECT
    5 times and printed the line of the stage failure, the disconnect line
    and the Timeout line, in this order. *)
Theorem call_reports_cleanup_timeout
        (rx : nat -> option Message) (fuel : nat) (start_addr : Z)
        (image : list Z) (w w1 : World) (e : exn) (line : string) :
  stages rx fuel start_addr image w = Raise e w1 ->
  failure_line e = Some line ->
  (forall i, (i < 4)%nat -> rx (polls w1 + i)%nat = None) ->
  (4 < fuel)%nat ->
  __call__ rx fuel start_addr image w
  = Ret tt
      (mkWorld (self w1) (sent w1 ++ repeat (disconnect_frame (self w1)) 5)
               (polls w1 + 4)%nat
               (stdout w1 ++ [Print line; Print "disconnecting..";
                              Print (nl ++ "Connection aborted: Timeout")])).
Proof.
  intros Hst Hline Hsil Hf.
  unfold __call__, try_finally.
  rewrite (handler_prints_line _ _ _ _ _ _ _ _ Hst Hline).
  unfold try_except, disconnect. unfold bind at 1, print at 1.
  unfold bind at 1. rewrite execute_DISCONNECT.
  unfold send_can_msg, bind at 1. unfold bus_send.
  unfold bind at 1, wait_for_response.
  rewrite (wait_loop_exhausted rx 30 _ [None; None; None; None] 4).
  - unfold Timeout, report_aborted.
    change (String.eqb "Timeout" "Timeout") with true. cbv beta iota.
    unfold print, after_sends. cbn [self sent polls stdout List.length].
    rewrite <- !app_assoc. reflexivity.
  - reflexivity.
  - intros i Hi. cbn [polls]. cbn in Hi. rewrite Hsil by exact Hi.
    do 4 (destruct i as [|i]; [reflexivity|]). lia.
  - reflexivity.
  - reflexivity.
  - cbn. exact Hf.
Qed.

Lemma call_reports_cleanup_timeout_witness :
  __call__ rx_silent 10 0x08000000 data8 world0
  = Ret tt
      (mkWorld fresh
         (repeat (mkMessage 0x100 false [0xFF; 0; 0; 0; 0; 0; 0; 0]) 5
            ++ repeat (disconnect_frame fresh) 5)
         8
         [Print "connecting...";
          Print (nl ++ "Connection aborted: Timeout");
          Print "disconnecting..";
          Print (nl ++ "Connection aborted: Timeout")]).
Proof.
  apply (call_reports_cleanup_timeout rx_silent 10 0x08000000 data8 world0
           (mkWorld fresh
              (repeat (mkMessage 0x100 false [0xFF; 0; 0; 0; 0; 0; 0; 0]) 5)
              4 [Print "connecting..."])
           Timeout (nl ++ "Connection aborted: Timeout")).
  - vm_compute. reflexivity.
  - reflexivity.
  - intros i Hi. reflexivity.
  - lia.
Defined.

(** ** More on [program]: images it transfers, and images it does not *)

Lemma firstn_add {A} (n m : nat) :
  forall l : list A, firstn (n + m) l = firstn n l ++ firstn m (skipn n l).
Proof.
  induction n as [|n IH]; intros l; [reflexivity|].
  destruct l as [|x l]; cbn.
  - rewrite firstn_nil. reflexivity.
  - rewrite IH. reflexivity.
Qed.

Lemma seg_app {A} (b : list A) lo k1 k2 :
  0 <= lo -> 0 <= k1 -> 0 <= k2 ->
  seg b lo k1 ++ seg b (lo + k1) k2 = seg b lo (k1 + k2).
Proof.
  intros Hlo H1 H2. unfold seg.
  rewrite !Z2Nat.inj_add by lia.
  rewrite firstn_add, skipn_skipn.
  rewrite (Nat.add_comm (Z.to_nat k1) (Z.to_nat lo)). reflexivity.
Qed.

Lemma seg_all {A} (b : list A) : seg b 0 (len b) = b.
Proof. unfold seg, len. rewrite Nat2Z.id. cbn. apply firstn_all. Qed.

Lemma seg_nil {A} (b : list A) lo : seg b lo 0 = [].
Proof. reflexivity. Qed.

Lemma slice_seg {A} (b : list A) lo c :
  0 <= lo <= len b -> 0 <= c ->
  slice b lo (lo + c) = seg b lo (Z.min c (len b - lo)).
Proof.
  intros Hlo Hc. unfold slice, seg, clamp.
  replace (lo <? 0) with false by (symmetry; apply Z.ltb_ge; lia).
  replace (lo + c <? 0) with false by (symmetry; apply Z.ltb_ge; lia).
  replace (Z.min lo (len b)) with lo by lia.
  replace (Z.min (lo + c) (len b) - lo) with (Z.min c (len b - lo)) by lia.
  reflexivity.
Qed.

Lemma seg_length {A} (b : list A) lo k :
  0 <= lo -> 0 <= k -> lo + k <= len b -> len (seg b lo k) = k.
Proof.
  intros Hlo Hk Hb. unfold seg, len in *.
  rewrite length_firstn, length_skipn. lia.
Qed.

(** What a receiver takes from the frame built for the slice at [lo]:
    the [min size capacity] bytes of the image from [lo] on. *)
Lemma taken_program_frame s command size (image : list Z) lo c :
  0 <= lo -> 1 <= c <= 6 -> 0 <= size -> lo + Z.min size c <= len image ->
  taken c (program_frame s command size (slice image lo (lo + c)))
  = seg image lo (Z.min size c).
Proof.
  intros Hlo Hc Hs Hb. unfold taken, program_frame, packed.
  cbn [data nth skipn].
  rewrite slice_seg by lia.
  rewrite firstn_app.
  assert (Hlen : len (seg image lo (Z.min c (len image - lo)))
                 = Z.min c (len image - lo)) by (apply seg_length; lia).
  unfold len in Hlen at 1.
  replace (Z.to_nat (Z.min size c)
           - List.length (seg image lo (Z.min c (len image - lo))))%nat
    with 0%nat by lia.
  cbn [firstn]. rewrite app_nil_r.
  unfold seg. rewrite firstn_firstn. f_equal. lia.
Qed.

Lemma acks_inv s ev :
  acks s ev = true ->
  exists r rest,
    ev = Some r /\ arbitration_id r = _rx_id s /\
    data r = XCPResponses.SUCCESS :: rest.
Proof.
  destruct ev as [r|]; [|discriminate]. cbn.
  intros H. apply andb_prop in H. destruct H as [H1 H2].
  destruct (data r) as [|b0 rest] eqn:Hd; [discriminate|].
  apply Z.eqb_eq in H1, H2. subst b0.
  exists r, rest. auto.
Qed.

Section Transfer.
(** A device that acknowledges every awaited frame, an instance whose
    capacity fits the frame and whose unit holds at least two frames, and an
    image of bytes. *)
Variable rx : nat -> option Message.
Variable s : XCPFlash.
Variable image : list Z.
Variable F : nat.
Hypothesis Hacks : forall n, acks s (rx n) = true.
Hypothesis Hcap : 1 <= _max_data_prg s <= 6.
Hypothesis Hunit : 2 * _max_data_prg s <= _data_len s < 256.
Hypothesis Hbytes : Forall (fun b => 0 <= b < 256) image.

Lemma execute_frame_sent command size lo w :
  self w = s ->
  command = PROGRAM \/ command = PROGRAM_NEXT ->
  0 <= size < 256 ->
  exists resp p',
    execute rx (S F) command
      (mkKwargs None None None (Some size)
                (Some (slice image lo (lo + _max_data_prg s)))) w
    = Ret resp
        (mkWorld s
           (sent w ++ [program_frame s command size
                         (slice image lo (lo + _max_data_prg s))])
           p' (stdout w)).
Proof.
  intros Hs Hc Hsize.
  rewrite execute_PROGRAM; [| assumption | assumption | | apply Forall_slice; assumption].
  2:{ pose proof (slice_length image lo (_max_data_prg s) ltac:(lia)) as H.
      unfold len in H. lia. }
  rewrite Hs. fold (program_frame s command size
                      (slice image lo (lo + _max_data_prg s))).
  destruct (size <=? _max_data_prg s).
  - destruct (acks_inv s _ (Hacks (polls w))) as (r & rest & Hr & Hid & Hd).
    rewrite (exchange_acked rx F _ w r rest) by (rewrite ?Hs; assumption).
    do 2 eexists. unfold after_sends. rewrite Hs. reflexivity.
  - do 2 eexists. unfold send_can_msg, bind, bus_send, ret. rewrite Hs.
    reflexivity.
Qed.

(** The PROGRAM_NEXT loop transfers the [send_length] bytes that follow
    the cursor and leaves the cursor after them. *)
Lemma next_loop_transfers n :
  forall lo sl w,
    self w = s ->
    0 <= lo ->
    lo + Z.max sl 0 <= len image ->
    sl <= Z.of_nat n ->
    sl < 256 ->
    exists frames w' sl',
      program_next_loop rx n (S F) image lo sl w
      = Ret (lo + Z.max sl 0, sl') w' /\
      self w' = s /\
      sent w' = sent w ++ frames /\
      List.concat (map (taken (_max_data_prg s)) frames)
      = seg image lo (Z.max sl 0).
Proof.
  assert (Hdone : forall n lo sl w,
             sl <= 0 ->
             exists frames w' sl',
               program_next_loop rx n (S F) image lo sl w
               = Ret (lo + Z.max sl 0, sl') w' /\
               (self w = s -> self w' = s) /\
               sent w' = sent w ++ frames /\
               List.concat (map (taken (_max_data_prg s)) frames)
               = seg image lo (Z.max sl 0)).
  { intros n0 lo sl w Hle. exists [], w, sl.
    replace (Z.max sl 0) with 0 by lia. rewrite Z.add_0_r, app_nil_r.
    repeat split; auto.
    destruct n0; cbn [program_next_loop];
      replace (sl >? 0) with false
        by (symmetry; rewrite Z.gtb_ltb; apply Z.ltb_ge; lia);
      reflexivity. }
  induction n as [|n IH]; intros lo sl w Hs Hlo Hb Hn Hsl.
  - destruct (Hdone 0%nat lo sl w ltac:(lia)) as (fr & w' & sl' & H1 & H2 & H3 & H4).
    exists fr, w', sl'. auto.
  - destruct (Z_le_gt_dec sl 0) as [Hle|Hgt].
    { destruct (Hdone (S n) lo sl w Hle) as (fr & w' & sl' & H1 & H2 & H3 & H4).
      exists fr, w', sl'. auto. }
    cbn [program_next_loop].
    replace (sl >? 0) with true
      by (symmetry; rewrite Z.gtb_ltb; apply Z.ltb_lt; lia).
    unfold bind at 1, get_self at 1. rewrite Hs.
    unfold bind at 1.
    destruct (execute_frame_sent PROGRAM_NEXT sl lo w Hs
                (or_intror eq_refl) ltac:(lia)) as (resp & p' & ->).
    unfold bind at 1, get_self at 1. cbn [self].
    unfold bind at 1, get_self at 1. cbn [self].
    set (f := program_frame s PROGRAM_NEXT sl
                (slice image lo (lo + _max_data_prg s))).
    destruct (IH (lo + Z.min sl (_max_data_prg s)) (sl - _max_data_prg s)
                 (mkWorld s (sent w ++ [f]) p' (stdout w)))
      as (frames & w' & sl' & Hrun & Hself & Hsent & Hcat);
      [reflexivity | lia | lia | lia | lia |].
    exists (f :: frames), w', sl'.
    split; [|split; [exact Hself|split]].
    + rewrite Hrun. do 2 f_equal. lia.
    + rewrite Hsent. cbn [sent]. rewrite <- app_assoc. reflexivity.
    + cbn [map List.concat]. rewrite Hcat. unfold f.
      rewrite taken_program_frame by lia.
      rewrite seg_app by lia. f_equal. lia.
Qed.

Hypothesis Hfuel : len image <= Z.of_nat (S F).

Lemma progress_step lo w :
  0 < len image ->
  exists out,
    (if lo mod 10000 <=? _data_len s
     then print_progress_bar lo (len image)
     else ret tt) w
    = Ret tt (mkWorld (self w) (sent w) (polls w) out).
Proof.
  intros Hl. destruct (_ <=? _).
  - unfold print_progress_bar.
    replace (len image =? 0) with false by (symmetry; apply Z.eqb_neq; lia).
    unfold bind, write_bar.
    destruct (lo =? len image); eexists; reflexivity.
  - exists (stdout w). destruct w; reflexivity.
Qed.

(** The outer loop transfers what is left of the image when every unit
    still to come holds at least two frames. *)
Lemma loop_transfers n :
  forall lo w,
    self w = s ->
    0 <= lo <= len image ->
    (len image - lo) mod _data_len s = 0 \/
    2 * _max_data_prg s <= (len image - lo) mod _data_len s ->
    len image - lo <= Z.of_nat n ->
    exists frames w',
      program_loop rx n (S F) image lo w = Ret (len image) w' /\
      self w' = s /\
      sent w' = sent w ++ frames /\
      List.concat (map (taken (_max_data_prg s)) frames)
      = seg image lo (len image - lo).
Proof.
  induction n as [|n IH]; intros lo w Hs Hlo Hrem Hn.
  - assert (lo = len image) by lia. subst lo.
    exists [], w. rewrite program_loop_done by lia.
    rewrite Z.sub_diag, app_nil_r. auto.
  - destruct (Z.eq_dec lo (len image)) as [->|Hne].
    { exists [], w. rewrite program_loop_done by lia.
      rewrite Z.sub_diag, app_nil_r. auto. }
    assert (Hl : 0 < len image) by lia.
    set (R := len image - lo) in *.
    set (C := _max_data_prg s) in *.
    set (D := _data_len s) in *.
    assert (HR : 0 < R) by (unfold R; lia).
    set (s0 := Z.min D R).
    assert (Hs0 : 2 * C <= s0 <= R /\ s0 < 256).
    { unfold s0. destruct (Z_lt_ge_dec R D) as [Hlt|Hge].
      - rewrite Z.mod_small in Hrem by lia. lia.
      - lia. }
    assert (Hrem' : (R - s0) mod D = 0 \/ 2 * C <= (R - s0) mod D).
    { unfold s0. destruct (Z_lt_ge_dec R D) as [Hlt|Hge].
      - replace (R - Z.min D R) with 0 by lia. left. apply Z.mod_0_l. lia.
      - replace (Z.min D R) with D by lia.
        replace (R - D) with (R + (-1) * D) by lia.
        rewrite Z.mod_add by lia. exact Hrem. }
    cbn [program_loop].
    replace (lo <? len image) with true by (symmetry; apply Z.ltb_lt; lia).
    unfold bind at 1, get_self at 1. rewrite Hs.
    unfold bind at 1, get_self at 1. rewrite Hs.
    unfold bind at 1. fold D.
    destruct (progress_step lo w Hl) as [out Hout]. fold D in Hout.
    rewrite Hout. rewrite Hs.
    unfold bind at 1, get_self at 1. cbn [self].
    fold R. fold C.
    replace (if D >? R then R else D) with s0.
    2:{ unfold s0. rewrite Z.gtb_ltb. destruct (Z.ltb_spec R D); lia. }
    unfold bind at 1.
    destruct (execute_frame_sent PROGRAM s0 lo
                (mkWorld s (sent w) (polls w) out) eq_refl
                (or_introl eq_refl) ltac:(lia)) as (resp & p' & Hex).
    fold C in Hex. rewrite Hex. cbn [sent stdout].
    unfold bind at 1, get_self at 1. cbn [self]. fold C.
    unfold bind at 1, get_self at 1. cbn [self]. fold C.
    set (f := program_frame s PROGRAM s0 (slice image lo (lo + C))).
    replace (lo + Z.min (s0 - C) C) with (lo + C) by lia.
    destruct (next_loop_transfers (S F) (lo + C) (s0 - C)
                (mkWorld s (sent w ++ [f]) p' out))
      as (fr1 & w1 & sl' & Hrun & Hself1 & Hsent1 & Hcat1);
      [reflexivity | lia | unfold R in *; lia | unfold R in *; lia | lia |].
    unfold bind at 1. fold C in Hrun. rewrite Hrun. cbn [fst].
    replace (lo + C + Z.max (s0 - C) 0) with (lo + s0) by lia.
    destruct (IH (lo + s0) w1 Hself1) as (fr2 & w2 & Hrun2 & Hself2 & Hsent2 & Hcat2).
    + unfold R in *. lia.
    + replace (len image - (lo + s0)) with (R - s0) by (unfold R; lia).
      exact Hrem'.
    + unfold R in *. lia.
    + exists (f :: fr1 ++ fr2), w2.
      split; [exact Hrun2|]. split; [exact Hself2|]. split.
      * rewrite Hsent2, Hsent1. cbn [sent].
        rewrite <- !app_assoc. reflexivity.
      * cbn [map List.concat]. rewrite map_app, concat_app.
        fold C in Hcat1, Hcat2. rewrite Hcat1, Hcat2.
        unfold f. rewrite taken_program_frame by (unfold C, R in *; lia).
        replace (Z.min s0 C) with C by lia.
        replace (Z.max (s0 - C) 0) with (s0 - C) by lia.
        rewrite app_assoc.
        rewrite seg_app by (unfold C in *; lia).
        replace (C + (s0 - C)) with s0 by lia.
        replace (len image - (lo + s0)) with (R - s0) by (unfold R; lia).
        rewrite seg_app by (unfold R in *; lia).
        f_equal. lia.
Qed.

Lemma program_transfers w :
  self w = s ->
  0 < len image ->
  len image mod _data_len s = 0 \/
  2 * _max_data_prg s <= len image mod _data_len s ->
  exists frames w',
    program rx (S F) image w = Ret tt w' /\
    self w' = s /\
    sent w' = sent w ++ frames ++ [reset_frame s] /\
    List.concat (map (taken (_max_data_prg s)) frames) = image.
Proof.
  intros Hs Hl Hrem. unfold program.
  unfold bind at 1, print at 1.
  destruct (loop_transfers (S F) 0
              (mkWorld (self w) (sent w) (polls w)
                       (stdout w ++ [Print "flashing new firmware..."])))
    as (frames & w1 & Hrun & Hself & Hsent & Hcat);
    [exact Hs | lia | rewrite Z.sub_0_r; exact Hrem | lia |].
  unfold bind at 1. rewrite Hrun.
  unfold bind at 1. unfold print_progress_bar.
  replace (len image =? 0) with false by (symmetry; apply Z.eqb_neq; lia).
  rewrite Z.eqb_refl. unfold bind at 1, write_bar at 1.
  unfold print at 1.
  unfold bind at 1. unfold execute.
  unfold bind at 1, get_self at 1. cbn [self].
  unfold bind at 1. rewrite set_data_ok by (cbn; lia).
  cbn [sent polls stdout].
  destruct (acks_inv s _ (Hacks (polls w1))) as (r & rest & Hr & Hid & Hd).
  rewrite (exchange_acked rx F _ _ r rest) by (cbn [polls self]; rewrite ?Hself; assumption).
  exists frames. eexists. split; [reflexivity|].
  unfold after_sends. cbn [self sent polls stdout repeat].
  rewrite Hself, Hsent. cbn [sent].
  split; [reflexivity|]. split.
  - rewrite <- app_assoc. reflexivity.
  - rewrite Hcat, Z.sub_0_r. apply seg_all.
Qed.
End Transfer.

(** X13: with a device that acknowledges every awaited frame, a capacity
    of 1 to 6 bytes and a unit of at least two frames and less than 256
    bytes, [program] returns for every non-empty image of bytes whose length
    leaves a remainder of 0 or of at least two frames modulo the unit: the
    bytes a receiver takes from the PROGRAM and PROGRAM_NEXT frames, in the
    order sent, are the image, and PROGRAM_RESET is the last frame sent. *)
Theorem program_transfers_image
        (rx : nat -> option Message) (fuel : nat) (image : list Z) (w : World) :
  (forall n, acks (self w) (rx n) = true) ->
  1 <= _max_data_prg (self w) <= 6 ->
  2 * _max_data_prg (self w) <= _data_len (self w) < 256 ->
  Forall (fun b => 0 <= b < 256) image ->
  0 < len image <= Z.of_nat fuel ->
  len image mod _data_len (self w) = 0 \/
  2 * _max_data_prg (self w) <= len image mod _data_len (self w) ->
  exists frames w',
    program rx fuel image w = Ret tt w' /\
    self w' = self w /\
    sent w' = sent w ++ frames ++ [reset_frame (self w)] /\
    List.concat (map (taken (_max_data_prg (self w))) frames) = image.
Proof.
  intros Hacks Hcap Hunit Hbytes Hlen Hrem.
  destruct fuel as [|F]; [cbn in Hlen; lia|].
  apply (program_transfers rx (self w) image F Hacks Hcap Hunit Hbytes);
    [lia | reflexivity | lia | exact Hrem].
Qed.

Lemma program_transfers_image_witness :
  exists frames w',
    program rx_ok 13 data13 (mkWorld negotiated3 [] 0 []) = Ret tt w' /\
    self w' = negotiated3 /\
    sent w' = frames ++ [reset_frame negotiated3] /\
    List.concat (map (taken 6) frames) = data13.
Proof.
  apply (program_transfers_image rx_ok 13 data13 (mkWorld negotiated3 [] 0 [])).
  - intros n. reflexivity.
  - cbn; lia.
  - cbn; lia.
  - repeat constructor; lia.
  - cbn; lia.
  - right. cbn. lia.
Defined.

Lemma execute_PROGRAM_keeps_self rx fuel w size payload resp w1 :
  0 <= size < 256 ->
  (List.length payload <= 6)%nat ->
  Forall (fun b => 0 <= b < 256) payload ->
  execute rx fuel PROGRAM
          (mkKwargs None None None (Some size) (Some payload)) w
  = Ret resp w1 ->
  self w1 = self w.
Proof.
  intros Hs Hl Hb H.
  rewrite execute_PROGRAM in H by (auto; left; reflexivity).
  destruct (send_can_msg_world rx fuel
              (mkMessage (_tx_id (self w)) false
                 (value PROGRAM :: size :: payload
                    ++ repeat 0 (6 - List.length payload)))
              (size <=? _max_data_prg (self w)) w) as (k & n & Hk).
  rewrite H in Hk. cbn [state_of] in Hk. rewrite Hk. reflexivity.
Qed.

(** While the unit is no longer than one frame, the cursor never moves
    forward, so the loop cannot return. *)
Lemma loop_never_returns rx fuel (image : list Z) s n :
  forall lo w,
    self w = s ->
    1 <= _max_data_prg s <= 6 ->
    0 <= _data_len s <= _max_data_prg s ->
    Forall (fun b => 0 <= b < 256) image ->
    0 < len image ->
    lo < len image ->
    returns (program_loop rx n fuel image lo w) = false.
Proof.
  induction n as [|n IH]; intros lo w Hs Hcap Hunit Hbytes Hl Hlo.
  - cbn [program_loop].
    replace (lo <? len image) with true by (symmetry; apply Z.ltb_lt; lia).
    reflexivity.
  - cbn [program_loop].
    replace (lo <? len image) with true by (symmetry; apply Z.ltb_lt; lia).
    unfold bind at 1, get_self at 1. rewrite Hs.
    unfold bind at 1, get_self at 1. rewrite Hs.
    unfold bind at 1.
    assert (Hprog : exists out,
               (if lo mod 10000 <=? _data_len s
                then print_progress_bar lo (len image)
                else ret tt) w
               = Ret tt (mkWorld (self w) (sent w) (polls w) out)).
    { destruct (_ <=? _).
      - unfold print_progress_bar.
        replace (len image =? 0) with false by (symmetry; apply Z.eqb_neq; lia).
        unfold bind, write_bar.
        destruct (lo =? len image); eexists; reflexivity.
      - exists (stdout w). destruct w; reflexivity. }
    destruct Hprog as [out ->]. rewrite Hs.
    unfold bind at 1, get_self at 1. cbn [self].
    set (s0 := if _data_len s >? len image - lo
               then len image - lo else _data_len s).
    assert (Hs0 : 0 <= s0 <= _max_data_prg s).
    { unfold s0. rewrite Z.gtb_ltb.
      destruct (Z.ltb_spec (len image - lo) (_data_len s)); lia. }
    unfold bind at 1.
    destruct (execute rx fuel PROGRAM _ _) as [resp w1|e w1|w1] eqn:Hex;
      [|reflexivity|reflexivity].
    apply execute_PROGRAM_keeps_self in Hex;
      [| lia
       | pose proof (slice_length image lo (_max_data_prg s) ltac:(lia)) as H;
         unfold len in H; lia
       | apply Forall_slice; assumption].
    cbn [self] in Hex.
    unfold bind at 1, get_self at 1. rewrite Hex.
    unfold bind at 1, get_self at 1. rewrite Hex.
    unfold bind at 1.
    assert (Hinner : forall m b w2,
               program_next_loop rx m fuel image b (s0 - _max_data_prg s) w2
               = Ret (b, s0 - _max_data_prg s) w2).
    { intros m b w2. destruct m; cbn [program_next_loop];
        replace (s0 - _max_data_prg s >? 0) with false
          by (symmetry; rewrite Z.gtb_ltb; apply Z.ltb_ge; lia);
        reflexivity. }
    rewrite Hinner. cbn [fst].
    apply IH; try assumption. lia.
Qed.

(** X14: when the unit is no longer than one frame (one transfer per
    acknowledgement, or none), [program] never returns normally for a
    non-empty image of bytes, whatever the device answers and however long
    it runs: the cursor never moves forward. *)
Theorem program_single_frame_units_never_return
        (rx : nat -> option Message) (fuel : nat) (image : list Z) (w : World) :
  1 <= _max_data_prg (self w) <= 6 ->
  0 <= _data_len (self w) <= _max_data_prg (self w) ->
  Forall (fun b => 0 <= b < 256) image ->
  0 < len image ->
  returns (program rx fuel image w) = false.
Proof.
  intros Hcap Hunit Hbytes Hl. unfold program.
  unfold bind at 1, print at 1.
  unfold bind at 1.
  pose proof (loop_never_returns rx fuel image (self w) fuel 0
                (mkWorld (self w) (sent w) (polls w)
                         (stdout w ++ [Print "flashing new firmware..."]))
                eq_refl Hcap Hunit Hbytes Hl Hl) as H.
  destruct (program_loop rx fuel fuel image 0 _); [discriminate | |]; reflexivity.
Qed.

Lemma program_single_frame_units_never_return_witness :
  returns (program rx_ok 50 data13 (mkWorld negotiated1 [] 0 [])) = false.
Proof.
  apply (program_single_frame_units_never_return rx_ok 50 data13
           (mkWorld negotiated1 [] 0 [])).
  - cbn; lia.
  - cbn; lia.
  - repeat constructor; lia.
  - cbn; lia.
Defined.

(** ** More on [__call__]: what follows a failure, and a complete run *)

Lemma report_aborted_world arg w :
  exists out,
    state_of (report_aborted arg w)
    = mkWorld (self w) (sent w) (polls w) out.
Proof.
  destruct (report_aborted_cases arg w) as [(s & _ & ->)|(e & ->)].
  - eexists. reflexivity.
  - exists (stdout w). destruct w; reflexivity.
Qed.

Lemma cleanup_world rx fuel w :
  exists j n out,
    state_of
      (try_except (disconnect rx fuel)
         (fun e => match e with
                   | ConnectionAbortedError arg => Some (report_aborted arg)
                   | _ => None
                   end) w)
    = mkWorld (self w)
              (sent w ++ repeat (disconnect_frame (self w)) (S j)) n out.
Proof.
  unfold try_except, disconnect. unfold bind at 1, print at 1.
  unfold bind at 1. rewrite execute_DISCONNECT. cbn [self].
  set (w1 := mkWorld (self w) (sent w) (polls w)
                     (stdout w ++ [Print "disconnecting.."])).
  destruct (send_can_msg_world rx fuel (disconnect_frame (self w)) true w1)
    as (k & n & Hk).
  destruct (send_can_msg rx fuel (disconnect_frame (self w)) true w1)
    as [a w2|e w2|w2]; cbn [state_of] in Hk; subst w2.
  - exists k. do 2 eexists. reflexivity.
  - destruct e as [arg|m| |key| | |];
      try (exists k; do 2 eexists; reflexivity).
    destruct (report_aborted_world arg (after_sends w1 (disconnect_frame (self w)) (S k) n))
      as [out ->].
    exists k. do 2 eexists. reflexivity.
  - exists k. do 2 eexists. reflexivity.
Qed.

(** X15: once a stage has failed, with whatever exception, [__call__]
    sends nothing but DISCONNECT frames, at least one, and changes no
    instance field: a device that could not be connected, erased or
    programmed is not sent any further command of those stages. *)
Theorem call_only_disconnects_after_failure
        (rx : nat -> option Message) (fuel : nat) (start_addr : Z)
        (image : list Z) (w w1 : World) (e : exn) :
  stages rx fuel start_addr image w = Raise e w1 ->
  exists j n out,
    state_of (__call__ rx fuel start_addr image w)
    = mkWorld (self w1)
              (sent w1 ++ repeat (disconnect_frame (self w1)) (S j)) n out.
Proof.
  intros Hst. unfold __call__, try_finally.
  set (final := try_except (disconnect rx fuel) _).
  assert (Hfinal : forall out,
             exists j n out',
               state_of (final (mkWorld (self w1) (sent w1) (polls w1) out))
               = mkWorld (self w1)
                   (sent w1 ++ repeat (disconnect_frame (self w1)) (S j))
                   n out').
  { intros out. apply (cleanup_world rx fuel
                         (mkWorld (self w1) (sent w1) (polls w1) out)). }
  assert (Hany : forall (r : result unit) out,
             state_of r = mkWorld (self w1) (sent w1) (polls w1) out ->
             returns r = true \/ (exists e' w', r = Raise e' w') ->
             exists j n out',
               state_of
                 match r with
                 | Ret a w' =>
                     match final w' with
                     | Ret _ w'' => Ret a w''
                     | Raise e0 w'' => Raise e0 w''
                     | OutOfFuel w'' => OutOfFuel w''
                     end
                 | Raise e0 w' =>
                     match final w' with
                     | Ret _ w'' => Raise e0 w''
                     | Raise e' w'' => Raise e' w''
                     | OutOfFuel w'' => OutOfFuel w''
                     end
                 | OutOfFuel w' => OutOfFuel w'
                 end
               = mkWorld (self w1)
                   (sent w1 ++ repeat (disconnect_frame (self w1)) (S j))
                   n out').
  { intros r out Hr Hc. destruct (Hfinal out) as (j & n & out' & Hf).
    exists j, n, out'.
    destruct r as [a w'|e0 w'|w']; cbn [state_of] in Hr; subst.
    - rewrite <- Hf. destruct (final _); reflexivity.
    - rewrite <- Hf. destruct (final _); reflexivity.
    - destruct Hc as [Hc|(e' & w' & Hc)]; discriminate. }
  unfold try_except. rewrite Hst.
  destruct e as [arg|m| |key| | |]; cbv beta iota.
  - destruct (report_aborted_cases arg w1) as [(s & _ & ->)|(e' & ->)].
    + apply (Hany (print s w1) (stdout w1 ++ [Print s]));
        [reflexivity | left; reflexivity].
    + apply (Hany (Raise e' w1) (stdout w1)); [destruct w1; reflexivity|].
      right. eauto.
  - apply (Hany (print (nl ++ "Connection error: " ++ m) w1)
                (stdout w1 ++ [Print (nl ++ "Connection error: " ++ m)]));
      [reflexivity | left; reflexivity].
  - apply (Hany (Raise ZeroDivisionError w1) (stdout w1));
      [destruct w1; reflexivity | right; eauto].
  - apply (Hany (Raise (KeyError key) w1) (stdout w1));
      [destruct w1; reflexivity | right; eauto].
  - apply (Hany (Raise IndexError w1) (stdout w1));
      [destruct w1; reflexivity | right; eauto].
  - apply (Hany (Raise ValueError w1) (stdout w1));
      [destruct w1; reflexivity | right; eauto].
  - apply (Hany (Raise AttributeError w1) (stdout w1));
      [destruct w1; reflexivity | right; eauto].
Qed.

Lemma call_only_disconnects_after_failure_witness :
  exists j n out,
    state_of (__call__ rx_error_01 10 0x08000000 data8 world0)
    = mkWorld fresh
        ([mkMessage 0x100 false [0xFF; 0; 0; 0; 0; 0; 0; 0]]
           ++ repeat (disconnect_frame fresh) (S j)) n out.
Proof.
  apply (call_only_disconnects_after_failure rx_error_01 10 0x08000000 data8
           world0
           (mkWorld fresh [mkMessage 0x100 false [0xFF; 0; 0; 0; 0; 0; 0; 0]]
                    1 [Print "connecting..."])
           (ConnectionAbortedError (PInt 1))).
  vm_compute. reflexivity.
Defined.

Lemma acks_same_id s s' ev : _rx_id s = _rx_id s' -> acks s ev = acks s' ev.
Proof. intros H. unfold acks. rewrite H. reflexivity. Qed.

(** [connect] and then [clear] with a device that acknowledges at once. *)
Lemma setup_acked rx fuel w start_addr length
      r0 c1 c2 c3 c4 c5 rest0 r1 a1 a2 b3 b4 rest1 :
  (forall n, acks (self w) (rx n) = true) ->
  rx (polls w) = Some r0 ->
  data r0 = XCPResponses.SUCCESS :: c1 :: c2 :: c3 :: c4 :: c5 :: rest0 ->
  Z.land c1 16 <> 0 ->
  Z.land c2 6 = 0 ->
  rx (polls w + 1)%nat = Some r1 ->
  data r1 = XCPResponses.SUCCESS :: a1 :: a2 :: b3 :: b4 :: rest1 ->
  0 <= _conn_mode (self w) < 256 ->
  exists p out,
    (connect rx (S fuel) ;;; clear rx (S fuel) start_addr length) w
    = Ret tt
        (mkWorld
           (mkXCPFlash (_tx_id (self w)) (_rx_id (self w)) (_conn_mode (self w))
                       ((b3 - 2) * b4) (b3 - 2) (c4 * 256 + c5))
           (sent w ++
              [mkMessage (_tx_id (self w)) false
                 [0xFF; _conn_mode (self w); 0; 0; 0; 0; 0; 0];
               mkMessage (_tx_id (self w)) false [0xD2; 0; 0; 0; 0; 0; 0; 0];
               mkMessage (_tx_id (self w)) false
                 [0xF6; 0; 0; 0;
                  (start_addr / 2 ^ 24) mod 256; (start_addr / 2 ^ 16) mod 256;
                  (start_addr / 2 ^ 8) mod 256; start_addr mod 256];
               mkMessage (_tx_id (self w)) false
                 [0xD1; 0; 0; 0;
                  (length / 2 ^ 24) mod 256; (length / 2 ^ 16) mod 256;
                  (length / 2 ^ 8) mod 256; length mod 256]])
           p out).
Proof.
  intros Hacks H0 D0 Hflash Hgran H1 D1 Hmode.
  assert (I0 : arbitration_id r0 = _rx_id (self w)).
  { destruct (acks_inv _ _ (Hacks (polls w))) as (r & rest & Hr & Hid & _).
    rewrite H0 in Hr. injection Hr as <-. exact Hid. }
  assert (I1 : arbitration_id r1 = _rx_id (self w)).
  { destruct (acks_inv _ _ (Hacks (polls w + 1)%nat)) as (r & rest & Hr & Hid & _).
    rewrite H1 in Hr. injection Hr as <-. exact Hid. }
  destruct (acks_inv _ _ (Hacks (polls w + 1 + 1)%nat))
    as (r2 & rest2 & H2 & I2 & D2).
  destruct (acks_inv _ _ (Hacks (polls w + 1 + 1 + 1)%nat))
    as (r3 & rest3 & H3 & I3 & D3).
  unfold bind at 1. unfold connect. unfold bind at 1, print at 1.
  unfold bind at 1.
  rewrite (execute_CONNECT_acked rx fuel no_kwargs _ r0 c1 c2 c3 c4 c5 rest0)
    by assumption.
  cbn [self sent polls stdout _tx_id _rx_id _conn_mode _data_len
       _max_data_prg _max_data data_of].
  unfold bind at 1, ret at 1.
  unfold bind at 1.
  rewrite (getitem_nth _ 1 _ c1) by (try lia; rewrite D0; reflexivity).
  replace (Z.land c1 16 =? 0) with false by (symmetry; apply Z.eqb_neq; lia).
  unfold bind at 1, ret at 1.
  unfold bind at 1.
  rewrite (getitem_nth _ 2 _ c2) by (try lia; rewrite D0; reflexivity).
  rewrite Hgran. cbn [Z.eqb negb]. unfold ret at 1.
  unfold clear. unfold bind at 1, print at 1.
  unfold bind at 1.
  rewrite (execute_PROGRAM_START_acked rx fuel no_kwargs _ r1 a1 a2 b3 b4 rest1)
    by assumption.
  cbn [self sent polls stdout _tx_id _rx_id _conn_mode _data_len
       _max_data_prg _max_data].
  unfold bind at 1.
  rewrite (execute_SET_MTA rx (S fuel) _ None) by (cbn; lia).
  rewrite (exchange_acked rx fuel _ _ r2 rest2) by assumption.
  unfold bind at 1.
  rewrite execute_PROGRAM_CLEAR.
  rewrite (exchange_acked rx fuel _ _ r3 rest3) by assumption.
  do 2 eexists. unfold ret, after_sends.
  cbn [self sent polls stdout _tx_id _rx_id _conn_mode _data_len
       _max_data_prg _max_data repeat].
  rewrite <- !app_assoc. cbn [app]. reflexivity.
Qed.

(** X16: a complete run.  With a device that acknowledges every awaited
    frame, announces flash programming and address granularity 1 in its
    CONNECT reply and, in its PROGRAM_START reply, a capacity [b3 - 2] of 1
    to 6 bytes and units of at least two frames and less than 256 bytes,
    [__call__] returns normally for every image accepted by X13: the bus
    carries CONNECT, PROGRAM_START, SET_MTA with the start address,
    PROGRAM_CLEAR with the image length, the PROGRAM and PROGRAM_NEXT
    frames whose taken bytes are the image, PROGRAM_RESET and DISCONNECT,
    in this order, each once. *)
Theorem call_complete_run
        (rx : nat -> option Message) (fuel : nat) (start_addr : Z)
        (image : list Z) (w : World)
        (r0 : Message) (c1 c2 c3 c4 c5 : Z) (rest0 : list Z)
        (r1 : Message) (a1 a2 b3 b4 : Z) (rest1 : list Z) :
  (forall n, acks (self w) (rx n) = true) ->
  rx (polls w) = Some r0 ->
  data r0 = XCPResponses.SUCCESS :: c1 :: c2 :: c3 :: c4 :: c5 :: rest0 ->
  Z.land c1 16 <> 0 ->
  Z.land c2 6 = 0 ->
  rx (polls w + 1)%nat = Some r1 ->
  data r1 = XCPResponses.SUCCESS :: a1 :: a2 :: b3 :: b4 :: rest1 ->
  0 <= _conn_mode (self w) < 256 ->
  1 <= b3 - 2 <= 6 ->
  2 * (b3 - 2) <= (b3 - 2) * b4 < 256 ->
  Forall (fun b => 0 <= b < 256) image ->
  0 < len image <= Z.of_nat fuel ->
  len image mod ((b3 - 2) * b4) = 0 \/
  2 * (b3 - 2) <= len image mod ((b3 - 2) * b4) ->
  let tx := _tx_id (self w) in
  exists frames w',
    __call__ rx fuel start_addr image w = Ret tt w' /\
    sent w'
    = sent w ++
        [mkMessage tx false [0xFF; _conn_mode (self w); 0; 0; 0; 0; 0; 0];
         mkMessage tx false [0xD2; 0; 0; 0; 0; 0; 0; 0];
         mkMessage tx false
           [0xF6; 0; 0; 0;
            (start_addr / 2 ^ 24) mod 256; (start_addr / 2 ^ 16) mod 256;
            (start_addr / 2 ^ 8) mod 256; start_addr mod 256];
         mkMessage tx false
           [0xD1; 0; 0; 0;
            (len image / 2 ^ 24) mod 256; (len image / 2 ^ 16) mod 256;
            (len image / 2 ^ 8) mod 256; len image mod 256]]
        ++ frames
        ++ [mkMessage tx false [0xCF; 0; 0; 0; 0; 0; 0; 0];
            mkMessage tx false [0xFE; 0; 0; 0; 0; 0; 0; 0]] /\
    List.concat (map (taken (b3 - 2)) frames) = image.
Proof.
  intros Hacks H0 D0 Hflash Hgran H1 D1 Hmode Hcap Hunit Hbytes Hlen Hrem tx.
  destruct fuel as [|F]; [cbn in Hlen; lia|].
  destruct (setup_acked rx F w start_addr (len image)
              r0 c1 c2 c3 c4 c5 rest0 r1 a1 a2 b3 b4 rest1
              Hacks H0 D0 Hflash Hgran H1 D1 Hmode) as (p & out & Hsetup).
  set (s2 := mkXCPFlash (_tx_id (self w)) (_rx_id (self w)) (_conn_mode (self w))
                        ((b3 - 2) * b4) (b3 - 2) (c4 * 256 + c5)) in *.
  assert (Hacks2 : forall n, acks s2 (rx n) = true).
  { intros n. rewrite <- (Hacks n). apply acks_same_id. reflexivity. }
  match type of Hsetup with
  | _ = Ret tt ?W => set (w2 := W) in *
  end.
  destruct (program_transfers rx s2 image F Hacks2 Hcap Hunit Hbytes
              ltac:(lia) w2 eq_refl ltac:(lia) Hrem)
    as (frames & w3 & Hprog & Hself3 & Hsent3 & Hcat).
  assert (Hstages : stages rx (S F) start_addr image w = Ret tt w3).
  { unfold stages. unfold bind in Hsetup |- *.
    destruct (connect rx (S F) w) as [[] wa|e wa|wa]; try discriminate.
    destruct (clear rx (S F) start_addr (len image) wa) as [[] wb|e wb|wb];
      try discriminate.
    injection Hsetup as ->. exact Hprog. }
  destruct (acks_inv _ _ (Hacks2 (polls w3))) as (r4 & rest4 & H4 & I4 & D4).
  exists frames. eexists. split.
  - unfold __call__, try_finally, try_except. rewrite Hstages.
    unfold disconnect. unfold bind at 1, print at 1.
    unfold bind at 1. rewrite execute_DISCONNECT.
    rewrite (exchange_acked rx F _ _ r4 rest4);
      [reflexivity | exact H4 | cbn [self]; rewrite Hself3; exact I4 | exact D4].
  - unfold after_sends. cbn [self sent polls stdout repeat].
    rewrite Hself3, Hsent3. unfold w2, reset_frame, disconnect_frame, s2, tx.
    cbn [sent _tx_id]. split; [|exact Hcat].
    rewrite <- !app_assoc. reflexivity.
Qed.

Lemma call_complete_run_witness :
  exists frames w',
    __call__ rx_ok3 13 0x08004000 data13
             (mkWorld fresh [] 0 []) = Ret tt w' /\
    sent w'
    = [mkMessage 0x100 false [0xFF; 0; 0; 0; 0; 0; 0; 0];
       mkMessage 0x100 false [0xD2; 0; 0; 0; 0; 0; 0; 0];
       mkMessage 0x100 false [0xF6; 0; 0; 0; 0x08; 0x00; 0x40; 0x00];
       mkMessage 0x100 false [0xD1; 0; 0; 0; 0; 0; 0; 13]]
        ++ frames
        ++ [mkMessage 0x100 false [0xCF; 0; 0; 0; 0; 0; 0; 0];
            mkMessage 0x100 false [0xFE; 0; 0; 0; 0; 0; 0; 0]] /\
    List.concat (map (taken 6) frames) = data13.
Proof.
  apply (call_complete_run rx_ok3 13 0x08004000 data13 (mkWorld fresh [] 0 [])
           ok_reply3 0x10 0 8 3 0 [0; 0]
           ok_reply3 0x10 0 8 3 [0; 0; 0]).
  - intros n. reflexivity.
  - reflexivity.
  - reflexivity.
  - cbn; lia.
  - reflexivity.
  - reflexivity.
  - reflexivity.
  - cbn; lia.
  - lia.
  - lia.
  - repeat constructor; lia.
  - cbn; lia.
  - right. cbn. lia.
Defined.

(** ** More edges: no frame to resend, and a reply that is too short *)

(** X17: [wait_for_response] called without a frame to resend never sends
    anything and never counts a try: on a bus that stays silent it polls
    for as long as it runs and raises no Timeout. *)
Theorem wait_without_message_never_times_out
        (rx : nat -> option Message) (timeout : Z) (fuel : nat) (w : World) :
  (forall n, rx n = None) ->
  wait_for_response rx fuel timeout None w
  = OutOfFuel (mkWorld (self w) (sent w) (polls w + fuel)%nat (stdout w)).
Proof.
  intros Hsil. unfold wait_for_response.
  revert w. induction fuel as [|fuel IH]; intros w.
  - cbn. rewrite Nat.add_0_r. destruct w; reflexivity.
  - cbn [wait_for_response_loop]. change (1 =? 5) with false. cbn iota.
    unfold bind at 1. unfold get_message. rewrite Hsil.
    rewrite IH. cbn [self sent polls stdout].
    do 2 f_equal. lia.
Qed.

Lemma wait_without_message_never_times_out_witness :
  wait_for_response rx_silent 7 30 None world0
  = OutOfFuel (mkWorld fresh [] 7 []).
Proof.
  apply (wait_without_message_never_times_out rx_silent 30 7 world0).
  intros n. reflexivity.
Defined.

Lemma getitem_out_of_range d i w :
  len d <= i -> getitem d i w = Raise IndexError w.
Proof.
  intros Hi. unfold getitem.
  assert (0 <= len d) by (unfold len; lia).
  replace (i <? 0) with false by (symmetry; apply Z.ltb_ge; lia).
  replace ((i <? 0) || (len d <=? i)) with true; [reflexivity|].
  symmetry. apply orb_true_iff. right. apply Z.leb_le. lia.
Qed.

(** X18: a SUCCESS reply to CONNECT with fewer than 6 data bytes makes
    [connect] raise IndexError after the CONNECT frame was sent once;
    [__call__] has no clause for it, so the call does not return normally. *)
Theorem connect_short_reply_raises_index_error
        (rx : nat -> option Message) (fuel : nat) (start_addr : Z)
        (image : list Z) (w : World) (r : Message) (rest : list Z) :
  rx (polls w) = Some r ->
  arbitration_id r = _rx_id (self w) ->
  data r = XCPResponses.SUCCESS :: rest ->
  (List.length rest < 5)%nat ->
  0 <= _conn_mode (self w) < 256 ->
  (exists w1,
      connect rx (S fuel) w = Raise IndexError w1 /\
      sent w1 = sent w ++ [mkMessage (_tx_id (self w)) false
                             [0xFF; _conn_mode (self w); 0; 0; 0; 0; 0; 0]]) /\
  returns (__call__ rx (S fuel) start_addr image w) = false.
Proof.
  intros Hr Hid Hd Hlen Hmode.
  assert (Hconn : exists w1,
             connect rx (S fuel) w = Raise IndexError w1 /\
             sent w1 = sent w ++ [mkMessage (_tx_id (self w)) false
                                    [0xFF; _conn_mode (self w); 0; 0; 0; 0; 0; 0]]).
  { unfold connect. unfold bind at 1, print at 1.
    unfold bind at 1. unfold execute.
    unfold bind at 1, get_self at 1. cbn [self].
    unfold bind at 1. rewrite set_data_ok by (cbn; lia).
    unfold bind at 1. rewrite set_data_ok by (cbn; lia).
    unfold bind at 1.
    rewrite (exchange_acked rx fuel _ _ r rest) by assumption.
    cbn [data_of]. unfold bind at 1, ret at 1.
    unfold bind at 1.
    destruct (Nat.eq_dec (List.length rest) 4) as [H4|H4].
    - destruct rest as [|x1 [|x2 [|x3 [|x4 [|x5 rest]]]]]; try discriminate.
      rewrite (getitem_nth _ 4 _ x4) by (try lia; rewrite Hd; reflexivity).
      unfold bind at 1, get_self at 1.
      unfold bind at 1, set_self at 1.
      unfold bind at 1.
      rewrite getitem_out_of_range by (rewrite Hd; cbn; lia).
      eexists. split; [reflexivity|].
      unfold after_sends. cbn [sent repeat]. reflexivity.
    - rewrite getitem_out_of_range
        by (rewrite Hd; unfold len; cbn [List.length]; lia).
      eexists. split; [reflexivity|].
      unfold after_sends. cbn [sent repeat]. reflexivity. }
  split; [exact Hconn|].
  destruct Hconn as (w1 & Hc & _).
  unfold __call__, try_finally, try_except, stages.
  unfold bind at 1. rewrite Hc.
  destruct (match disconnect rx (S fuel) w1 with
            | Raise e w' => _
            | r0 => r0
            end); reflexivity.
Qed.

Lemma connect_short_reply_raises_index_error_witness :
  returns (__call__
             (fun _ => Some (mkMessage 0x200 false [0xFF; 0x10; 0; 8; 2]))
             10 0x08000000 data8 world0) = false.
Proof.
  apply (connect_short_reply_raises_index_error
           (fun _ => Some (mkMessage 0x200 false [0xFF; 0x10; 0; 8; 2]))
           9 0x08000000 data8 world0
           (mkMessage 0x200 false [0xFF; 0x10; 0; 8; 2]) [0x10; 0; 8; 2]).
  - reflexivity.
  - reflexivity.
  - reflexivity.
  - cbn; lia.
  - cbn; lia.
Defined.
